(** * Analytics service: metric validation, statistics and report assembly

    A shallow embedding of the analytics service's core logic
    (src/backend/analytics-service/src):

      - models/metrics.py        [BaseMetric], [MessageMetric], [SystemMetric]
      - models/reports.py        [BaseReport], [MessageDeliveryReport]
      - routes/reports.py        [ReportRequest], [ReportRoutes]
      - routes/dashboard.py      [Dashboard]
      - routes/metrics.py        [RouteSystemMetric]
      - services/calculator.py   [Np], [Calculator], [MetricsCalculator]
      - services/aggregator.py   [Aggregator], [MetricsAggregator]
      - services/__init__.py     [Services]
      - the undefined helpers    [AsWritten]

    Conventions of the embedding.

      - A Python call either returns or raises: [result A].  Loops run on
        fuel; [OutOfFuel] is the outcome of a loop that was given too little.
      - [datetime] is a naive timestamp counted in microseconds, [timedelta]
        a signed number of microseconds (the resolution of the datetime
        module), so comparisons and differences are exact integer arithmetic.
      - Python floats are idealised: values obtained with +, -, *, / and
        comparisons are rationals ([Q]); values obtained through a square
        root are real numbers ([R]).  Rounding error, infinities and NaN are
        outside the model.
      - [datetime.utcnow()] is an input: functions that read the clock take
        the reading as an argument.
      - A global name is looked up in the namespace of the module that
        contains the function: models/reports.py refers to
        [datetime.timedelta] with [datetime] bound to the class, and the
        embedding keeps the outcome of that lookup as it is.
      - Computations that are delegated to pandas and numpy's polyfit are
        Section variables that return or raise.  The callers of a method
        that no class defines take the method as a Section variable;
        [AsWritten] instantiates it with what the call does, which is to
        raise AttributeError.  The class statements themselves (the field
        order of the dataclasses) are not part of the embedding: it starts
        at the function bodies. *)

From Stdlib Require Import ZArith QArith Qround Qminmax Qabs Reals Qreals Lqa Lra Lia.
From Stdlib Require Import List String Ascii Bool DecimalString.
Import ListNotations.

Open Scope string_scope.
Open Scope list_scope.
Open Scope Z_scope.
Open Scope Q_scope.

(* ================================================================== *)
(** ** Python results and values *)

Module Py.

Inductive exn : Type :=
| ValueError (msg : string)
| AttributeError (msg : string)
| TypeError (msg : string)
| ZeroDivisionError (msg : string)
| ValidationError (errors : list (string * string)).

Inductive result (A : Type) : Type :=
| Ok (a : A)
| Raise (e : exn)
| OutOfFuel.

Arguments Ok {A} a.
Arguments Raise {A} e.
Arguments OutOfFuel {A}.

Definition bind {A B : Type} (r : result A) (k : A -> result B) : result B :=
  match r with
  | Ok a => k a
  | Raise e => Raise e
  | OutOfFuel => OutOfFuel
  end.

(** [for x in xs: ...] over a body that can raise. *)
Fixpoint mapM {A B : Type} (f : A -> result B) (xs : list A) : result (list B) :=
  match xs with
  | [] => Ok []
  | x :: xs' =>
      bind (f x) (fun y => bind (mapM f xs') (fun ys => Ok (y :: ys)))
  end.

(** [a / b] on two ints: true division, ZeroDivisionError when [b] is 0. *)
Definition py_truediv (a b : Z) : result Q :=
  if (b =? 0)%Z then Raise (ZeroDivisionError "division by zero")
  else Ok (inject_Z a / inject_Z b).

(** The values that appear in metadata and configuration dictionaries.
    [PIso t] is the string [t.isoformat()]. *)
#[warnings="-register-all"]
Inductive pyval : Type :=
| PNone
| PBool (b : bool)
| PInt (n : Z)
| PFloat (x : Q)
| PStr (s : string)
| PIso (t : Z)
| PTime (t : Z)
| PList (l : list pyval)
| PDict (d : list (string * pyval)).

(** A dict with string keys, in insertion order. *)
Definition dict : Type := list (string * pyval).

Fixpoint dict_get (k : string) (d : dict) : option pyval :=
  match d with
  | [] => None
  | (k', v) :: d' => if String.eqb k k' then Some v else dict_get k d'
  end.

(** [d[k] = v]: replaces in place, or appends a new key. *)
Fixpoint dict_set (k : string) (v : pyval) (d : dict) : dict :=
  match d with
  | [] => [(k, v)]
  | (k', v') :: d' =>
      if String.eqb k k' then (k, v) :: d' else (k', v') :: dict_set k v d'
  end.

(** [d.update(e)] *)
Definition dict_update (d e : dict) : dict :=
  fold_left (fun acc kv => dict_set (fst kv) (snd kv) acc) e d.

End Py.

Export Py.

Declare Scope py_scope.
Delimit Scope py_scope with py.
Notation "x <- c ;; k" := (Py.bind c (fun x => k))
  (at level 61, c at next level, right associativity) : py_scope.
Notation "c ;;; k" := (Py.bind c (fun _ => k))
  (at level 61, right associativity) : py_scope.

(* ================================================================== *)
(** ** datetime and timedelta *)

Module Datetime.

Definition datetime : Type := Z.
Definition timedelta : Type := Z.

Definition us_per_second : Z := 1000000.
Definition us_per_hour : Z := 3600 * us_per_second.
Definition us_per_day : Z := 24 * us_per_hour.

(** [timedelta(weeks=w, days=d, hours=h, seconds=s)] of the datetime
    module. *)
Definition mk_timedelta (weeks days hours seconds : Z) : timedelta :=
  (weeks * 7 * us_per_day + days * us_per_day
   + hours * us_per_hour + seconds * us_per_second)%Z.

Definition td_days (d : Z) : timedelta := mk_timedelta 0 d 0 0.
Definition td_hours (h : Z) : timedelta := mk_timedelta 0 0 h 0.
Definition td_weeks (w : Z) : timedelta := mk_timedelta w 0 0 0.
Definition td_seconds (s : Z) : timedelta := mk_timedelta 0 0 0 s.

(** [td.total_seconds()] *)
Definition total_seconds (td : timedelta) : Q := td # 1000000.

(** [int(x)] on a float: truncation toward zero. *)
Definition py_int (x : Q) : Z :=
  if Qle_bool 0 x then Qfloor x else Qceiling x.

End Datetime.

Export Datetime.

(* ================================================================== *)
(** ** Operations on dynamically typed values *)

(** [type(v).__name__], as it appears in the messages of TypeError and
    AttributeError. *)
Definition type_name (v : pyval) : string :=
  match v with
  | PNone => "NoneType"
  | PBool _ => "bool"
  | PInt _ => "int"
  | PFloat _ => "float"
  | PStr _ => "str"
  | PIso _ => "str"
  | PTime _ => "datetime.datetime"
  | PList _ => "list"
  | PDict _ => "dict"
  end.

(** The value of a number: [isinstance(v, (int, float))] holds exactly
    when this is [Some]; bool is a subclass of int. *)
Definition as_number (v : pyval) : option Q :=
  match v with
  | PBool b => Some (if b then 1 else 0)
  | PInt n => Some (inject_Z n)
  | PFloat x => Some x
  | _ => None
  end.

(** [k in d] *)
Definition dict_mem (k : string) (d : dict) : bool :=
  match dict_get k d with
  | Some _ => true
  | None => false
  end.

(** [d.get(k, default)] *)
Definition dict_get_default (k : string) (default : pyval) (d : dict) : pyval :=
  match dict_get k d with
  | Some v => v
  | None => default
  end.

(** [all(f(x) for x in xs)]: stops at the first element that fails, and
    raises what the test of an element raises before that. *)
Fixpoint py_all {A : Type} (f : A -> result bool) (xs : list A) : result bool :=
  match xs with
  | [] => Ok true
  | x :: xs' =>
      (b <- f x ;; if b : bool then py_all f xs' else Ok false)%py
  end.

(** [v.attr] on a value that has no such attribute. *)
Definition no_attribute {A : Type} (v : pyval) (attr : string) : result A :=
  Raise (AttributeError
           ("'" ++ type_name v ++ "' object has no attribute '" ++ attr ++ "'")).

(** [left op v] where the operands cannot be ordered. *)
Definition not_supported {A : Type} (op left : string) (v : pyval) : result A :=
  Raise (TypeError
           ("'" ++ op ++ "' not supported between instances of '" ++ left
            ++ "' and '" ++ type_name v ++ "'")).

(* ================================================================== *)
(** ** models/metrics.py *)

(** [round(x, 2)] on a float, over the rationals: the nearest multiple of
    1/100, ties to the even one.  Python rounds the binary64 value of x:
    where the rational lies halfway between two multiples of 1/100
    (107 / 4000 * 100 = 2.675), [round] returns the neighbour on the side of
    the binary64 value (2.67) and this function the even one (2.68); both
    are whole hundredths within 0.005 of x. *)
Definition py_round2 (x : Q) : Q :=
  let y := x * 100 in
  let f := Qfloor y in
  let d := y - inject_Z f in
  let n := if Qlt_le_dec d (1 # 2) then f
           else if Qlt_le_dec (1 # 2) d then (f + 1)%Z
           else if Z.even f then f else (f + 1)%Z in
  Qred (n # 100).

(** [re.match(r'^[a-zA-Z0-9-]{4,}$', s)]: at least four characters of the
    class, up to the end of the string or up to a final newline (which [$]
    also accepts). *)
Definition org_id_char (c : ascii) : bool :=
  let n := nat_of_ascii c in
  ((97 <=? n) && (n <=? 122) || (65 <=? n) && (n <=? 90)
   || (48 <=? n) && (n <=? 57) || (n =? 45))%nat.

Fixpoint org_id_match_from (count : nat) (s : string) : bool :=
  match s with
  | EmptyString => (4 <=? count)%nat
  | String c rest =>
      if org_id_char c then org_id_match_from (S count) rest
      else (nat_of_ascii c =? 10)%nat
           && (match rest with EmptyString => true | _ => false end)
           && (4 <=? count)%nat
  end.

Definition org_id_match (s : string) : bool := org_id_match_from 0 s.

Module BaseMetric.

Record t : Type := mk {
  metric_id : string;
  organization_id : string;
  timestamp : datetime;
  metadata : dict;
  is_valid : bool;
  validation_errors : list string
}.

Definition set_validation_errors (errs : list string) (self : t) : t :=
  mk (metric_id self) (organization_id self) (timestamp self)
     (metadata self) (is_valid self) errs.

Definition set_is_valid (b : bool) (self : t) : t :=
  mk (metric_id self) (organization_id self) (timestamp self)
     (metadata self) b (validation_errors self).

Definition set_metadata (md : dict) (self : t) : t :=
  mk (metric_id self) (organization_id self) (timestamp self)
     md (is_valid self) (validation_errors self).

Definition append_error (msg : string) (self : t) : t :=
  set_validation_errors (validation_errors self ++ [msg]) self.

Section WithUuid.

(** [uuid_parses s] holds when the standard library's [uuid.UUID(s)]
    returns instead of raising ValueError. *)
Variable uuid_parses : string -> bool.

(** [BaseMetric.validate]; [now] is the reading of [datetime.utcnow()].
    The Python method returns [self.is_valid] of the object returned
    here. *)
Definition validate (now : datetime) (self : t) : t :=
  let self := set_validation_errors [] self in
  let self := if uuid_parses (metric_id self) then self
              else append_error "Invalid metric_id format" self in
  let self := if org_id_match (organization_id self) then self
              else append_error "Invalid organization_id format" self in
  let self := if (now <? timestamp self)%Z
              then append_error "Timestamp cannot be in the future" self
              else self in
  set_is_valid (Nat.eqb (List.length (validation_errors self)) 0) self.

(** [BaseMetric.__post_init__]; [utcnow k] is the k-th clock reading
    of the construction. *)
Definition __post_init__ (class_name : string) (utcnow : nat -> datetime)
           (self : t) : t :=
  let self := set_validation_errors [] self in
  let self := validate (utcnow 0%nat) self in
  set_metadata
    (dict_update (metadata self)
       [("created_at", PIso (utcnow 1%nat));
        ("version", PStr "1.0.0");
        ("metric_type", PStr class_name)])
    self.

End WithUuid.

End BaseMetric.

Module MessageMetric.

Record t : Type := mk {
  base : BaseMetric.t;
  total_messages : Z;
  delivered_messages : Z;
  failed_messages : Z;
  delivery_status_breakdown : dict;
  queue_status : dict;
  message_types : dict;
  delivery_rate : Q
}.

Definition set_base (b : BaseMetric.t) (self : t) : t :=
  mk b (total_messages self) (delivered_messages self) (failed_messages self)
     (delivery_status_breakdown self) (queue_status self)
     (message_types self) (delivery_rate self).

Definition set_delivery_rate (r : Q) (self : t) : t :=
  mk (base self) (total_messages self) (delivered_messages self)
     (failed_messages self) (delivery_status_breakdown self)
     (queue_status self) (message_types self) r.

Definition is_valid (self : t) : bool := BaseMetric.is_valid (base self).
Definition validation_errors (self : t) : list string :=
  BaseMetric.validation_errors (base self).
Definition timestamp (self : t) : datetime := BaseMetric.timestamp (base self).

Definition append_error (msg : string) (self : t) : t :=
  set_base (BaseMetric.append_error msg (base self)) self.

(** [self.metadata['delivery_rate_history']] with one more entry: the
    value under the key, or a new list, is stored under the key and
    appended to.  A value that is not a list has no [append]. *)
Definition push_rate_history (now : datetime) (rate : Q) (md : dict)
  : result dict :=
  let entry := PDict [("timestamp", PIso now); ("rate", PFloat rate)] in
  match dict_get "delivery_rate_history" md with
  | None => Ok (dict_set "delivery_rate_history" (PList [entry]) md)
  | Some (PList history) =>
      Ok (dict_set "delivery_rate_history" (PList (history ++ [entry])) md)
  | Some v => no_attribute v "append"
  end.

(** [MessageMetric.calculate_delivery_rate]: the returned rate and the
    object after the call. *)
Definition calculate_delivery_rate (now : datetime) (self : t) : result (Q * t) :=
  if (total_messages self =? 0)%Z then Ok (0, self)
  else
    (quotient <- py_truediv (delivered_messages self) (total_messages self) ;;
     let rate := quotient * 100 in
     metadata <- push_rate_history now rate (BaseMetric.metadata (base self)) ;;
     let self := set_base (BaseMetric.set_metadata metadata (base self)) self in
     let self := if Qlt_le_dec rate 99
                 then append_error "Delivery rate below SLA requirement of 99%" self
                 else self in
     Ok (py_round2 rate, self))%py.

Section WithUuid.

Variable uuid_parses : string -> bool.

(** [MessageMetric.__post_init__] *)
Definition __post_init__ (utcnow : nat -> datetime) (self : t) : result t :=
  let self := set_base
                (BaseMetric.__post_init__ uuid_parses "MessageMetric" utcnow
                   (base self)) self in
  (out <- calculate_delivery_rate (utcnow 2%nat) self ;;
   let self := set_delivery_rate (fst out) (snd out) in
   let self := if ((total_messages self <? 0) || (delivered_messages self <? 0)
                   || (failed_messages self <? 0))%Z
               then append_error "Message counts cannot be negative" self
               else self in
   Ok (if (total_messages self <? delivered_messages self + failed_messages self)%Z
       then append_error "Total messages must be >= delivered + failed messages"
              self
       else self))%py.

(** The dataclass constructor [MessageMetric(...)]: the generated
    [__init__] stores the arguments, gives [is_valid] and
    [validation_errors] their defaults, and calls [__post_init__], which
    sets [delivery_rate] (the 0 below stands for the attribute not yet
    set). *)
Definition new (utcnow : nat -> datetime)
           (metric_id organization_id : string) (timestamp : datetime)
           (metadata : dict)
           (total delivered failed : Z)
           (breakdown queue types : dict) : result t :=
  __post_init__ utcnow
    (mk (BaseMetric.mk metric_id organization_id timestamp metadata false [])
        total delivered failed breakdown queue types 0).

End WithUuid.

End MessageMetric.

(* ================================================================== *)
(** ** models/reports.py *)

Module BaseReport.

Record t : Type := mk {
  report_id : string;
  organization_id : string;
  start_time : datetime;
  end_time : datetime;
  report_type : string;
  metadata : dict;
  validation_rules : dict;
  time_partitions : dict
}.

Definition set_metadata (md : dict) (self : t) : t :=
  mk (report_id self) (organization_id self) (start_time self) (end_time self)
     (report_type self) md (validation_rules self) (time_partitions self).

Definition set_validation_rules (vr : dict) (self : t) : t :=
  mk (report_id self) (organization_id self) (start_time self) (end_time self)
     (report_type self) (metadata self) vr (time_partitions self).

Definition set_time_partitions (tp : dict) (self : t) : t :=
  mk (report_id self) (organization_id self) (start_time self) (end_time self)
     (report_type self) (metadata self) (validation_rules self) tp.

(** [(self.end_time - self.start_time).total_seconds() / 3600] *)
Definition duration_hours (self : t) : Q :=
  total_seconds (end_time self - start_time self)%Z / 3600.

Section Namespace.

(** The outcome of evaluating the attribute reference
    [datetime.timedelta] in the module's global namespace: the
    constructor, taking weeks, days, hours and seconds, or the exception
    the lookup raises. *)
Variable getattr_datetime_timedelta : result (Z -> Z -> Z -> Z -> timedelta).

(** [datetime.timedelta(weeks=w, days=d, hours=h)] *)
Definition datetime_timedelta (w d h : Z) : result timedelta :=
  (ctor <- getattr_datetime_timedelta ;; Ok (ctor w d h 0%Z))%py.

(** [BaseReport._validate_time_range]; [now] is the clock reading. *)
Definition _validate_time_range (now : datetime) (self : t) : result unit :=
  if (end_time self <=? start_time self)%Z
  then Raise (ValueError "End time must be after start time")
  else if (now <? end_time self)%Z
  then Raise (ValueError "End time cannot be in the future")
  else
    (max_range <- datetime_timedelta 0 90 0 ;;
     if (max_range <? end_time self - start_time self)%Z
     then Raise (ValueError "Time range cannot exceed 90 days")
     else Ok tt)%py.

(** [BaseReport._initialize_metadata] *)
Definition _initialize_metadata (now : datetime) (self : t) : t :=
  set_metadata
    (dict_update (metadata self)
       [("created_at", PIso now);
        ("version", PStr "1.0.0");
        ("report_type", PStr (report_type self));
        ("time_range",
          PDict [("start", PIso (start_time self));
                 ("end", PIso (end_time self));
                 ("duration_hours", PFloat (duration_hours self))]);
        ("data_retention",
          PDict [("policy", PStr "standard");
                 ("retention_days", PInt 90);
                 ("archival_policy", PStr "compress_after_30_days")])])
    self.

(** One turn of the loop of [_calculate_partition_boundaries]: the
    increment of [current]. *)
Definition partition_step (partition_size : string) : result timedelta :=
  if String.eqb partition_size "hourly" then datetime_timedelta 0 0 1
  else if String.eqb partition_size "daily" then datetime_timedelta 0 1 0
  else datetime_timedelta 1 0 0.

(** [while current <= self.end_time: ...] *)
Fixpoint boundaries_loop (fuel : nat) (partition_size : string)
         (end_time current : datetime) (boundaries : list datetime)
  : result (list datetime) :=
  if (current <=? end_time)%Z then
    match fuel with
    | O => OutOfFuel
    | S fuel' =>
        let boundaries := boundaries ++ [current] in
        (step <- partition_step partition_size ;;
         boundaries_loop fuel' partition_size end_time (current + step)%Z
           boundaries)%py
    end
  else Ok boundaries.

(** [BaseReport._calculate_partition_boundaries] *)
Definition _calculate_partition_boundaries (fuel : nat) (self : t)
           (partition_size : string) : result (list datetime) :=
  boundaries_loop fuel partition_size (end_time self) (start_time self) [].

(** The strategy chosen by [_setup_time_partitions]. *)
Definition partition_strategy (self : t) : string :=
  if Qle_bool (duration_hours self) 24 then "hourly"
  else if Qle_bool (duration_hours self) 168 then "daily"
  else "weekly".

(** [{'hourly': 1, 'daily': 24, 'weekly': 168}[partition_size]] *)
Definition partition_hours (partition_size : string) : Q :=
  if String.eqb partition_size "hourly" then 1
  else if String.eqb partition_size "daily" then 24
  else 168.

Definition partition_count (self : t) : Z :=
  py_int (duration_hours self / partition_hours (partition_strategy self)).

(** [BaseReport._setup_time_partitions] *)
Definition _setup_time_partitions (fuel : nat) (self : t) : result t :=
  let partition_size := partition_strategy self in
  let count := partition_count self in
  (boundaries <- _calculate_partition_boundaries fuel self partition_size ;;
   Ok (set_time_partitions
         (dict_update (time_partitions self)
            [("strategy", PStr partition_size);
             ("partition_count", PInt count);
             ("partition_boundaries", PList (map PTime boundaries))])
         self))%py.

(** [BaseReport._configure_validation_rules] *)
Definition _configure_validation_rules (self : t) : t :=
  set_validation_rules
    (dict_update (validation_rules self)
       [("completeness_threshold", PFloat (95 # 100));
        ("freshness_threshold_minutes", PInt 60);
        ("consistency_checks",
          PList [PStr "time_series_continuity"; PStr "value_range_validation"]);
        ("quality_metrics",
          PList [PStr "accuracy"; PStr "completeness"; PStr "consistency"])])
    self.

(** [BaseReport.__post_init__]; [utcnow k] is the k-th clock reading. *)
Definition __post_init__ (fuel : nat) (utcnow : nat -> datetime) (self : t)
  : result t :=
  (_validate_time_range (utcnow 0%nat) self ;;;
   let self := _initialize_metadata (utcnow 1%nat) self in
   self <- _setup_time_partitions fuel self ;;
   Ok (_configure_validation_rules self))%py.

End Namespace.

(** [BaseReport.to_dict] *)
Definition to_dict (now : datetime) (self : t) : dict :=
  [("report_id", PStr (report_id self));
   ("organization_id", PStr (organization_id self));
   ("report_type", PStr (report_type self));
   ("time_range", PDict [("start", PIso (start_time self));
                         ("end", PIso (end_time self))]);
   ("metadata", PDict (metadata self));
   ("validation_rules", PDict (validation_rules self));
   ("time_partitions", PDict (time_partitions self));
   ("generated_at", PIso now)].

(** models/reports.py binds the global [datetime] with
    [from datetime import datetime], that is, to the class: the class has
    [utcnow] and no attribute [timedelta]. *)
Definition reports_py_timedelta : result (Z -> Z -> Z -> Z -> timedelta) :=
  Raise (AttributeError
           "type object 'datetime.datetime' has no attribute 'timedelta'").

(** The namespace in which the reference resolves to the datetime
    module's [timedelta]. *)
Definition stdlib_timedelta : result (Z -> Z -> Z -> Z -> timedelta) :=
  Ok mk_timedelta.

End BaseReport.

Module MessageDeliveryReport.

Record t : Type := mk {
  base : BaseReport.t;
  metrics : list MessageMetric.t;
  delivery_trends : dict;
  failure_analysis : dict;
  sla_compliance : dict;
  visualization_data : dict;
  average_delivery_rate : Q
}.

Definition set_base (b : BaseReport.t) (self : t) : t :=
  mk b (metrics self) (delivery_trends self) (failure_analysis self)
     (sla_compliance self) (visualization_data self)
     (average_delivery_rate self).

Definition set_delivery_trends (d : dict) (self : t) : t :=
  mk (base self) (metrics self) d (failure_analysis self)
     (sla_compliance self) (visualization_data self)
     (average_delivery_rate self).

Definition set_failure_analysis (d : dict) (self : t) : t :=
  mk (base self) (metrics self) (delivery_trends self) d
     (sla_compliance self) (visualization_data self)
     (average_delivery_rate self).

Definition set_sla_compliance (d : dict) (self : t) : t :=
  mk (base self) (metrics self) (delivery_trends self) (failure_analysis self)
     d (visualization_data self) (average_delivery_rate self).

Definition set_visualization_data (d : dict) (self : t) : t :=
  mk (base self) (metrics self) (delivery_trends self) (failure_analysis self)
     (sla_compliance self) d (average_delivery_rate self).

Definition set_average_delivery_rate (r : Q) (self : t) : t :=
  mk (base self) (metrics self) (delivery_trends self) (failure_analysis self)
     (sla_compliance self) (visualization_data self) r.

Definition sum_Z (l : list Z) : Z := fold_left Z.add l 0%Z.

(** [MessageDeliveryReport._calculate_average_delivery_rate] *)
Definition _calculate_average_delivery_rate (self : t) : result Q :=
  match metrics self with
  | [] => Ok 0
  | _ =>
      let total_messages := sum_Z (map MessageMetric.total_messages (metrics self)) in
      let total_delivered :=
        sum_Z (map MessageMetric.delivered_messages (metrics self)) in
      if (0 <? total_messages)%Z
      then (quotient <- py_truediv total_delivered total_messages ;;
            Ok (py_round2 (quotient * 100)))%py
      else Ok 0
  end.

Section Helpers.

Variable getattr_datetime_timedelta : result (Z -> Z -> Z -> Z -> timedelta).

(** [calculate_trends] is a pandas computation over the metrics (rolling
    means, correlation, quantiles, group-by hour). *)
Variable calculate_trends : t -> result dict.

(** Methods that [MessageDeliveryReport] calls and does not define: in
    [AsWritten] the two of the SLA evaluation raise AttributeError. *)
Variable _aggregate_failure_categories : t -> result pyval.
Variable _calculate_failure_trends : t -> result pyval.
Variable _calculate_compliance_trend : t -> result pyval.
Variable _identify_sla_violations : t -> result pyval.
Variable _prepare_time_series_data : t -> result pyval.
Variable _prepare_volume_data : t -> result pyval.
Variable _prepare_histogram_data : t -> result pyval.
Variable _prepare_failure_distribution : t -> result pyval.
Variable _prepare_correlation_data : t -> result pyval.

(** [MessageDeliveryReport._analyze_failures] *)
Definition _analyze_failures (self : t) : result t :=
  let total_failures :=
    sum_Z (map MessageMetric.failed_messages (metrics self)) in
  (categories <- _aggregate_failure_categories self ;;
   trends <- _calculate_failure_trends self ;;
   Ok (set_failure_analysis
         (dict_update (failure_analysis self)
            [("total_failures", PInt total_failures);
             ("failure_categories", categories);
             ("failure_trends", trends)])
         self))%py.

(** [MessageDeliveryReport._evaluate_sla_compliance] *)
Definition _evaluate_sla_compliance (self : t) : result t :=
  let sla_threshold : Q := 99 in
  let current_compliance := Qle_bool sla_threshold (average_delivery_rate self) in
  (trend <- _calculate_compliance_trend self ;;
   violations <- _identify_sla_violations self ;;
   Ok (set_sla_compliance
         (dict_update (sla_compliance self)
            [("sla_threshold", PFloat sla_threshold);
             ("current_compliance", PBool current_compliance);
             ("compliance_trend", trend);
             ("violation_periods", violations)])
         self))%py.

(** [MessageDeliveryReport._prepare_visualization_data] *)
Definition _prepare_visualization_data (self : t) : result t :=
  (rates <- _prepare_time_series_data self ;;
   volume <- _prepare_volume_data self ;;
   histogram <- _prepare_histogram_data self ;;
   failures <- _prepare_failure_distribution self ;;
   correlations <- _prepare_correlation_data self ;;
   Ok (set_visualization_data
         (dict_update (visualization_data self)
            [("time_series",
               PDict [("delivery_rates", rates); ("volume_data", volume)]);
             ("distributions",
               PDict [("delivery_rate_histogram", histogram);
                      ("failure_distribution", failures)]);
             ("correlations", correlations)])
         self))%py.

(** [MessageDeliveryReport.__post_init__] *)
Definition __post_init__ (fuel : nat) (utcnow : nat -> datetime) (self : t)
  : result t :=
  (b <- BaseReport.__post_init__ getattr_datetime_timedelta fuel utcnow
          (base self) ;;
   let self := set_base b self in
   average <- _calculate_average_delivery_rate self ;;
   let self := set_average_delivery_rate average self in
   trends <- calculate_trends self ;;
   let self := set_delivery_trends trends self in
   self <- _analyze_failures self ;;
   self <- _evaluate_sla_compliance self ;;
   _prepare_visualization_data self)%py.

End Helpers.

End MessageDeliveryReport.

(* ================================================================== *)
(** ** routes/reports.py *)

Module ReportRequest.

Record t : Type := mk {
  organization_id : string;
  report_type : string;
  start_time : datetime;
  end_time : datetime;
  filters : dict;
  time_period : string;
  include_sla_metrics : bool;
  performance_thresholds : dict
}.

(** [ReportRequest.validate_time_period] *)
Definition validate_time_period (v : string) : result string :=
  if existsb (String.eqb v) ["hourly"; "daily"; "weekly"] then Ok v
  else Raise (ValueError
    "Time period must be one of ['hourly', 'daily', 'weekly']").

(** [ReportRequest.validate_time_range], run on [start_time] and on
    [end_time]. *)
Definition validate_time_range (now : datetime) (v : datetime) : result datetime :=
  if (now <? v)%Z then Raise (ValueError "Time cannot be in the future")
  else Ok v.

(** [ReportRequest.validate_time_span], run on [end_time]; [values] holds
    [start_time] when that field passed its own validation.  This module
    imports [timedelta] by name, so [timedelta(days=90)] is the datetime
    module's constructor. *)
Definition validate_time_span (v : datetime) (values_start_time : option datetime)
  : result datetime :=
  match values_start_time with
  | Some start =>
      let time_diff := (v - start)%Z in
      if (td_days 90 <? time_diff)%Z
      then Raise (ValueError "Time range cannot exceed 90 days")
      else if Qle_bool (total_seconds time_diff) 0
      then Raise (ValueError "End time must be after start time")
      else Ok v
  | None => Ok v
  end.

Definition field_errors {A : Type} (field : string) (r : result A)
  : list (string * string) :=
  match r with
  | Raise (ValueError msg) => [(field, msg)]
  | _ => []
  end.

(** Validation of a request by the model class: the fields are validated
    in declaration order, a field's validators run in definition order
    and stop at the first that raises, and the errors of all fields are
    reported together. *)
Definition validate (utcnow : nat -> datetime) (req : t) : result t :=
  let r_start := validate_time_range (utcnow 0%nat) (start_time req) in
  let values_start := match r_start with Ok v => Some v | _ => None end in
  let r_end := (v <- validate_time_range (utcnow 1%nat) (end_time req) ;;
                validate_time_span v values_start)%py in
  let r_period := validate_time_period (time_period req) in
  match field_errors "start_time" r_start ++ field_errors "end_time" r_end
        ++ field_errors "time_period" r_period with
  | [] => Ok req
  | errs => Raise (ValidationError errs)
  end.

End ReportRequest.

(* ================================================================== *)
(** ** numpy reductions used by services/calculator.py *)

Module Np.

Definition sum (a : list Q) : Q := fold_right Qplus 0 a.

Definition size (a : list Q) : Q := inject_Z (Z.of_nat (List.length a)).

(** [np.mean(a)] for a non-empty array (numpy's result for an empty one
    is NaN). *)
Definition mean (a : list Q) : Q := sum a / size a.

(** [np.mean(mask)] of a boolean array: True counts 1, False 0. *)
Definition mean_bool (mask : list bool) : Q :=
  mean (map (fun b : bool => if b then 1 else 0) mask).

(** [np.min(a)], [np.max(a)]: ValueError on an empty array. *)
Definition min (a : list Q) : result Q :=
  match a with
  | [] => Raise (ValueError
      "zero-size array to reduction operation minimum which has no identity")
  | x :: a' => Ok (fold_left Qmin a' x)
  end.

Definition max (a : list Q) : result Q :=
  match a with
  | [] => Raise (ValueError
      "zero-size array to reduction operation maximum which has no identity")
  | x :: a' => Ok (fold_left Qmax a' x)
  end.

Fixpoint insert (x : Q) (a : list Q) : list Q :=
  match a with
  | [] => [x]
  | y :: a' => if Qle_bool x y then x :: a else y :: insert x a'
  end.

(** [np.sort(a)] *)
Definition sort (a : list Q) : list Q := fold_right insert [] a.

(** [np.median(a)] for a non-empty array: the middle element of the
    sorted array, or the mean of the two middle ones. *)
Definition median (a : list Q) : Q :=
  let s := sort a in
  let n := List.length a in
  if Nat.even n
  then (nth (n / 2 - 1)%nat s 0 + nth (n / 2)%nat s 0) / 2
  else nth (n / 2)%nat s 0.

(** [np.percentile(a, p)] with the default linear interpolation, for a
    non-empty array: the virtual index (n - 1) * p / 100 is split into
    its floor and its fractional part. *)
Definition percentile (a : list Q) (p : Z) : result Q :=
  if ((p <? 0) || (100 <? p))%Z
  then Raise (ValueError "Percentiles must be in the range [0, 100]")
  else
    let s := sort a in
    let n := List.length a in
    let virtual_index := (size a - 1) * (inject_Z p / 100) in
    let previous := Z.to_nat (Qfloor virtual_index) in
    let next := Nat.min (S previous) (n - 1)%nat in
    let gamma := virtual_index - inject_Z (Qfloor virtual_index) in
    let lo := nth previous s 0 in
    let hi := nth next s 0 in
    Ok (lo + (hi - lo) * gamma).

(** The population variance: the mean of the squared deviations. *)
Definition var (a : list Q) : Q :=
  let m := mean a in
  mean (map (fun x => (x - m) * (x - m)) a).

(** [np.std(a)]: the square root of [var]. *)
Definition std (a : list Q) : R := sqrt (Q2R (var a)).

End Np.

(* ================================================================== *)
(** ** services/calculator.py *)

Module Calculator.

Record basic_stats : Type := mk_basic_stats {
  stat_mean : Q;
  stat_median : Q;
  stat_std : R;
  stat_min : Q;
  stat_max : Q
}.

Record confidence_interval : Type := mk_confidence_interval {
  ci_lower : R;
  ci_upper : R;
  ci_confidence_level : Q
}.

(** The dict returned by [calculate_statistical_summary]; the key
    ['confidence_interval'] is present exactly when the field is [Some].
    ['percentiles'] is kept as the list of the entries the comprehension
    yields, in order (a dict holds a repeated key once). *)
Record summary : Type := mk_summary {
  basic_stats_of : basic_stats;
  percentiles_of : list (string * Q);
  confidence_interval_of : option confidence_interval
}.

(** The [options] argument; [None] is an absent key. *)
Record options : Type := mk_options {
  opt_percentiles : option (list Z);
  opt_include_outliers : option bool
}.

(** The key [f'p{p}'] *)
Definition percentile_key (p : Z) : string :=
  "p" ++ NilZero.string_of_int (Z.to_int p).

(** [options.get('percentiles', [25, 50, 75])] *)
Definition requested_percentiles (o : options) : list Z :=
  match opt_percentiles o with
  | Some ps => ps
  | None => [25; 50; 75]%Z
  end.

(** [calculate_statistical_summary].  numpy computes mean, median and
    std of an empty array as NaN and raises at [np.min]; the embedding
    goes to the raising reduction first, so that the rational mean is
    only taken of a non-empty array. *)
Definition calculate_statistical_summary (data : list Q) (o : options)
  : result summary :=
  let percentiles := requested_percentiles o in
  (mn <- Np.min data ;;
   mx <- Np.max data ;;
   ps <- mapM (fun p => v <- Np.percentile data p ;; Ok (percentile_key p, v))
           percentiles ;;
   let basic := mk_basic_stats (Np.mean data) (Np.median data) (Np.std data)
                  mn mx in
   let ci :=
     if (30 <=? List.length data)%nat then
       let confidence_level := 95 # 100 in
       let z_score := 1.96%R in
       let standard_error := (Np.std data / sqrt (INR (List.length data)))%R in
       let mean := Q2R (Np.mean data) in
       Some (mk_confidence_interval
               (mean - z_score * standard_error)%R
               (mean + z_score * standard_error)%R
               confidence_level)
     else None in
   Ok (mk_summary basic ps ci))%py.

(** The attributes of [MetricsCalculator] set by [__init__];
    [_historical_data] is a pandas frame, opaque here. *)
Record t : Type := mk {
  _delivery_thresholds : list Q;
  _engagement_thresholds : list Q;
  _performance_thresholds : dict;
  _historical_data : pyval
}.

Record threshold_analysis : Type := mk_threshold_analysis {
  threshold_breaches : list Q;
  critical_breaches : Q;
  threshold_margins : list Q
}.

(** [values < threshold] *)
Definition below (threshold : Q) (values : list Q) : list bool :=
  map (fun v => if Qlt_le_dec v threshold then true else false) values.

(** [MetricsCalculator._analyze_thresholds] *)
Definition _analyze_thresholds (values thresholds : list Q)
  : result threshold_analysis :=
  let breaches := map (fun th => Np.mean_bool (below th values)) thresholds in
  (lowest <- Np.min thresholds ;;
   let critical := Np.mean_bool (below lowest values) in
   margins <- mapM (fun th => Np.min (map (fun v => v - th) values)) thresholds ;;
   Ok (mk_threshold_analysis breaches critical margins))%py.

Record current_statistics : Type := mk_current_statistics {
  total_messages : Z;
  average_delivery_rate : Q;
  std_deviation : R;
  sla_compliance : Q
}.

Record delivery_statistics : Type := mk_delivery_statistics {
  current_statistics_of : current_statistics;
  statistical_analysis : summary;
  historical_trends : pyval;
  threshold_analysis_of : threshold_analysis;
  timestamp : datetime
}.

(** [delivery_rates >= 99.0] *)
Definition at_least (threshold : Q) (values : list Q) : list bool :=
  map (fun v => Qle_bool threshold v) values.

(** models/metrics.py, [SystemMetric]: the fields. *)
Record SystemMetric : Type := mk_SystemMetric {
  sm_base : BaseMetric.t;
  response_time : Q;
  cpu_usage : Q;
  memory_usage : Q;
  concurrent_users : Z;
  error_counts : dict;
  resource_thresholds : dict;
  performance_history : dict
}.

Record response_time_analysis : Type := mk_response_time_analysis {
  rt_average : Q;
  rt_p95 : Q;
  rt_sla_compliance : Q
}.

Record utilization : Type := mk_utilization {
  u_average : Q;
  u_peak : Q
}.

Record performance_statistics : Type := mk_performance_statistics {
  response_time_analysis_of : response_time_analysis;
  cpu : utilization;
  memory : utilization;
  health_indicators : pyval;
  perf_timestamp : datetime;
  predictions : option pyval
}.

Section Methods.

(** [_calculate_historical_trends] filters a pandas frame, fits a line
    with [np.polyfit] and calls [_calculate_yoy_change], which the class
    does not define.  The callers below take the method as a parameter;
    [AsWritten._calculate_historical_trends] is its body. *)
Variable _calculate_historical_trends :
  t -> string -> list Q -> datetime -> result pyval.

(** Methods that [MetricsCalculator] calls and does not define: in
    [AsWritten] they raise AttributeError. *)
Variable _calculate_health_status : t -> list SystemMetric -> result pyval.
Variable _generate_performance_predictions :
  t -> list SystemMetric -> result pyval.

(** [MetricsCalculator.calculate_delivery_statistics]; [now] is the
    clock reading of the result's timestamp. *)
Definition calculate_delivery_statistics (self : t) (now : datetime)
           (metrics : list MessageMetric.t) (time_range : datetime)
  : result delivery_statistics :=
  let valid_metrics := filter MessageMetric.is_valid metrics in
  match valid_metrics with
  | [] => Raise (ValueError "No valid metrics provided for analysis")
  | _ =>
      let delivery_rates := map MessageMetric.delivery_rate valid_metrics in
      let total_messages :=
        MessageDeliveryReport.sum_Z
          (map MessageMetric.total_messages valid_metrics) in
      (stats_summary <-
         calculate_statistical_summary delivery_rates
           (mk_options (Some [25; 50; 75; 90; 95; 99]%Z) (Some true)) ;;
       historical_comparison <-
         _calculate_historical_trends self "delivery_rate" delivery_rates
           time_range ;;
       let current :=
         mk_current_statistics total_messages (Np.mean delivery_rates)
           (Np.std delivery_rates)
           (Np.mean_bool (at_least 99 delivery_rates)) in
       thresholds <- _analyze_thresholds delivery_rates
                       (_delivery_thresholds self) ;;
       Ok (mk_delivery_statistics current stats_summary historical_comparison
             thresholds now))%py
  end.

(** [MetricsCalculator.calculate_performance_statistics].  With no
    metrics numpy computes the means as NaN and raises at the first
    [np.max]. *)
Definition calculate_performance_statistics (self : t) (now : datetime)
           (metrics : list SystemMetric) (include_predictions : bool)
  : result performance_statistics :=
  let response_times := map response_time metrics in
  let cpu_usage := map cpu_usage metrics in
  let memory_usage := map memory_usage metrics in
  (health_status <- _calculate_health_status self metrics ;;
   cpu_peak <- Np.max cpu_usage ;;
   memory_peak <- Np.max memory_usage ;;
   p95 <- Np.percentile response_times 95 ;;
   let rta := mk_response_time_analysis (Np.mean response_times) p95
                (Np.mean_bool (below 2 response_times)) in
   let performance_data :=
     mk_performance_statistics rta
       (mk_utilization (Np.mean cpu_usage) cpu_peak)
       (mk_utilization (Np.mean memory_usage) memory_peak)
       health_status now in
   if include_predictions
   then (preds <- _generate_performance_predictions self metrics ;;
         Ok (performance_data (Some preds)))
   else Ok (performance_data None))%py.

End Methods.

End Calculator.

(* ================================================================== *)
(** ** services/aggregator.py *)

Module Aggregator.

(** A row of the frame built by [aggregate_delivery_metrics]. *)
Record row : Type := mk_row {
  row_timestamp : datetime;
  row_delivery_rate : Q;
  row_total_messages : Z;
  row_delivered_messages : Z;
  row_failed_messages : Z;
  row_organization_id : string
}.

Definition delivery_rows (metrics : list MessageMetric.t) : list row :=
  map (fun m =>
         mk_row (MessageMetric.timestamp m) (MessageMetric.delivery_rate m)
           (MessageMetric.total_messages m) (MessageMetric.delivered_messages m)
           (MessageMetric.failed_messages m)
           (BaseMetric.organization_id (MessageMetric.base m)))
      metrics.

(** [valid_periods]: the pandas frequency alias of each period. *)
Definition valid_periods : list (string * string) :=
  [("hourly", "H"); ("daily", "D"); ("weekly", "W")].


Section Pandas.

(** [data.set_index('timestamp').groupby(pd.Grouper(freq=f))]: pandas
    groups the rows by their own timestamps, for the frequency alias f, or
    raises (a frame built from no metrics has no 'timestamp' column, and
    set_index raises KeyError on it). *)
Variable grouped : Type.
Variable pandas_groupby : string -> list row -> result grouped.


End Pandas.

End Aggregator.

(* ================================================================== *)
(** ** services/calculator.py: construction of the calculator *)

Module MetricsCalculator.

(** The test of one value in the loop of [validate_thresholds]: a number
    within [0, 100], or a list or a dict. *)
Definition threshold_value_ok (value : pyval) : bool :=
  match as_number value with
  | Some x =>
      negb ((if Qlt_le_dec x 0 then true else false)
            || (if Qlt_le_dec 100 x then true else false))
  | None =>
      match value with
      | PList _ => true
      | PDict _ => true
      | _ => false
      end
  end.

Definition required_keys : list string := ["delivery"; "engagement"; "performance"].

(** [validate_thresholds].  On a value that is not a dict, [key in
    thresholds] or [thresholds.items()] raises, and the handler of the
    function turns any exception into [False]. *)
Definition validate_thresholds (thresholds : pyval) (strict_mode : bool) : bool :=
  match thresholds with
  | PDict d =>
      if strict_mode && negb (forallb (fun key => dict_mem key d) required_keys)
      then false
      else forallb (fun kv => threshold_value_ok (snd kv)) d
  | _ => false
  end.

Definition set_historical_data (h : pyval) (self : Calculator.t) : Calculator.t :=
  Calculator.mk (Calculator._delivery_thresholds self)
    (Calculator._engagement_thresholds self)
    (Calculator._performance_thresholds self) h.

Section Construction.

(** [np.array(v)] of a configured list of thresholds, the columns of a
    pandas frame and its sort in place are computations of numpy and
    pandas. *)
Variable np_array : pyval -> result (list Q).
Variable columns : pyval -> result (list string).
Variable sort_values : string -> pyval -> result pyval.

(** [MetricsCalculator._validate_historical_data] *)
Definition _validate_historical_data (self : Calculator.t) : result Calculator.t :=
  let required_columns := ["timestamp"; "metric_type"; "value"] in
  (cols <- columns (Calculator._historical_data self) ;;
   if negb (forallb (fun col => existsb (String.eqb col) cols) required_columns)
   then Raise (ValueError "Historical data missing required columns")
   else
     sorted <- sort_values "timestamp" (Calculator._historical_data self) ;;
     Ok (set_historical_data sorted self))%py.

(** [MetricsCalculator.__init__] *)
Definition __init__ (config : dict) (historical_data : pyval)
  : result Calculator.t :=
  if negb (validate_thresholds (dict_get_default "thresholds" (PDict []) config) true)
  then Raise (ValueError "Invalid threshold configuration")
  else
    (delivery <- np_array
                   (dict_get_default "delivery_thresholds"
                      (PList [PFloat 99; PFloat 97; PFloat 95]) config) ;;
     engagement <- np_array
                     (dict_get_default "engagement_thresholds"
                        (PList [PFloat 80; PFloat 60; PFloat 40]) config) ;;
     let performance :=
       [("response_time", dict_get_default "response_time_threshold" (PFloat 2) config);
        ("cpu_usage", dict_get_default "cpu_threshold" (PFloat 80) config);
        ("memory_usage", dict_get_default "memory_threshold" (PFloat 80) config);
        ("concurrent_users",
          dict_get_default "concurrent_users_threshold" (PInt 1000) config)] in
     _validate_historical_data
       (Calculator.mk delivery engagement performance historical_data))%py.

End Construction.

End MetricsCalculator.

(* ================================================================== *)
(** ** services/aggregator.py: construction of the aggregator *)

Module MetricsAggregator.

Definition valid_periods : list string := ["hourly"; "daily"; "weekly"].

(** [period in valid_periods], a set of strings: the operand is hashed, and
    lists and dicts are unhashable. *)
Definition in_valid_periods (period : pyval) : result bool :=
  match period with
  | PStr s => Ok (existsb (String.eqb s) valid_periods)
  | PList _ => Raise (TypeError "unhashable type: 'list'")
  | PDict _ => Raise (TypeError "unhashable type: 'dict'")
  | _ => Ok false
  end.

(** [all(period in valid_periods for period in config['time_periods'])]: a
    list yields its elements, a dict its keys, a string its characters
    (an isoformat string is not empty, and no character is a period). *)
Definition time_periods_valid (time_periods : pyval) : result bool :=
  match time_periods with
  | PList l => py_all in_valid_periods l
  | PDict d => py_all in_valid_periods (map (fun kv => PStr (fst kv)) d)
  | PStr s =>
      py_all in_valid_periods
        (map (fun c => PStr (String c EmptyString)) (list_ascii_of_string s))
  | PIso _ => Ok false
  | v => Raise (TypeError ("'" ++ type_name v ++ "' object is not iterable"))
  end.

(** [0 <= threshold <= 100] *)
Definition in_percent_range (threshold : pyval) : result bool :=
  match as_number threshold with
  | Some x => Ok (Qle_bool 0 x && Qle_bool x 100)
  | None => not_supported "<=" "int" threshold
  end.

Definition required_keys : list string :=
  ["time_periods"; "optimization_settings"; "sla_thresholds"].

(** [validate_aggregation_config]; the function does not read
    [performance_requirements].  [config[key]] is reached only for a key
    that the first test found. *)
Definition validate_aggregation_config (config performance_requirements : dict)
  : result bool :=
  if negb (forallb (fun key => dict_mem key config) required_keys) then Ok false
  else
    (periods_ok <- time_periods_valid (dict_get_default "time_periods" PNone config) ;;
     if negb periods_ok then Ok false
     else
       let sla_thresholds := dict_get_default "sla_thresholds" PNone config in
       sla_ok <- match sla_thresholds with
                 | PDict d => py_all in_percent_range (map snd d)
                 | v => no_attribute v "values"
                 end ;;
       if negb sla_ok then Ok false
       else
         let opt_settings := dict_get_default "optimization_settings" PNone config in
         match opt_settings with
         | PDict d =>
             match dict_get_default "memory_efficient" (PBool false) d with
             | PBool _ => Ok true
             | _ => Ok false
             end
         | v => no_attribute v "get"
         end)%py.

(** A [MetricsAggregator] while [__init__] runs: an attribute is [None]
    until the assignment that creates it. *)
Record t : Type := mk {
  _calculator : option Calculator.t;
  _message_data : option pyval;
  _engagement_data : option pyval;
  _system_data : option pyval;
  _aggregation_config : option dict;
  _performance_thresholds : option dict
}.

(** The instance that [__init__] receives. *)
Definition fresh : t := mk None None None None None None.

(** [self._performance_thresholds] *)
Definition get_performance_thresholds (self : t) : result dict :=
  match _performance_thresholds self with
  | Some d => Ok d
  | None =>
      Raise (AttributeError
        "'MetricsAggregator' object has no attribute '_performance_thresholds'")
  end.

(** [MetricsAggregator._validate_config] *)
Definition _validate_config (self : t) (config : dict) : result dict :=
  (requirements <- get_performance_thresholds self ;;
   valid <- validate_aggregation_config config requirements ;;
   if negb valid then Raise (ValueError "Invalid aggregation configuration")
   else Ok config)%py.

Section Construction.

Variable np_array : pyval -> result (list Q).
Variable columns : pyval -> result (list string).
Variable sort_values : string -> pyval -> result pyval.

(** [pd.DataFrame(columns=cols)]; [pd.DataFrame()] is the frame of no
    columns. *)
Variable DataFrame : list string -> pyval.

(** [MetricsAggregator.__init__]; the two calls of [pd.set_option] at its
    end change no attribute. *)
Definition __init__ (aggregation_config performance_thresholds : dict)
  : result t :=
  let self := fresh in
  (calculator <- MetricsCalculator.__init__ np_array columns sort_values
                   performance_thresholds
                   (DataFrame ["timestamp"; "metric_type"; "value"]) ;;
   let self := mk (Some calculator) (_message_data self) (_engagement_data self)
                 (_system_data self) (_aggregation_config self)
                 (_performance_thresholds self) in
   let self := mk (_calculator self) (Some (DataFrame [])) (Some (DataFrame []))
                 (Some (DataFrame [])) (_aggregation_config self)
                 (_performance_thresholds self) in
   validated <- _validate_config self aggregation_config ;;
   let self := mk (_calculator self) (_message_data self) (_engagement_data self)
                 (_system_data self) (Some validated)
                 (_performance_thresholds self) in
   Ok (mk (_calculator self) (_message_data self) (_engagement_data self)
         (_system_data self) (_aggregation_config self)
         (Some performance_thresholds)))%py.

End Construction.

End MetricsAggregator.

(* ================================================================== *)
(** ** services/__init__.py *)

Module Services.

Definition DEFAULT_CONFIG : dict :=
  [("time_periods", PList [PStr "hourly"; PStr "daily"; PStr "weekly"]);
   ("optimization_settings",
     PDict [("memory_efficient", PBool true); ("parallel", PBool true)]);
   ("sla_thresholds",
     PDict [("delivery_rate", PFloat 99);
            ("response_time", PFloat 2);
            ("concurrent_users", PInt 1000)])].

Definition PERFORMANCE_THRESHOLDS : dict :=
  [("response_time", PFloat 2);
   ("delivery_rate", PFloat 99);
   ("concurrent_users", PInt 1000);
   ("cpu_usage", PFloat 80);
   ("memory_usage", PFloat 80)].

(** [config = DEFAULT_CONFIG.copy()], updated with [custom_config] when
    that is a non-empty dict. *)
Definition merged_config (custom_config : option dict) : dict :=
  match custom_config with
  | Some (kv :: custom) => dict_update DEFAULT_CONFIG (kv :: custom)
  | _ => DEFAULT_CONFIG
  end.

Section Factories.

Variable np_array : pyval -> result (list Q).
Variable columns : pyval -> result (list string).
Variable sort_values : string -> pyval -> result pyval.
Variable DataFrame : list string -> pyval.

(** [create_metrics_aggregator] *)
Definition create_metrics_aggregator (custom_config : option dict)
  : result MetricsAggregator.t :=
  let config := merged_config custom_config in
  MetricsAggregator.__init__ np_array columns sort_values DataFrame
    config PERFORMANCE_THRESHOLDS.

(** [create_metrics_calculator] *)
Definition create_metrics_calculator (historical_data : pyval)
  : result Calculator.t :=
  let historical_data :=
    match historical_data with
    | PNone => DataFrame ["timestamp"; "metric_type"; "value"]
    | h => h
    end in
  MetricsCalculator.__init__ np_array columns sort_values
    [("thresholds", PDict PERFORMANCE_THRESHOLDS)] historical_data.

End Factories.

End Services.

(* ================================================================== *)
(** ** models/metrics.py: SystemMetric *)

Module SystemMetric.

Definition t : Type := Calculator.SystemMetric.

Definition set_base (b : BaseMetric.t) (self : t) : t :=
  Calculator.mk_SystemMetric b (Calculator.response_time self)
    (Calculator.cpu_usage self) (Calculator.memory_usage self)
    (Calculator.concurrent_users self) (Calculator.error_counts self)
    (Calculator.resource_thresholds self) (Calculator.performance_history self).

Definition set_performance_history (h : dict) (self : t) : t :=
  Calculator.mk_SystemMetric (Calculator.sm_base self) (Calculator.response_time self)
    (Calculator.cpu_usage self) (Calculator.memory_usage self)
    (Calculator.concurrent_users self) (Calculator.error_counts self)
    (Calculator.resource_thresholds self) h.

Definition validation_errors (self : t) : list string :=
  BaseMetric.validation_errors (Calculator.sm_base self).

Definition is_valid (self : t) : bool :=
  BaseMetric.is_valid (Calculator.sm_base self).

Definition append_error (msg : string) (self : t) : t :=
  set_base (BaseMetric.append_error msg (Calculator.sm_base self)) self.

(** [x > threshold] for a float [x] *)
Definition greater (x : Q) (threshold : pyval) : result bool :=
  match as_number threshold with
  | Some y => Ok (if Qlt_le_dec y x then true else false)
  | None => not_supported ">" "float" threshold
  end.

(** [x < threshold] for a number [x] of the type named [left] *)
Definition less (left : string) (x : Q) (threshold : pyval) : result bool :=
  match as_number threshold with
  | Some y => Ok (if Qlt_le_dec x y then true else false)
  | None => not_supported "<" left threshold
  end.

(** [SystemMetric.validate_thresholds] *)
Definition validate_thresholds (self : t) : result t :=
  (over <- greater (Calculator.response_time self)
             (dict_get_default "max_response_time" (PFloat 2)
                (Calculator.resource_thresholds self)) ;;
   let self := if over : bool
               then append_error "Response time exceeds threshold" self
               else self in
   over <- greater (Calculator.cpu_usage self)
             (dict_get_default "max_cpu_usage" (PFloat 80)
                (Calculator.resource_thresholds self)) ;;
   let self := if over : bool
               then append_error "CPU usage exceeds threshold" self
               else self in
   over <- greater (Calculator.memory_usage self)
             (dict_get_default "max_memory_usage" (PFloat 80)
                (Calculator.resource_thresholds self)) ;;
   Ok (if over : bool
       then append_error "Memory usage exceeds threshold" self
       else self))%py.

(** [history.setdefault(key, []).append(v)] *)
Definition history_append (key : string) (v : pyval) (history : dict)
  : result dict :=
  match dict_get key history with
  | None => Ok (dict_set key (PList [v]) history)
  | Some (PList l) => Ok (dict_set key (PList (l ++ [v])) history)
  | Some w => no_attribute w "append"
  end.

(** [SystemMetric.update_performance_history]; [now] is the clock
    reading. *)
Definition update_performance_history (now : datetime) (self : t) : result t :=
  (h <- history_append "response_times" (PFloat (Calculator.response_time self))
          (Calculator.performance_history self) ;;
   h <- history_append "cpu_usage" (PFloat (Calculator.cpu_usage self)) h ;;
   h <- history_append "memory_usage" (PFloat (Calculator.memory_usage self)) h ;;
   h <- history_append "timestamps" (PIso now) h ;;
   Ok (set_performance_history h self))%py.

(** [sum(values)]: the running total is an int until a float is added. *)
Fixpoint py_sum (total : pyval) (values : list pyval) : result pyval :=
  match values with
  | [] => Ok total
  | v :: values' =>
      match total, v with
      | PInt a, PInt n => py_sum (PInt (a + n)) values'
      | PInt a, PBool b => py_sum (PInt (a + (if b then 1 else 0))) values'
      | PInt a, PFloat x => py_sum (PFloat (inject_Z a + x)) values'
      | PFloat a, PInt n => py_sum (PFloat (a + inject_Z n)) values'
      | PFloat a, PBool b => py_sum (PFloat (a + (if b then 1 else 0))) values'
      | PFloat a, PFloat x => py_sum (PFloat (a + x)) values'
      | _, _ =>
          Raise (TypeError
                   ("unsupported operand type(s) for +: '" ++ type_name total
                    ++ "' and '" ++ type_name v ++ "'"))
      end
  end.

(** [SystemMetric.is_healthy]: the five checks are evaluated in order, then
    combined. *)
Definition is_healthy (self : t) : result bool :=
  let thresholds := Calculator.resource_thresholds self in
  let response_ok := if Qlt_le_dec (Calculator.response_time self) 2
                     then true else false in
  let users_ok := (Calculator.concurrent_users self <=? 1000)%Z in
  (cpu_ok <- less "float" (Calculator.cpu_usage self)
               (dict_get_default "max_cpu_usage" (PFloat 80) thresholds) ;;
   memory_ok <- less "float" (Calculator.memory_usage self)
                  (dict_get_default "max_memory_usage" (PFloat 80) thresholds) ;;
   errors <- py_sum (PInt 0) (map snd (Calculator.error_counts self)) ;;
   errors_ok <- match as_number errors with
                | Some total =>
                    less (type_name errors) total
                      (dict_get_default "max_errors" (PInt 100) thresholds)
                | None => Ok false
                end ;;
   Ok (response_ok && users_ok && cpu_ok && memory_ok && errors_ok))%py.

Section WithUuid.

Variable uuid_parses : string -> bool.

(** [SystemMetric.__post_init__]; [utcnow k] is the k-th clock reading. *)
Definition __post_init__ (utcnow : nat -> datetime) (self : t) : result t :=
  let self := set_base
                (BaseMetric.__post_init__ uuid_parses "SystemMetric" utcnow
                   (Calculator.sm_base self)) self in
  (self <- validate_thresholds self ;;
   update_performance_history (utcnow 2%nat) self)%py.

End WithUuid.

End SystemMetric.

(* ================================================================== *)
(** ** routes/reports.py: cache keys and service configuration *)

Module ReportRoutes.

Definition CACHE_TTL : Z := 300.

Definition SLA_THRESHOLDS : dict :=
  [("delivery_rate", PFloat (99 # 100));
   ("response_time", PFloat 2);
   ("concurrent_users", PInt 1000)].

Section Isoformat.

(** [t.isoformat()] *)
Variable isoformat : datetime -> string.

(** [get_cache_key] *)
Definition get_cache_key (request : ReportRequest.t) : string :=
  ("report:" ++ ReportRequest.organization_id request
   ++ ":" ++ ReportRequest.report_type request
   ++ ":" ++ isoformat (ReportRequest.start_time request)
   ++ ":" ++ isoformat (ReportRequest.end_time request))%string.

End Isoformat.

(** The arguments with which [get_delivery_report] constructs the
    calculator and the aggregator. *)
Definition calculator_config : dict := [("thresholds", PDict SLA_THRESHOLDS)].

Definition aggregation_config (request : ReportRequest.t) : dict :=
  [("time_periods", PList [PStr (ReportRequest.time_period request)]);
   ("optimization_settings", PDict [("memory_efficient", PBool true)]);
   ("sla_thresholds", PDict SLA_THRESHOLDS)].

End ReportRoutes.

(* ================================================================== *)
(** ** routes/dashboard.py *)

Module Dashboard.

Record DashboardMetricsResponse : Type := mk {
  delivery_metrics : dict;
  engagement_metrics : dict;
  system_metrics : dict;
  sla_metrics : dict;
  timestamp : datetime;
  cache_info : dict
}.

(** [DashboardMetricsResponse.__init__]; [now] is the clock reading. *)
Definition __init__ (now : datetime)
           (delivery engagement system sla : dict) : DashboardMetricsResponse :=
  mk delivery engagement system sla now [("cached_at", PNone); ("ttl", PNone)].

(** [v.get(key)], [None] for an absent key *)
Definition get (v : pyval) (key : string) : result (option pyval) :=
  match v with
  | PDict d => Ok (dict_get key d)
  | _ => no_attribute v "get"
  end.

(** [v >= bound] and [v <= bound] for a float [bound] *)
Definition at_least (v : pyval) (bound : Q) : result bool :=
  match as_number v with
  | Some x => Ok (Qle_bool bound x)
  | None =>
      Raise (TypeError
               ("'>=' not supported between instances of '" ++ type_name v
                ++ "' and 'float'"))
  end.

Definition at_most (v : pyval) (bound : Q) : result bool :=
  match as_number v with
  | Some x => Ok (Qle_bool x bound)
  | None =>
      Raise (TypeError
               ("'<=' not supported between instances of '" ++ type_name v
                ++ "' and 'float'"))
  end.

(** [DashboardMetricsResponse.validate_sla_compliance].  The default of
    the second check is [float('inf')], which is not [<= 2.0]. *)
Definition validate_sla_compliance (self : DashboardMetricsResponse)
  : result bool :=
  (delivery_ok <- at_least
                    (dict_get_default "average_delivery_rate" (PInt 0)
                       (delivery_metrics self)) 99 ;;
   p95 <- get (dict_get_default "response_time_analysis" (PDict [])
                 (system_metrics self)) "p95" ;;
   response_ok <- match p95 with
                  | Some v => at_most v 2
                  | None => Ok false
                  end ;;
   cpu <- get (dict_get_default "resource_utilization" (PDict [])
                 (system_metrics self)) "cpu" ;;
   peak <- get (match cpu with Some v => v | None => PDict [] end) "peak" ;;
   cpu_ok <- at_most (match peak with Some v => v | None => PInt 100 end) 80 ;;
   Ok (delivery_ok && response_ok && cpu_ok))%py.

(** [get_cache_key] *)
Definition get_cache_key (org_id time_period : string) : string :=
  ("dashboard_metrics:" ++ org_id ++ ":" ++ time_period)%string.

End Dashboard.

(* ================================================================== *)
(** ** routes/metrics.py: the health check of SystemMetric *)

Module RouteSystemMetric.

(** The class of routes/metrics.py; the usages in [resource_usage] are
    numbers. *)
Record t : Type := mk {
  id : string;
  organization_id : string;
  timestamp : datetime;
  metadata : dict;
  is_valid : bool;
  response_time : Q;
  concurrent_users : Z;
  resource_usage : list (string * Q);
  health_status : dict;
  performance_history : list pyval
}.

(** The dict that [check_health] returns. *)
Record health_checks : Type := mk_health_checks {
  checked_at : datetime;
  checks : list (string * string);
  health_score : Q;
  overall_status : string
}.

(** [checks[k] = v] *)
Fixpoint checks_set (k v : string) (d : list (string * string))
  : list (string * string) :=
  match d with
  | [] => [(k, v)]
  | (k', v') :: d' =>
      if String.eqb k k' then (k, v) :: d' else (k', v') :: checks_set k v d'
  end.

Fixpoint checks_get (k : string) (d : list (string * string)) : option string :=
  match d with
  | [] => None
  | (k', v) :: d' => if String.eqb k k' then Some v else checks_get k d'
  end.

(** One turn of [for resource, usage in self.resource_usage.items()]. *)
Definition check_resource (state : Q * list (string * string))
           (entry : string * Q) : Q * list (string * string) :=
  let health_score := fst state in
  let checks := snd state in
  let resource := fst entry in
  let usage := snd entry in
  if Qlt_le_dec 80 usage
  then (health_score - (usage - 80) * (5 # 10),
        checks_set ("resource_" ++ resource) "warning" checks)
  else (health_score, checks_set ("resource_" ++ resource) "healthy" checks).

(** The score and the checks before the clamp at the end of
    [check_health]. *)
Definition scored (self : t) : Q * list (string * string) :=
  let health_score : Q := 100 in
  let checks : list (string * string) := [] in
  let state :=
    if Qlt_le_dec 2 (response_time self)
    then (health_score - (response_time self - 2) * 10,
          checks_set "response_time" "warning" checks)
    else (health_score, checks_set "response_time" "healthy" checks) in
  let state :=
    if (1000 <? concurrent_users self)%Z
    then (fst state - inject_Z (concurrent_users self - 1000) * (1 # 10),
          checks_set "concurrent_users" "warning" (snd state))
    else (fst state, checks_set "concurrent_users" "healthy" (snd state)) in
  fold_left check_resource (resource_usage self) state.

(** [SystemMetric.check_health]; [now] is the clock reading. *)
Definition check_health (now : datetime) (self : t) : health_checks :=
  let state := scored self in
  let health_score := fst state in
  mk_health_checks now (snd state)
    (Qmax 0 (Qmin 100 health_score))
    (if Qle_bool 80 health_score then "healthy" else "warning").

End RouteSystemMetric.

(* ================================================================== *)
(** ** The helper methods as the classes have them *)

Module AsWritten.

(** [self.name(...)] where neither the instance nor its class has an
    attribute [name]: the attribute reference raises before an argument is
    evaluated. *)
Definition undefined_method {A : Type} (class_name name : string) : result A :=
  Raise (AttributeError
           ("'" ++ class_name ++ "' object has no attribute '" ++ name ++ "'")).

(** services/calculator.py calls [self._calculate_yoy_change],
    [self._calculate_health_status] and
    [self._generate_performance_predictions]; no class of the repository
    defines them. *)
Definition _calculate_yoy_change (self : Calculator.t)
           (historical_values current_values : list Q) : result pyval :=
  undefined_method "MetricsCalculator" "_calculate_yoy_change".

Definition _calculate_health_status (self : Calculator.t)
           (metrics : list Calculator.SystemMetric) : result pyval :=
  undefined_method "MetricsCalculator" "_calculate_health_status".

Definition _generate_performance_predictions (self : Calculator.t)
           (metrics : list Calculator.SystemMetric) : result pyval :=
  undefined_method "MetricsCalculator" "_generate_performance_predictions".

(** models/reports.py calls [self._calculate_compliance_trend] and
    [self._identify_sla_violations]; [MessageDeliveryReport] and its base
    class define neither. *)
Definition _calculate_compliance_trend (self : MessageDeliveryReport.t)
  : result pyval :=
  undefined_method "MessageDeliveryReport" "_calculate_compliance_trend".

Definition _identify_sla_violations (self : MessageDeliveryReport.t)
  : result pyval :=
  undefined_method "MessageDeliveryReport" "_identify_sla_violations".

Section Pandas.

(** The selection [self._historical_data[(... == metric_name) & (... >=
    time_range)]['value'].values]: the values pandas selects, or what it
    raises. *)
Variable historical_values : pyval -> string -> datetime -> result (list Q).

(** [np.polyfit(range(len(v)), v, 1)[0]]: the slope of the fitted line;
    numpy raises on an empty vector. *)
Variable polyfit_slope : list Q -> result Q.

(** [float(x)] of a numpy real, as a value of the result. *)
Variable as_float : R -> pyval.

(** [MetricsCalculator._calculate_historical_trends]: the entries of the
    dict are evaluated in the order in which they are written. *)
Definition _calculate_historical_trends (self : Calculator.t)
           (metric_name : string) (current_values : list Q)
           (time_range : datetime) : result pyval :=
  (historical <- historical_values (Calculator._historical_data self)
                   metric_name time_range ;;
   trend_direction <- polyfit_slope historical ;;
   let volatility := as_float (Np.std historical) in
   year_over_year <- _calculate_yoy_change self historical current_values ;;
   Ok (PDict [("trend_direction", PFloat trend_direction);
              ("volatility", volatility);
              ("year_over_year", year_over_year)]))%py.

End Pandas.

End AsWritten.

(* ================================================================== *)
(** ** Vocabulary of the statements *)

(** The canonical text form of a UUID, 8-4-4-4-12 hexadecimal digits: one
    of the forms [uuid.UUID] accepts.  It instantiates [uuid_parses] in
    concrete runs. *)
Definition is_hex_digit (c : ascii) : bool :=
  let n := nat_of_ascii c in
  ((48 <=? n) && (n <=? 57) || (97 <=? n) && (n <=? 102)
   || (65 <=? n) && (n <=? 70))%nat.

Fixpoint take_hex (n : nat) (s : string) : option string :=
  match n with
  | O => Some s
  | S n' =>
      match s with
      | String c rest => if is_hex_digit c then take_hex n' rest else None
      | EmptyString => None
      end
  end.

Definition take_dash (s : string) : option string :=
  match s with
  | String c rest => if (nat_of_ascii c =? 45)%nat then Some rest else None
  | EmptyString => None
  end.

Definition and_then (o : option string) (k : string -> option string)
  : option string :=
  match o with Some s => k s | None => None end.

Definition uuid_canonical (s : string) : bool :=
  match and_then (and_then (and_then (and_then (and_then (and_then (and_then
          (and_then (take_hex 8 s) take_dash) (take_hex 4)) take_dash)
          (take_hex 4)) take_dash) (take_hex 4)) take_dash) (take_hex 12) with
  | Some EmptyString => true
  | _ => false
  end.

(** The errors [BaseMetric.validate] records, in order. *)
Definition base_errors (uuid_parses : string -> bool) (now : datetime)
           (id org : string) (ts : datetime) : list string :=
  (if uuid_parses id then [] else ["Invalid metric_id format"])
  ++ (if org_id_match org then [] else ["Invalid organization_id format"])
  ++ (if (now <? ts)%Z then ["Timestamp cannot be in the future"] else []).

(** The three base-field checks. *)
Definition base_valid (uuid_parses : string -> bool) (now : datetime)
           (id org : string) (ts : datetime) : bool :=
  uuid_parses id && org_id_match org && negb (now <? ts)%Z.

(** The error of the SLA check inside [calculate_delivery_rate]. *)
Definition sla_errors (total delivered : Z) : list string :=
  if (total =? 0)%Z then []
  else if Qlt_le_dec (inject_Z delivered / inject_Z total * 100) 99
       then ["Delivery rate below SLA requirement of 99%"] else [].

(** The errors of the count checks of [MessageMetric.__post_init__]. *)
Definition count_errors (total delivered failed : Z) : list string :=
  (if ((total <? 0) || (delivered <? 0) || (failed <? 0))%Z
   then ["Message counts cannot be negative"] else [])
  ++ (if (total <? delivered + failed)%Z
      then ["Total messages must be >= delivered + failed messages"] else []).

(** The quotient of the claim on delivery rates, and its rounding. *)
Definition exact_rate (total delivered : Z) : Q :=
  inject_Z delivered / inject_Z total * 100.

Definition rounded_rate (total delivered : Z) : Q :=
  if (total =? 0)%Z then 0 else py_round2 (exact_rate total delivered).

(** Sample inputs. *)
Definition sample_uuid : string := "123e4567-e89b-12d3-a456-426614174000".
Definition sample_clock : nat -> datetime := fun _ => 1700000000000000%Z.
Definition sample_start : datetime := 1600000000000000%Z.

(** A metric with well-formed base fields, stamped at the clock reading of
    its validation. *)
Definition metric_of_counts (uuid_parses : string -> bool)
           (utcnow : nat -> datetime) (id : string) (total delivered failed : Z)
  : result MessageMetric.t :=
  MessageMetric.new uuid_parses utcnow id "org-1" (utcnow 0%nat) []
    total delivered failed [] [] [].

(** A metric object as stored: fields only. *)
Definition stored_metric (valid : bool) (total delivered : Z) (rate : Q)
  : MessageMetric.t :=
  MessageMetric.mk
    (BaseMetric.mk sample_uuid "org-1" sample_start [] valid [])
    total delivered (total - delivered)%Z [] [] [] rate.

Definition attribute_error : exn :=
  AttributeError "type object 'datetime.datetime' has no attribute 'timedelta'".

(** The three rules of the time range, as a decision. *)
Definition time_range_ok (now start end_ : datetime) : bool :=
  ((start <? end_) && (end_ <=? now) && (end_ - start <=? td_days 90))%Z.

(** The errors of the time-range rules: the condition the specification
    names InvalidTimeRangeError is a ValueError with one of these messages. *)
Definition is_time_range_error (e : exn) : bool :=
  match e with
  | ValueError msg =>
      existsb (String.eqb msg)
        ["End time must be after start time";
         "End time cannot be in the future";
         "Time range cannot exceed 90 days"]
  | _ => false
  end.

Definition report_over (start end_ : datetime) : BaseReport.t :=
  BaseReport.mk "report-1" "org-1" start end_ "delivery" [] [] [].

Definition step_of (partition_size : string) : timedelta :=
  if String.eqb partition_size "hourly" then td_hours 1
  else if String.eqb partition_size "daily" then td_days 1
  else td_weeks 1.

(** [n] timestamps from [start], [step] apart. *)
Definition steps_from (n : nat) (start step : Z) : list Z :=
  map (fun k => (start + Z.of_nat k * step)%Z) (seq 0 n).

(** How many of them are at most [end_]. *)
Definition boundary_count (start end_ step : Z) : nat :=
  if (start <=? end_)%Z then Z.to_nat ((end_ - start) / step + 1) else 0%nat.

Definition percentiles_in_range (ps : list Z) : bool :=
  forallb (fun p => (0 <=? p)%Z && (p <=? 100)%Z) ps.

Definition keyed_percentile (data : list Q) (p : Z) : result (string * Q) :=
  (v <- Np.percentile data p ;; Ok (Calculator.percentile_key p, v))%py.

(** The interval of the normal approximation at z = 1.96. *)
Definition expected_interval (data : list Q) : Calculator.confidence_interval :=
  Calculator.mk_confidence_interval
    (Q2R (Np.mean data) - 1.96 * (Np.std data / sqrt (INR (List.length data))))%R
    (Q2R (Np.mean data) + 1.96 * (Np.std data / sqrt (INR (List.length data))))%R
    (95 # 100).

Definition count_true (mask : list bool) : nat :=
  List.length (filter (fun b => b) mask).

(** The number of observations that pass, over the number of observations. *)
Definition fraction (pass : Q -> bool) (observations : list Q) : Q :=
  inject_Z (Z.of_nat (List.length (filter pass observations)))
  / inject_Z (Z.of_nat (List.length observations)).

Definition meets_delivery_sla (rate : Q) : bool := Qle_bool 99 rate.

Definition meets_response_sla (seconds : Q) : bool :=
  if Qlt_le_dec seconds 2 then true else false.

Definition delivery_options : Calculator.options :=
  Calculator.mk_options (Some [25; 50; 75; 90; 95; 99]%Z) (Some true).

Definition default_options : Calculator.options :=
  Calculator.mk_options None None.

Definition sample_calculator : Calculator.t :=
  Calculator.mk [99; 97; 95] [80; 60; 40] [] PNone.

Definition sample_system_metric (seconds : Q) : Calculator.SystemMetric :=
  Calculator.mk_SystemMetric
    (BaseMetric.mk sample_uuid "org-1" sample_start [] true [])
    seconds 50 50 10%Z [] [] [].

Definition sample_delivery_report (average : Q) : MessageDeliveryReport.t :=
  MessageDeliveryReport.mk
    (report_over sample_start (sample_start + td_hours 24)%Z)
    [] [] [] [] [] average.

Definition sample_metrics : list MessageMetric.t :=
  [stored_metric true 100 100 100;
   stored_metric true 1000 985 (985 # 10);
   stored_metric false 10 1 10].

Definition sample_system_metrics : list Calculator.SystemMetric :=
  [sample_system_metric (15 # 10); sample_system_metric (25 # 10)].

(** A selection of two historical values, and the slope of the line
    through them. *)
Definition sample_history : pyval -> string -> datetime -> result (list Q) :=
  fun _ _ _ => Ok [98; 99].
Definition sample_slope : list Q -> result Q :=
  fun _ => Ok 1.

(** Metadata whose rate history, if present, is a list: the case in
    which [calculate_delivery_rate] can append to it. *)
Definition history_is_list (md : dict) : bool :=
  match dict_get "delivery_rate_history" md with
  | None => true
  | Some (PList _) => true
  | Some _ => false
  end.

(** A threshold value that [validate_thresholds] lets pass: a number (a
    bool included) within [0, 100], a list or a dict. *)
Definition acceptable_threshold (value : pyval) : Prop :=
  match as_number value with
  | Some x => 0 <= x /\ x <= 100
  | None => (exists l, value = PList l) \/ (exists d, value = PDict d)
  end.

(** Whether the character occurs in the string. *)
Fixpoint contains_char (c : ascii) (s : string) : bool :=
  match s with
  | EmptyString => false
  | String c' rest => Ascii.eqb c c' || contains_char c rest
  end.

(** A dashboard response whose delivery metrics have the shape that
    [calculate_delivery_statistics] returns. *)
Definition sample_dashboard_response : Dashboard.DashboardMetricsResponse :=
  Dashboard.__init__ (sample_clock 0%nat)
    [("current_statistics",
       PDict [("total_messages", PInt 1000);
              ("average_delivery_rate", PFloat (995 # 10));
              ("sla_compliance", PFloat 1)]);
     ("threshold_analysis", PDict [])]
    []
    [("response_time_analysis",
       PDict [("average", PFloat 1); ("p95", PFloat (15 # 10));
              ("sla_compliance", PFloat 1)]);
     ("resource_utilization",
       PDict [("cpu", PDict [("average", PFloat 40); ("peak", PFloat 60)]);
              ("memory", PDict [("average", PFloat 40); ("peak", PFloat 60)])])]
    [].

(** The SystemMetric that [__post_init__] makes of a sample with a response
    time of 2.5 seconds. *)
Definition sample_built_system_metric : SystemMetric.t :=
  Eval vm_compute in
    match SystemMetric.__post_init__ uuid_canonical sample_clock
            (sample_system_metric (25 # 10)) with
    | Ok self => self
    | _ => sample_system_metric (25 # 10)
    end.

(** A system metric of routes/metrics.py with everything within its
    limit. *)
Definition sample_route_metric : RouteSystemMetric.t :=
  RouteSystemMetric.mk "0a1b2c3d-0000-4000-8000-000000000001" "org-1" 0%Z [] true
    (15 # 10) 800 [("cpu", 40); ("memory", 80)] [] [].

(* ================================================================== *)
(** ** Facts: rounding *)

(** [py_round2 x] is within half a hundredth of [x]. *)
Lemma py_round2_close (x : Q) :
  - (1 # 200) <= py_round2 x - x /\ py_round2 x - x <= 1 # 200.
Proof.
  unfold py_round2.
  set (y := x * 100).
  pose proof (Qfloor_le y) as Hlo.
  pose proof (Qlt_floor y) as Hhi.
  rewrite inject_Z_plus in Hhi. change (inject_Z 1) with 1 in Hhi.
  set (f := Qfloor y) in *.
  assert (Hx : y == x * 100) by reflexivity.
  clearbody f. clearbody y.
  assert (Hn : forall n : Z,
             - (1 # 2) <= inject_Z n - y /\ inject_Z n - y <= 1 # 2 ->
             - (1 # 200) <= Qred (n # 100) - x /\ Qred (n # 100) - x <= 1 # 200).
  { intros n [Ha Hb]. rewrite Qred_correct, (Qmake_Qdiv n 100).
    unfold Qdiv. change (/ inject_Z (Z.pos 100)) with (1 # 100).
    split; Lqa.lra. }
  assert (Hs : inject_Z (f + 1) == inject_Z f + 1).
  { rewrite inject_Z_plus. reflexivity. }
  destruct (Qlt_le_dec (y - inject_Z f) (1 # 2)) as [H1|H1].
  - apply Hn. split; Lqa.lra.
  - destruct (Qlt_le_dec (1 # 2) (y - inject_Z f)) as [H2|H2].
    + apply Hn. rewrite Hs. split; Lqa.lra.
    + destruct (Z.even f); apply Hn; rewrite ?Hs; split; Lqa.lra.
Qed.

(** The result is a whole number of hundredths. *)
Lemma py_round2_hundredths (x : Q) : exists n : Z, py_round2 x == n # 100.
Proof.
  unfold py_round2. eexists. apply Qred_correct.
Qed.

(* ================================================================== *)
(** ** Facts: results and dictionaries *)

Lemma Ok_inj {A} (x y : A) : Ok x = Ok y -> x = y.
Proof. intros H. injection H as ->. reflexivity. Qed.

Lemma dict_get_set_eq k v d : dict_get k (dict_set k v d) = Some v.
Proof.
  induction d as [|[k' v'] d IH]; cbn [dict_set dict_get].
  - rewrite String.eqb_refl. reflexivity.
  - destruct (String.eqb k k') eqn:E; cbn [dict_get].
    + rewrite String.eqb_refl. reflexivity.
    + rewrite E. exact IH.
Qed.

Lemma dict_get_set_neq k k' v d :
  String.eqb k k' = false -> dict_get k (dict_set k' v d) = dict_get k d.
Proof.
  intros Hk. induction d as [|[k0 v0] d IH]; cbn [dict_set dict_get].
  - rewrite Hk. reflexivity.
  - destruct (String.eqb k' k0) eqn:E; cbn [dict_get].
    + apply String.eqb_eq in E. subst k0. rewrite Hk. reflexivity.
    + rewrite IH. reflexivity.
Qed.

Lemma dict_get_update_other k (e : dict) : forall d : dict,
  dict_get k e = None -> dict_get k (dict_update d e) = dict_get k d.
Proof.
  unfold dict_update. induction e as [|[k' v'] e IH]; intros d H; [reflexivity|].
  cbn [fold_left fst snd]. cbn [dict_get] in H.
  destruct (String.eqb k k') eqn:E; [discriminate H|].
  rewrite (IH _ H). apply dict_get_set_neq. exact E.
Qed.

Lemma dict_mem_set k k' v (d : dict) :
  dict_mem k d = true -> dict_mem k (dict_set k' v d) = true.
Proof.
  unfold dict_mem. destruct (String.eqb k k') eqn:E.
  - apply String.eqb_eq in E. subst k'. rewrite dict_get_set_eq. reflexivity.
  - rewrite (dict_get_set_neq k k' v d E). intros H. exact H.
Qed.

Lemma dict_mem_update k (e : dict) : forall d : dict,
  dict_mem k d = true -> dict_mem k (dict_update d e) = true.
Proof.
  unfold dict_update. induction e as [|[k' v'] e IH]; intros d H; [exact H|].
  cbn [fold_left fst snd]. apply IH. apply dict_mem_set. exact H.
Qed.

(* ================================================================== *)
(** ** Facts: models/metrics.py *)

Ltac metric_fields :=
  cbn [MessageMetric.base MessageMetric.total_messages
       MessageMetric.delivered_messages MessageMetric.failed_messages
       MessageMetric.delivery_status_breakdown MessageMetric.queue_status
       MessageMetric.message_types MessageMetric.delivery_rate
       BaseMetric.metric_id BaseMetric.organization_id BaseMetric.timestamp
       BaseMetric.metadata BaseMetric.is_valid BaseMetric.validation_errors
       fst snd].

Lemma validate_eq up now id org ts md v e :
  BaseMetric.validate up now (BaseMetric.mk id org ts md v e)
  = BaseMetric.mk id org ts md (base_valid up now id org ts)
      (base_errors up now id org ts).
Proof.
  unfold BaseMetric.validate, base_valid, base_errors,
    BaseMetric.append_error, BaseMetric.set_validation_errors,
    BaseMetric.set_is_valid.
  cbn -[org_id_match Z.ltb].
  destruct (up id); cbn -[org_id_match Z.ltb];
    destruct (org_id_match org); cbn -[org_id_match Z.ltb];
    destruct (now <? ts)%Z; reflexivity.
Qed.

Lemma base_post_init_eq up cls utcnow id org ts md v e :
  BaseMetric.__post_init__ up cls utcnow (BaseMetric.mk id org ts md v e)
  = BaseMetric.mk id org ts
      (dict_update md [("created_at", PIso (utcnow 1%nat));
                       ("version", PStr "1.0.0"); ("metric_type", PStr cls)])
      (base_valid up (utcnow 0%nat) id org ts)
      (base_errors up (utcnow 0%nat) id org ts).
Proof.
  unfold BaseMetric.__post_init__, BaseMetric.set_validation_errors.
  metric_fields. rewrite !validate_eq. reflexivity.
Qed.

Lemma history_is_list_set k v (md : dict) :
  String.eqb "delivery_rate_history" k = false ->
  history_is_list (dict_set k v md) = history_is_list md.
Proof.
  intros H. unfold history_is_list. rewrite (dict_get_set_neq _ _ v md H). reflexivity.
Qed.

Lemma push_rate_history_ok now rate md :
  history_is_list md = true ->
  exists md',
    MessageMetric.push_rate_history now rate md = Ok md'
    /\ history_is_list md' = true.
Proof.
  unfold history_is_list at 1. unfold MessageMetric.push_rate_history. cbv zeta.
  destruct (dict_get "delivery_rate_history" md) as [v|].
  - destruct v; try discriminate. intros _. eexists. split; [reflexivity|].
    unfold history_is_list. rewrite dict_get_set_eq. reflexivity.
  - intros _. eexists. split; [reflexivity|].
    unfold history_is_list. rewrite dict_get_set_eq. reflexivity.
Qed.

Lemma push_rate_history_raises now rate md :
  history_is_list md = false ->
  exists msg, MessageMetric.push_rate_history now rate md = Raise (AttributeError msg).
Proof.
  unfold history_is_list, MessageMetric.push_rate_history, no_attribute. cbv zeta.
  destruct (dict_get "delivery_rate_history" md) as [v|]; [|discriminate].
  destruct v; try discriminate; intros _; eexists; reflexivity.
Qed.

(** [calculate_delivery_rate] returns on every metric whose rate history,
    if present, is a list: the division is reached only with a non-zero
    total.  It keeps the counts and [is_valid], and appends at most the SLA
    error. *)
Lemma calculate_delivery_rate_eq now id org ts md v e total delivered failed b q ty r :
  history_is_list md = true ->
  exists md',
    MessageMetric.calculate_delivery_rate now
      (MessageMetric.mk (BaseMetric.mk id org ts md v e)
         total delivered failed b q ty r)
    = Ok (rounded_rate total delivered,
          MessageMetric.mk
            (BaseMetric.mk id org ts md' v (e ++ sla_errors total delivered))
            total delivered failed b q ty r)
    /\ history_is_list md' = true.
Proof.
  intros Hh.
  unfold MessageMetric.calculate_delivery_rate, sla_errors, rounded_rate,
    exact_rate, py_truediv.
  metric_fields.
  destruct (total =? 0)%Z.
  - exists md. rewrite app_nil_r. split; [reflexivity|exact Hh].
  - cbn [bind]. cbv zeta.
    destruct (push_rate_history_ok now (inject_Z delivered / inject_Z total * 100)
                md Hh) as (md' & -> & Hh').
    cbn [bind]. exists md'. split; [|exact Hh'].
    unfold MessageMetric.append_error, MessageMetric.set_base,
      BaseMetric.append_error, BaseMetric.set_validation_errors,
      BaseMetric.set_metadata.
    metric_fields.
    destruct (Qlt_le_dec _ 99); metric_fields; rewrite ?app_nil_r; reflexivity.
Qed.

Lemma history_is_list_post_init md created cls :
  history_is_list
    (dict_update md [("created_at", created); ("version", PStr "1.0.0");
                     ("metric_type", PStr cls)])
  = history_is_list md.
Proof.
  unfold dict_update. cbn [fold_left fst snd].
  rewrite !history_is_list_set by reflexivity. reflexivity.
Qed.

Lemma new_eq up utcnow id org ts md total delivered failed b q ty :
  history_is_list md = true ->
  exists md',
    MessageMetric.new up utcnow id org ts md total delivered failed b q ty
    = Ok (MessageMetric.mk
            (BaseMetric.mk id org ts md' (base_valid up (utcnow 0%nat) id org ts)
               (base_errors up (utcnow 0%nat) id org ts
                ++ sla_errors total delivered
                ++ count_errors total delivered failed))
            total delivered failed b q ty (rounded_rate total delivered)).
Proof.
  intros Hh.
  unfold MessageMetric.new, MessageMetric.__post_init__.
  unfold MessageMetric.set_base at 1.
  metric_fields. rewrite base_post_init_eq.
  match goal with
  | |- context [MessageMetric.calculate_delivery_rate ?n
                  (MessageMetric.mk (BaseMetric.mk _ _ _ ?m ?v ?e) _ _ _ _ _ _ ?r)] =>
      destruct (calculate_delivery_rate_eq n id org ts m v e total delivered failed
                  b q ty r) as (md' & -> & _);
        [rewrite history_is_list_post_init; exact Hh|]
  end.
  exists md'. cbn [bind].
  unfold count_errors, MessageMetric.append_error, MessageMetric.set_delivery_rate,
    MessageMetric.set_base, BaseMetric.append_error, BaseMetric.set_validation_errors.
  metric_fields.
  destruct ((total <? 0)%Z || (delivered <? 0)%Z || (failed <? 0)%Z);
    metric_fields; destruct (total <? delivered + failed)%Z; metric_fields;
    rewrite <- ?app_assoc, ?app_nil_r; cbn [app]; rewrite ?app_nil_r; reflexivity.
Qed.

Lemma base_valid_now up utcnow id :
  up id = true -> base_valid up (utcnow 0%nat) id "org-1" (utcnow 0%nat) = true.
Proof.
  intros H. unfold base_valid. rewrite H, Z.ltb_irrefl. reflexivity.
Qed.

Lemma base_errors_now up utcnow id :
  up id = true -> base_errors up (utcnow 0%nat) id "org-1" (utcnow 0%nat) = [].
Proof.
  intros H. unfold base_errors. rewrite H, Z.ltb_irrefl. reflexivity.
Qed.

(** C7, as amended.  [calculate_delivery_rate] never divides by zero: with
    total_messages = 0 it returns the rate 0 and leaves the metric as it
    is.  Otherwise, when the metadata hold no delivery_rate_history or hold
    a list under that key, it returns delivered_messages / total_messages *
    100 rounded to two decimal places: a whole number of hundredths within
    0.005 of the quotient.  (When the key holds a value that is not a
    list, the call raises AttributeError at [append].) *)
Theorem delivery_rate_rounded_quotient (now : datetime) (self : MessageMetric.t) :
  let total := MessageMetric.total_messages self in
  let delivered := MessageMetric.delivered_messages self in
  let outcome := MessageMetric.calculate_delivery_rate now self in
  (forall msg, outcome <> Raise (ZeroDivisionError msg))
  /\ (if (total =? 0)%Z then outcome = Ok (0, self)
      else if history_is_list (BaseMetric.metadata (MessageMetric.base self))
      then exists rate self',
             outcome = Ok (rate, self')
             /\ - (1 # 200) <= rate - exact_rate total delivered
             /\ rate - exact_rate total delivered <= 1 # 200
             /\ exists n : Z, rate == n # 100
      else exists msg, outcome = Raise (AttributeError msg)).
Proof.
  destruct self as [[id org ts md v e] total delivered failed b q ty r].
  metric_fields. cbv zeta.
  destruct (Z.eqb_spec total 0) as [Hz|Hnz].
  - unfold MessageMetric.calculate_delivery_rate. metric_fields.
    subst total. cbn [Z.eqb]. split; [discriminate|reflexivity].
  - destruct (history_is_list md) eqn:Hh.
    + destruct (calculate_delivery_rate_eq now id org ts md v e total delivered failed
                  b q ty r Hh) as (md' & -> & _).
      split; [discriminate|].
      eexists. eexists. split; [reflexivity|]. unfold rounded_rate.
      destruct (Z.eqb_spec total 0) as [|_]; [contradiction|].
      pose proof (py_round2_close (exact_rate total delivered)) as [Hlo Hhi].
      repeat split; try assumption. apply py_round2_hundredths.
    + unfold MessageMetric.calculate_delivery_rate, py_truediv. metric_fields.
      destruct (Z.eqb_spec total 0) as [|_]; [contradiction|].
      cbn [bind]. cbv zeta.
      destruct (push_rate_history_raises now
                  (inject_Z delivered / inject_Z total * 100) md Hh) as [msg ->].
      cbn [bind]. split; [discriminate|]. exists msg. reflexivity.
Qed.

(** C7, as stated, fails: with 1 message delivered out of 3 the code
    returns 33.33, and 1 / 3 * 100 is not 33.33. *)
Lemma delivery_rate_not_exact_quotient :
  let m := stored_metric true 3 1 0 in
  exists self',
    MessageMetric.calculate_delivery_rate (sample_clock 0%nat) m
    = Ok (3333 # 100, self')
    /\ ~ (3333 # 100
          == exact_rate (MessageMetric.total_messages m)
               (MessageMetric.delivered_messages m)).
Proof.
  cbv zeta. eexists. split.
  - vm_compute. reflexivity.
  - intros H. vm_compute in H. discriminate H.
Qed.

(** The checks themselves are right: a metric constructed without any
    validation error has non-negative counts, a total that covers delivered
    and failed, and a rate that is recomputed from the counts. *)
Lemma error_free_metric_satisfies_count_invariant
      up utcnow id org ts md total delivered failed b q ty m :
  history_is_list md = true ->
  MessageMetric.new up utcnow id org ts md total delivered failed b q ty = Ok m ->
  MessageMetric.validation_errors m = [] ->
  (0 <= MessageMetric.total_messages m)%Z
  /\ (0 <= MessageMetric.delivered_messages m)%Z
  /\ (0 <= MessageMetric.failed_messages m)%Z
  /\ (MessageMetric.delivered_messages m + MessageMetric.failed_messages m
      <= MessageMetric.total_messages m)%Z
  /\ MessageMetric.delivery_rate m
     = rounded_rate (MessageMetric.total_messages m)
         (MessageMetric.delivered_messages m)
  /\ MessageMetric.is_valid m = true.
Proof.
  intros Hh Hnew Herr.
  destruct (new_eq up utcnow id org ts md total delivered failed b q ty Hh)
    as [md' Heq].
  rewrite Hnew in Heq. injection Heq as ->.
  unfold MessageMetric.validation_errors, MessageMetric.is_valid in *.
  metric_fields. cbn [MessageMetric.base BaseMetric.validation_errors] in Herr.
  apply app_eq_nil in Herr. destruct Herr as [Hb Herr].
  apply app_eq_nil in Herr. destruct Herr as [_ Hc].
  unfold count_errors in Hc. apply app_eq_nil in Hc. destruct Hc as [Hneg Htot].
  assert (Hvalid : base_valid up (utcnow 0%nat) id org ts = true).
  { unfold base_errors in Hb. unfold base_valid.
    apply app_eq_nil in Hb. destruct Hb as [H1 Hb].
    apply app_eq_nil in Hb. destruct Hb as [H2 H3].
    destruct (up id); [|discriminate H1].
    destruct (org_id_match org); [|discriminate H2].
    destruct (utcnow 0%nat <? ts)%Z; [discriminate H3|reflexivity]. }
  destruct (Z.ltb_spec total 0); [discriminate Hneg|].
  destruct (Z.ltb_spec delivered 0); [discriminate Hneg|].
  destruct (Z.ltb_spec failed 0); [discriminate Hneg|].
  destruct (Z.ltb_spec total (delivered + failed)); [discriminate Htot|].
  repeat split; try lia; try reflexivity. exact Hvalid.
Qed.

(** C8, at the failing input.  A metric with 10 messages in total, 10
    delivered and 5 failed is constructed with is_valid = True although its
    total is below delivered + failed: the count check only appends its
    message to validation_errors.  The calculator's filter on is_valid keeps
    the metric. *)
Theorem is_valid_metric_breaks_count_invariant
        (uuid_parses : string -> bool) (utcnow : nat -> datetime) (id : string) :
  uuid_parses id = true ->
  exists m,
    metric_of_counts uuid_parses utcnow id 10 10 5 = Ok m
    /\ MessageMetric.is_valid m = true
    /\ (MessageMetric.total_messages m
        < MessageMetric.delivered_messages m + MessageMetric.failed_messages m)%Z
    /\ MessageMetric.validation_errors m
       = ["Total messages must be >= delivered + failed messages"]
    /\ filter MessageMetric.is_valid [m] = [m].
Proof.
  intros Hid. unfold metric_of_counts.
  destruct (new_eq uuid_parses utcnow id "org-1" (utcnow 0%nat) [] 10 10 5 [] [] []
              eq_refl) as [md' ->].
  eexists. split; [reflexivity|].
  unfold MessageMetric.is_valid, MessageMetric.validation_errors.
  cbn [filter]. unfold MessageMetric.is_valid. metric_fields.
  rewrite (base_valid_now uuid_parses utcnow id Hid),
    (base_errors_now uuid_parses utcnow id Hid).
  repeat split; reflexivity.
Qed.

Lemma is_valid_metric_breaks_count_invariant_witness :
  exists m,
    metric_of_counts uuid_canonical sample_clock sample_uuid 10 10 5 = Ok m
    /\ MessageMetric.is_valid m = true
    /\ (MessageMetric.total_messages m
        < MessageMetric.delivered_messages m + MessageMetric.failed_messages m)%Z
    /\ MessageMetric.validation_errors m
       = ["Total messages must be >= delivered + failed messages"]
    /\ filter MessageMetric.is_valid [m] = [m].
Proof.
  apply (is_valid_metric_breaks_count_invariant uuid_canonical sample_clock sample_uuid).
  reflexivity.
Defined.

(** C10.  After construction, is_valid is the conjunction of the three
    base-field checks (metric_id parses as a UUID, organization_id matches
    the identifier pattern, timestamp not in the future) whatever the
    counts are; the SLA error and the count errors come after the base
    errors in validation_errors.  This holds of every construction from
    metadata whose delivery_rate_history, if present, is a list (with any
    other value under that key the construction can raise AttributeError
    and no metric exists).  So a metric with well-formed base fields, 100
    messages, 50 delivered and 60 failed has is_valid = True and two
    validation errors. *)
Theorem is_valid_ignores_count_and_sla_errors
        (uuid_parses : string -> bool) (utcnow : nat -> datetime) (id0 : string) :
  uuid_parses id0 = true ->
  (forall id org ts md total delivered failed b q ty,
      history_is_list md = true ->
      exists m,
        MessageMetric.new uuid_parses utcnow id org ts md total delivered failed
          b q ty = Ok m
        /\ MessageMetric.is_valid m
           = uuid_parses id && org_id_match org && negb (utcnow 0%nat <? ts)%Z
        /\ MessageMetric.validation_errors m
           = base_errors uuid_parses (utcnow 0%nat) id org ts
             ++ sla_errors total delivered
             ++ count_errors total delivered failed)
  /\ (exists m,
         metric_of_counts uuid_parses utcnow id0 100 50 60 = Ok m
         /\ MessageMetric.is_valid m = true
         /\ MessageMetric.validation_errors m
            = ["Delivery rate below SLA requirement of 99%";
               "Total messages must be >= delivered + failed messages"]).
Proof.
  intros Hid. split.
  - intros id org ts md total delivered failed b q ty Hh.
    destruct (new_eq uuid_parses utcnow id org ts md total delivered failed b q ty Hh)
      as [md' ->].
    eexists. split; [reflexivity|]. split; reflexivity.
  - unfold metric_of_counts.
    destruct (new_eq uuid_parses utcnow id0 "org-1" (utcnow 0%nat) [] 100 50 60
                [] [] [] eq_refl) as [md' ->].
    eexists. split; [reflexivity|].
    unfold MessageMetric.is_valid, MessageMetric.validation_errors. metric_fields.
    rewrite (base_valid_now uuid_parses utcnow id0 Hid),
      (base_errors_now uuid_parses utcnow id0 Hid).
    split; reflexivity.
Qed.

Lemma is_valid_ignores_count_and_sla_errors_witness :
  exists m,
    metric_of_counts uuid_canonical sample_clock sample_uuid 100 50 60 = Ok m
    /\ MessageMetric.is_valid m = true
    /\ MessageMetric.validation_errors m
       = ["Delivery rate below SLA requirement of 99%";
          "Total messages must be >= delivered + failed messages"].
Proof.
  apply (is_valid_ignores_count_and_sla_errors uuid_canonical sample_clock sample_uuid).
  reflexivity.
Defined.

(* ================================================================== *)
(** ** Facts: time-range validation (models/reports.py, routes/reports.py) *)

(** Where [datetime.timedelta] resolves to the datetime module's
    constructor, [_validate_time_range] returns exactly on the ranges that
    satisfy the three rules, and raises one of the time-range errors on
    the others. *)
Lemma validate_time_range_resolved now self :
  (time_range_ok now (BaseReport.start_time self) (BaseReport.end_time self) = true ->
   BaseReport._validate_time_range BaseReport.stdlib_timedelta now self = Ok tt)
  /\ (time_range_ok now (BaseReport.start_time self) (BaseReport.end_time self) = false ->
      exists e, BaseReport._validate_time_range BaseReport.stdlib_timedelta now self
                = Raise e /\ is_time_range_error e = true).
Proof.
  unfold time_range_ok, BaseReport._validate_time_range,
    BaseReport.datetime_timedelta, BaseReport.stdlib_timedelta.
  cbn [bind]. change (mk_timedelta 0 90 0 0) with (td_days 90).
  destruct self as [rid org start end_ ty md vr tp].
  cbn [BaseReport.start_time BaseReport.end_time].
  destruct (Z.leb_spec end_ start), (Z.ltb_spec now end_),
    (Z.ltb_spec (td_days 90) (end_ - start)),
    (Z.ltb_spec start end_), (Z.leb_spec end_ now),
    (Z.leb_spec (end_ - start) (td_days 90)); cbn; split; intros; try lia;
    try discriminate; try reflexivity; eexists; split; reflexivity.
Qed.

(** In models/reports.py the lookup fails: every range that passes the
    first two rules raises AttributeError, whatever its length. *)
Lemma validate_time_range_as_written now self :
  (BaseReport.start_time self < BaseReport.end_time self)%Z ->
  (BaseReport.end_time self <= now)%Z ->
  BaseReport._validate_time_range BaseReport.reports_py_timedelta now self
  = Raise attribute_error.
Proof.
  intros H1 H2. unfold BaseReport._validate_time_range.
  destruct (Z.leb_spec (BaseReport.end_time self) (BaseReport.start_time self)); [lia|].
  destruct (Z.ltb_spec now (BaseReport.end_time self)); [lia|].
  reflexivity.
Qed.

(** So, as written, [_validate_time_range] returns on no report at all: it
    raises the time-range error of the first or second rule, or
    AttributeError. *)
Lemma validate_time_range_as_written_raises now self :
  exists e,
    BaseReport._validate_time_range BaseReport.reports_py_timedelta now self
    = Raise e
    /\ (is_time_range_error e = true \/ e = attribute_error).
Proof.
  unfold BaseReport._validate_time_range.
  destruct (BaseReport.end_time self <=? BaseReport.start_time self)%Z.
  - eexists. split; [reflexivity|]. left. reflexivity.
  - destruct (now <? BaseReport.end_time self)%Z.
    + eexists. split; [reflexivity|]. left. reflexivity.
    + eexists. split; [reflexivity|]. right. reflexivity.
Qed.

(** The request validator applies the order and length rules. *)
Lemma validate_time_span_spec (v start : datetime) :
  (((start <? v) && (v - start <=? td_days 90))%Z = true ->
   ReportRequest.validate_time_span v (Some start) = Ok v)
  /\ (((start <? v) && (v - start <=? td_days 90))%Z = false ->
      exists e, ReportRequest.validate_time_span v (Some start) = Raise e
                /\ is_time_range_error e = true).
Proof.
  unfold ReportRequest.validate_time_span, total_seconds.
  destruct (Z.ltb_spec (td_days 90) (v - start)), (Z.ltb_spec start v),
    (Z.leb_spec (v - start) (td_days 90)); cbn [andb]; split; intros; try lia;
    try discriminate; try (eexists; split; reflexivity).
  - destruct (Qle_bool ((v - start) # 1000000) 0) eqn:E; [|reflexivity].
    apply Qle_bool_iff in E. unfold Qle in E. cbn in E. lia.
  - destruct (Qle_bool ((v - start) # 1000000) 0) eqn:E.
    + eexists; split; reflexivity.
    + exfalso. assert (Qle_bool ((v - start) # 1000000) 0 = true); [|congruence].
      apply Qle_bool_iff. unfold Qle. cbn. lia.
Qed.

(** A request whose times are not in the future and whose period is one of
    the three names is accepted exactly when its range satisfies the order
    and length rules. *)
Lemma request_validate_spec utcnow req :
  (ReportRequest.start_time req <= utcnow 0%nat)%Z ->
  (ReportRequest.end_time req <= utcnow 1%nat)%Z ->
  ReportRequest.validate_time_period (ReportRequest.time_period req)
  = Ok (ReportRequest.time_period req) ->
  ReportRequest.validate utcnow req
  = if ((ReportRequest.start_time req <? ReportRequest.end_time req)
        && (ReportRequest.end_time req - ReportRequest.start_time req
            <=? td_days 90))%Z
    then Ok req
    else match ReportRequest.validate_time_span (ReportRequest.end_time req)
                 (Some (ReportRequest.start_time req)) with
         | Raise (ValueError msg) => Raise (ValidationError [("end_time", msg)])
         | _ => Ok req
         end.
Proof.
  intros Hs He Hp. unfold ReportRequest.validate, ReportRequest.validate_time_range.
  destruct (Z.ltb_spec (utcnow 0%nat) (ReportRequest.start_time req)); [lia|].
  destruct (Z.ltb_spec (utcnow 1%nat) (ReportRequest.end_time req)); [lia|].
  cbn [bind ReportRequest.field_errors app]. rewrite Hp.
  cbn [ReportRequest.field_errors]. rewrite app_nil_r.
  destruct (validate_time_span_spec (ReportRequest.end_time req)
              (ReportRequest.start_time req)) as [Hok Herr].
  destruct ((ReportRequest.start_time req <? ReportRequest.end_time req)
            && (ReportRequest.end_time req - ReportRequest.start_time req
                <=? td_days 90))%Z.
  - rewrite (Hok eq_refl). reflexivity.
  - destruct (Herr eq_refl) as (e & -> & He').
    destruct e; try discriminate He'. reflexivity.
Qed.

(** Validation comes first: when it raises, the construction of a delivery
    report raises the same error whatever the later computations (trend
    analysis, failure analysis, SLA evaluation, visualisation) would do. *)
Lemma post_init_stops_at_validation
      getattr trends h1 h2 h3 h4 h5 h6 h7 h8 h9 fuel utcnow self e :
  BaseReport._validate_time_range getattr (utcnow 0%nat)
    (MessageDeliveryReport.base self) = Raise e ->
  MessageDeliveryReport.__post_init__ getattr trends h1 h2 h3 h4 h5 h6 h7 h8 h9
    fuel utcnow self = Raise e.
Proof.
  intros H. unfold MessageDeliveryReport.__post_init__, BaseReport.__post_init__.
  rewrite H. reflexivity.
Qed.

(* ================================================================== *)
(** ** Facts: partition boundaries (models/reports.py) *)

Lemma partition_step_resolved size :
  BaseReport.partition_step BaseReport.stdlib_timedelta size = Ok (step_of size).
Proof.
  unfold BaseReport.partition_step, step_of, BaseReport.datetime_timedelta,
    BaseReport.stdlib_timedelta.
  destruct (String.eqb size "hourly"); [reflexivity|].
  destruct (String.eqb size "daily"); reflexivity.
Qed.

Lemma step_of_pos size : (0 < step_of size)%Z.
Proof.
  unfold step_of.
  destruct (String.eqb size "hourly"); [reflexivity|].
  destruct (String.eqb size "daily"); reflexivity.
Qed.

Lemma steps_from_S n start step :
  steps_from (S n) start step = start :: steps_from n (start + step)%Z step.
Proof.
  unfold steps_from. cbn [seq map]. f_equal.
  - lia.
  - rewrite <- seq_shift, map_map. apply map_ext. intros k. lia.
Qed.

Lemma boundary_count_step start end_ step :
  (0 < step)%Z -> (start <= end_)%Z ->
  boundary_count start end_ step = S (boundary_count (start + step)%Z end_ step).
Proof.
  intros Hs Hle. unfold boundary_count.
  destruct (Z.leb_spec start end_); [|lia].
  destruct (Z.leb_spec (start + step) end_).
  - replace (end_ - start)%Z with ((end_ - (start + step)) + 1 * step)%Z by lia.
    rewrite Z.div_add by lia.
    assert (0 <= (end_ - (start + step)) / step)%Z by (apply Z.div_pos; lia).
    lia.
  - rewrite Z.div_small by lia. reflexivity.
Qed.

(** Where [datetime.timedelta] resolves, the loop returns, given fuel for
    its turns, the timestamps start, start + step, ... that are at most the
    end of the range: a function of start, end and granularity alone. *)
Lemma boundaries_loop_resolved size end_ :
  forall fuel start acc,
    (boundary_count start end_ (step_of size) <= fuel)%nat ->
    BaseReport.boundaries_loop BaseReport.stdlib_timedelta fuel size end_ start acc
    = Ok (acc ++ steps_from (boundary_count start end_ (step_of size)) start
                   (step_of size)).
Proof.
  induction fuel as [|fuel IH]; intros start acc Hfuel.
  - cbn [BaseReport.boundaries_loop]. unfold boundary_count in *.
    destruct (Z.leb_spec start end_).
    + pose proof (step_of_pos size).
      assert (0 <= (end_ - start) / step_of size)%Z by (apply Z.div_pos; lia). lia.
    + cbn. rewrite app_nil_r. reflexivity.
  - cbn [BaseReport.boundaries_loop].
    destruct (Z.leb_spec start end_) as [Hle|Hgt].
    + rewrite partition_step_resolved. cbn [bind].
      rewrite (boundary_count_step _ _ _ (step_of_pos size) Hle) in *.
      rewrite IH by lia. rewrite steps_from_S, <- app_assoc. reflexivity.
    + unfold boundary_count. destruct (Z.leb_spec start end_); [lia|].
      cbn. rewrite app_nil_r. reflexivity.
Qed.

(** In models/reports.py the first turn of the loop raises. *)
Lemma boundaries_loop_as_written fuel size end_ start acc :
  (start <= end_)%Z ->
  BaseReport.boundaries_loop BaseReport.reports_py_timedelta (S fuel) size end_
    start acc
  = Raise attribute_error.
Proof.
  intros H. cbn [BaseReport.boundaries_loop].
  destruct (Z.leb_spec start end_); [|lia].
  unfold BaseReport.partition_step, BaseReport.datetime_timedelta,
    BaseReport.reports_py_timedelta.
  destruct (String.eqb size "hourly"); [reflexivity|].
  destruct (String.eqb size "daily"); reflexivity.
Qed.

(** Where [datetime.timedelta] resolves, [_calculate_partition_boundaries]
    is anchored at the start of the range and steps by one hour, one day or
    seven days. *)
Lemma partition_boundaries_resolved fuel self size :
  let start := BaseReport.start_time self in
  let end_ := BaseReport.end_time self in
  (boundary_count start end_ (step_of size) <= fuel)%nat ->
  BaseReport._calculate_partition_boundaries BaseReport.stdlib_timedelta fuel self size
  = Ok (steps_from (boundary_count start end_ (step_of size)) start (step_of size)).
Proof.
  cbv zeta. intros Hfuel. unfold BaseReport._calculate_partition_boundaries.
  rewrite boundaries_loop_resolved by assumption. reflexivity.
Qed.

(** C1, at the failing input.  A report over a range of exactly 90 days
    that ends in the past satisfies the three rules, and
    [BaseReport._validate_time_range] does not return on it: it raises
    AttributeError at [datetime.timedelta(days=90)], since models/reports.py
    binds [datetime] to the class.  The construction of a delivery report
    stops there, before any computation.  A range of 90 days and one second
    raises the same AttributeError instead of the time-range error.  The
    sibling validator of routes/reports.py, which imports [timedelta] by
    name, accepts the first range and rejects the second, and so does
    [_validate_time_range] where the reference resolves. *)
Theorem report_range_of_90_days_raises_AttributeError :
  let start := sample_start in
  let end_ := (sample_start + td_days 90)%Z in
  let later := (end_ + td_seconds 1)%Z in
  let now := sample_clock 0%nat in
  time_range_ok now start end_ = true
  /\ BaseReport._validate_time_range BaseReport.reports_py_timedelta now
       (report_over start end_) = Raise attribute_error
  /\ (forall trends h1 h2 h3 h4 h5 h6 h7 h8 h9 fuel metrics,
         MessageDeliveryReport.__post_init__ BaseReport.reports_py_timedelta
           trends h1 h2 h3 h4 h5 h6 h7 h8 h9 fuel sample_clock
           (MessageDeliveryReport.mk (report_over start end_) metrics [] [] [] [] 0)
         = Raise attribute_error)
  /\ BaseReport._validate_time_range BaseReport.reports_py_timedelta now
       (report_over start later) = Raise attribute_error
  /\ BaseReport._validate_time_range BaseReport.stdlib_timedelta now
       (report_over start end_) = Ok tt
  /\ BaseReport._validate_time_range BaseReport.stdlib_timedelta now
       (report_over start later)
     = Raise (ValueError "Time range cannot exceed 90 days")
  /\ ReportRequest.validate_time_span end_ (Some start) = Ok end_
  /\ ReportRequest.validate_time_span later (Some start)
     = Raise (ValueError "Time range cannot exceed 90 days").
Proof.
  cbv zeta.
  split; [reflexivity|]. split; [reflexivity|].
  split; [intros; apply post_init_stops_at_validation; reflexivity|].
  repeat (split; [vm_compute; reflexivity|]). vm_compute. reflexivity.
Qed.

(** C2, at the failing input.  For a report over 24 hours the strategy is
    hourly and the partition count 24, but no boundary list is produced:
    the first turn of the loop of [_calculate_partition_boundaries] raises
    AttributeError at [datetime.timedelta(hours=1)] (the defect of C1), for
    each granularity, and [_setup_time_partitions] raises with it.  Where
    the reference resolves, the boundaries are the 25 timestamps start,
    start + 1h, ..., start + 24h, which delimit the 24 hourly buckets. *)
Theorem hourly_boundaries_raise_AttributeError :
  let start := sample_start in
  let end_ := (sample_start + td_hours 24)%Z in
  let r := report_over start end_ in
  BaseReport.partition_strategy r = "hourly"
  /\ BaseReport.partition_count r = 24%Z
  /\ (forall fuel size,
         BaseReport._calculate_partition_boundaries BaseReport.reports_py_timedelta
           (S fuel) r size = Raise attribute_error)
  /\ (forall fuel,
         BaseReport._setup_time_partitions BaseReport.reports_py_timedelta
           (S fuel) r = Raise attribute_error)
  /\ BaseReport._calculate_partition_boundaries BaseReport.stdlib_timedelta
       25 r "hourly" = Ok (steps_from 25 start (td_hours 1))
  /\ List.length (steps_from 25 start (td_hours 1)) = 25%nat.
Proof.
  cbv zeta.
  split; [reflexivity|]. split; [reflexivity|].
  split.
  { intros fuel size. unfold BaseReport._calculate_partition_boundaries.
    apply boundaries_loop_as_written. vm_compute. discriminate. }
  split.
  { intros fuel. unfold BaseReport._setup_time_partitions,
      BaseReport._calculate_partition_boundaries.
    rewrite boundaries_loop_as_written; [reflexivity|].
    vm_compute. discriminate. }
  split; vm_compute; reflexivity.
Qed.

(* ================================================================== *)
(** ** Facts: numpy reductions *)

Lemma np_min_ok a : a <> [] -> exists v, Np.min a = Ok v.
Proof. destruct a; [congruence|]. intros _. eexists. reflexivity. Qed.

Lemma np_max_ok a : a <> [] -> exists v, Np.max a = Ok v.
Proof. destruct a; [congruence|]. intros _. eexists. reflexivity. Qed.

Lemma np_percentile_ok a p :
  (0 <=? p)%Z && (p <=? 100)%Z = true -> exists v, Np.percentile a p = Ok v.
Proof.
  intros H. apply andb_true_iff in H. destruct H as [H0 H1].
  apply Z.leb_le in H0, H1. unfold Np.percentile.
  destruct (Z.ltb_spec p 0); [lia|]. destruct (Z.ltb_spec 100 p); [lia|].
  cbn [orb]. eexists. reflexivity.
Qed.

Lemma np_mean_single x : Np.mean [x] == x.
Proof. unfold Np.mean, Np.sum, Np.size. cbn. field. Qed.

Lemma np_median_single x : Np.median [x] = x.
Proof. reflexivity. Qed.

Lemma np_var_single x : Np.var [x] == 0.
Proof.
  unfold Np.var. cbn [map]. rewrite np_mean_single.
  rewrite (np_mean_single x). ring.
Qed.

Lemma np_std_single x : Np.std [x] = 0%R.
Proof.
  unfold Np.std. rewrite (Qeq_eqR _ _ (np_var_single x)).
  rewrite RMicromega.Q2R_0. apply sqrt_0.
Qed.

Lemma np_percentile_single x p :
  (0 <=? p)%Z && (p <=? 100)%Z = true ->
  exists v, Np.percentile [x] p = Ok v /\ v == x.
Proof.
  intros H. apply andb_true_iff in H. destruct H as [H0 H1].
  apply Z.leb_le in H0, H1.
  unfold Np.percentile.
  destruct (Z.ltb_spec p 0); [lia|]. destruct (Z.ltb_spec 100 p); [lia|].
  cbn [orb]. eexists. split; [reflexivity|].
  assert (Hv : (Np.size [x] - 1) * (inject_Z p / 100) == 0).
  { unfold Np.size. cbn. field. }
  set (vi := (Np.size [x] - 1) * (inject_Z p / 100)) in *.
  assert (Hf : Qfloor vi = 0%Z).
  { rewrite (Qfloor_comp _ _ Hv). reflexivity. }
  rewrite Hf. cbn. ring.
Qed.

Lemma mapM_ok {A B} (f : A -> result B) (xs : list A) :
  (forall x, exists y, f x = Ok y) -> exists ys, mapM f xs = Ok ys.
Proof.
  intros H. induction xs as [|x xs [ys IH]].
  - exists []. reflexivity.
  - destruct (H x) as [y Hy]. cbn [mapM]. rewrite Hy, IH. cbn [bind].
    eexists. reflexivity.
Qed.

Lemma sum_mask mask :
  Np.sum (map (fun b : bool => if b then 1 else 0) mask)
  == inject_Z (Z.of_nat (count_true mask)).
Proof.
  unfold count_true. induction mask as [|b mask IH]; [reflexivity|].
  cbn [map Np.sum fold_right filter].
  change (fold_right Qplus 0 (map (fun b0 : bool => if b0 then 1 else 0) mask))
    with (Np.sum (map (fun b0 : bool => if b0 then 1 else 0) mask)).
  rewrite IH. destruct b; cbn [List.length].
  - rewrite Nat2Z.inj_succ, <- Z.add_1_l, inject_Z_plus. reflexivity.
  - ring.
Qed.

Lemma mean_bool_fraction mask :
  Np.mean_bool mask
  == inject_Z (Z.of_nat (count_true mask)) / inject_Z (Z.of_nat (List.length mask)).
Proof.
  unfold Np.mean_bool, Np.mean, Np.size. rewrite sum_mask, length_map. reflexivity.
Qed.

Lemma inject_nat_nonzero (n : nat) : (0 < n)%nat -> ~ inject_Z (Z.of_nat n) == 0.
Proof.
  intros H E. unfold Qeq in E. cbn in E. lia.
Qed.

Lemma count_true_map {A} (f : A -> bool) (l : list A) :
  count_true (map f l) = List.length (filter f l).
Proof.
  unfold count_true. induction l as [|a l IH]; [reflexivity|].
  cbn [map filter]. destruct (f a); cbn [List.length]; rewrite IH; reflexivity.
Qed.

Lemma filter_all {A} (f : A -> bool) (l : list A) :
  forallb f l = true -> filter f l = l.
Proof.
  induction l as [|a l IH]; [reflexivity|]. cbn [forallb filter].
  intros H. apply andb_true_iff in H. destruct H as [-> H]. rewrite IH by assumption.
  reflexivity.
Qed.

Lemma filter_none {A} (f : A -> bool) (l : list A) :
  forallb (fun a => negb (f a)) l = true -> filter f l = [].
Proof.
  induction l as [|a l IH]; [reflexivity|]. cbn [forallb filter].
  intros H. apply andb_true_iff in H. destruct H as [Ha H].
  apply negb_true_iff in Ha. rewrite Ha. auto.
Qed.

(** The mean of the mask of a test is the fraction of the observations that
    pass it: 1 when all pass, 0 when none does. *)
Lemma mask_mean_is_fraction (pass : Q -> bool) (observations : list Q) :
  Np.mean_bool (map pass observations) == fraction pass observations.
Proof.
  rewrite mean_bool_fraction, count_true_map, length_map. reflexivity.
Qed.

Lemma fraction_all (pass : Q -> bool) (observations : list Q) :
  observations <> [] -> forallb pass observations = true ->
  fraction pass observations == 1.
Proof.
  intros Hne H. unfold fraction. rewrite (filter_all pass observations H).
  field. apply inject_nat_nonzero. destruct observations; [congruence|cbn; lia].
Qed.

Lemma fraction_none (pass : Q -> bool) (observations : list Q) :
  forallb (fun x => negb (pass x)) observations = true ->
  fraction pass observations == 0.
Proof.
  intros H. unfold fraction. rewrite (filter_none pass observations H).
  unfold Qdiv. cbn [List.length Z.of_nat]. change (inject_Z 0) with 0. ring.
Qed.

(* ================================================================== *)
(** ** Facts: services/calculator.py *)

Lemma keyed_percentiles_ok data ps :
  percentiles_in_range ps = true ->
  exists l, mapM (keyed_percentile data) ps = Ok l
            /\ map fst l = map Calculator.percentile_key ps.
Proof.
  induction ps as [|p ps IH]; cbn [percentiles_in_range forallb mapM map].
  - intros _. exists []. split; reflexivity.
  - intros H. apply andb_true_iff in H. destruct H as [Hp Hps].
    destruct (IH Hps) as (l & Hl & Hk).
    destruct (np_percentile_ok data p Hp) as [v Hv].
    unfold keyed_percentile at 1. rewrite Hv. cbn [bind]. rewrite Hl. cbn [bind].
    eexists. split; [reflexivity|]. cbn [map fst]. rewrite Hk. reflexivity.
Qed.

Lemma keyed_percentiles_single x ps :
  percentiles_in_range ps = true ->
  exists l, mapM (keyed_percentile [x]) ps = Ok l
            /\ map fst l = map Calculator.percentile_key ps
            /\ Forall (fun kv => snd kv == x) l.
Proof.
  induction ps as [|p ps IH]; cbn [percentiles_in_range forallb mapM map].
  - intros _. exists []. repeat split; constructor.
  - intros H. apply andb_true_iff in H. destruct H as [Hp Hps].
    destruct (IH Hps) as (l & Hl & Hk & Hall).
    destruct (np_percentile_single x p Hp) as (v & Hv & Hx).
    unfold keyed_percentile at 1. rewrite Hv. cbn [bind]. rewrite Hl. cbn [bind].
    eexists. split; [reflexivity|]. cbn [map fst]. rewrite Hk.
    split; [reflexivity|]. constructor; assumption.
Qed.

(** The summary of a non-empty sample with percentiles in range. *)
Lemma summary_eq data o :
  data <> [] ->
  percentiles_in_range (Calculator.requested_percentiles o) = true ->
  exists mn mx ps,
    Np.min data = Ok mn /\ Np.max data = Ok mx
    /\ mapM (keyed_percentile data) (Calculator.requested_percentiles o) = Ok ps
    /\ Calculator.calculate_statistical_summary data o
       = Ok (Calculator.mk_summary
               (Calculator.mk_basic_stats (Np.mean data) (Np.median data)
                  (Np.std data) mn mx)
               ps
               (if (30 <=? List.length data)%nat then Some (expected_interval data)
                else None)).
Proof.
  intros Hne Hps.
  destruct (np_min_ok data Hne) as [mn Hmn]. destruct (np_max_ok data Hne) as [mx Hmx].
  destruct (keyed_percentiles_ok data _ Hps) as (ps & Hl & _).
  exists mn, mx, ps. repeat split; try assumption.
  unfold Calculator.calculate_statistical_summary.
  rewrite Hmn, Hmx. cbn [bind].
  change (fun p : Z => bind (Np.percentile data p)
                         (fun v => Ok (Calculator.percentile_key p, v)))
    with (keyed_percentile data).
  rewrite Hl. cbn [bind]. reflexivity.
Qed.

Lemma analyze_thresholds_ok values thresholds :
  values <> [] -> thresholds <> [] ->
  exists th, Calculator._analyze_thresholds values thresholds = Ok th.
Proof.
  intros Hv Ht. unfold Calculator._analyze_thresholds.
  destruct (np_min_ok thresholds Ht) as [lo ->]. cbn [bind].
  assert (Hm : exists ms,
             mapM (fun th : Q => Np.min (map (fun v : Q => v - th) values)) thresholds
             = Ok ms).
  { apply mapM_ok. intros t. apply np_min_ok.
    destruct values; [congruence|discriminate]. }
  destruct Hm as [ms ->]. cbn [bind]. eexists. reflexivity.
Qed.

(* ================================================================== *)
(** ** Facts: the SLA predicates *)

Lemma nonempty_of_length {A} (l : list A) : (1 <= List.length l)%nat -> l <> [].
Proof. destruct l; cbn; [lia|discriminate]. Qed.

Lemma meets_delivery_sla_iff x : meets_delivery_sla x = true <-> 99 <= x.
Proof. apply Qle_bool_iff. Qed.

Lemma meets_response_sla_iff x : meets_response_sla x = true <-> x < 2.
Proof.
  unfold meets_response_sla. destruct (Qlt_le_dec x 2) as [H|H].
  - split; [intros _; exact H|reflexivity].
  - split; [discriminate|]. intros H'. exfalso. apply (Qlt_not_le _ _ H' H).
Qed.

(* ================================================================== *)
(** ** The claims on the statistics calculator *)

(** C3.  Given an empty collection of metrics, or one in which no metric
    is valid, [calculate_delivery_statistics] raises the error of an
    insufficient data set (the ValueError "No valid metrics provided for
    analysis", which the specification names InsufficientDataError) and
    returns no statistics, whatever the historical comparison would do. *)
Theorem no_valid_metrics_raises
        (hist : Calculator.t -> string -> list Q -> datetime -> result pyval)
        (self : Calculator.t) (now : datetime)
        (metrics : list MessageMetric.t) (time_range : datetime) :
  forallb (fun m => negb (MessageMetric.is_valid m)) metrics = true ->
  Calculator.calculate_delivery_statistics hist self now metrics time_range
  = Raise (ValueError "No valid metrics provided for analysis").
Proof.
  intros H. unfold Calculator.calculate_delivery_statistics.
  rewrite (filter_none MessageMetric.is_valid metrics H). reflexivity.
Qed.

Lemma no_valid_metrics_raises_witness :
  Calculator.calculate_delivery_statistics (fun _ _ _ _ => Ok PNone)
    sample_calculator (sample_clock 0%nat)
    [stored_metric false 100 100 100; stored_metric false 100 99 99] sample_start
  = Raise (ValueError "No valid metrics provided for analysis").
Proof.
  apply (no_valid_metrics_raises (fun _ _ _ _ => Ok PNone) sample_calculator
           (sample_clock 0%nat)
           [stored_metric false 100 100 100; stored_metric false 100 99 99]
           sample_start).
  reflexivity.
Defined.

(** C4.  The statistical summary of a sample with a single value x, for
    requested percentiles within [0, 100]: it is returned, its standard
    deviation is 0, and each requested percentile is reported, under its
    key, with the value x.  Mean, median, minimum and maximum are x as
    well, and there is no confidence interval. *)
Theorem single_element_summary (x : Q) (o : Calculator.options) :
  percentiles_in_range (Calculator.requested_percentiles o) = true ->
  exists s,
    Calculator.calculate_statistical_summary [x] o = Ok s
    /\ Calculator.stat_std (Calculator.basic_stats_of s) = 0%R
    /\ map fst (Calculator.percentiles_of s)
       = map Calculator.percentile_key (Calculator.requested_percentiles o)
    /\ Forall (fun kv => snd kv == x) (Calculator.percentiles_of s)
    /\ Calculator.stat_mean (Calculator.basic_stats_of s) == x
    /\ Calculator.stat_median (Calculator.basic_stats_of s) = x
    /\ Calculator.stat_min (Calculator.basic_stats_of s) = x
    /\ Calculator.stat_max (Calculator.basic_stats_of s) = x
    /\ Calculator.confidence_interval_of s = None.
Proof.
  intros Hps.
  destruct (keyed_percentiles_single x _ Hps) as (l & Hl & Hk & Hall).
  unfold Calculator.calculate_statistical_summary.
  cbn [Np.min Np.max fold_left bind].
  change (fun p : Z => bind (Np.percentile [x] p)
                         (fun v => Ok (Calculator.percentile_key p, v)))
    with (keyed_percentile [x]).
  rewrite Hl. cbn [bind List.length Nat.leb].
  eexists. split; [reflexivity|].
  cbn [Calculator.basic_stats_of Calculator.percentiles_of
       Calculator.confidence_interval_of Calculator.stat_std Calculator.stat_mean
       Calculator.stat_median Calculator.stat_min Calculator.stat_max].
  split; [apply np_std_single|].
  split; [exact Hk|]. split; [exact Hall|].
  split; [apply np_mean_single|]. repeat split.
Qed.

Lemma single_element_summary_witness :
  exists s,
    Calculator.calculate_statistical_summary [995 # 10] delivery_options = Ok s
    /\ Calculator.stat_std (Calculator.basic_stats_of s) = 0%R
    /\ map fst (Calculator.percentiles_of s)
       = map Calculator.percentile_key
           (Calculator.requested_percentiles delivery_options)
    /\ Forall (fun kv => snd kv == 995 # 10) (Calculator.percentiles_of s)
    /\ Calculator.stat_mean (Calculator.basic_stats_of s) == 995 # 10
    /\ Calculator.stat_median (Calculator.basic_stats_of s) = 995 # 10
    /\ Calculator.stat_min (Calculator.basic_stats_of s) = 995 # 10
    /\ Calculator.stat_max (Calculator.basic_stats_of s) = 995 # 10
    /\ Calculator.confidence_interval_of s = None.
Proof.
  apply (single_element_summary (995 # 10) delivery_options). reflexivity.
Defined.

(** C5.  The statistical summary of a non-empty sample, for requested
    percentiles within [0, 100], is returned, and it holds a confidence
    interval exactly when the sample has at least 30 values: then the
    interval is mean - 1.96 * std / sqrt(n) to mean + 1.96 * std / sqrt(n)
    at level 0.95, and with fewer values there is none. *)
Theorem confidence_interval_iff_sample_size_30
        (data : list Q) (o : Calculator.options) :
  (1 <= List.length data)%nat ->
  percentiles_in_range (Calculator.requested_percentiles o) = true ->
  exists s,
    Calculator.calculate_statistical_summary data o = Ok s
    /\ ((exists ci, Calculator.confidence_interval_of s = Some ci)
        <-> (30 <= List.length data)%nat)
    /\ ((30 <= List.length data)%nat ->
        Calculator.confidence_interval_of s = Some (expected_interval data))
    /\ ((List.length data < 30)%nat -> Calculator.confidence_interval_of s = None).
Proof.
  intros Hlen Hps.
  destruct (summary_eq data o (nonempty_of_length data Hlen) Hps)
    as (mn & mx & ps & _ & _ & _ & Hs).
  eexists. split; [exact Hs|]. cbn [Calculator.confidence_interval_of].
  destruct (Nat.leb_spec 30 (List.length data)) as [H|H].
  - split; [split; [intros _; exact H|intros _; eexists; reflexivity]|].
    split; [reflexivity|]. intros H'. lia.
  - split; [split; [intros [ci Hci]; discriminate Hci|intros H'; lia]|].
    split; [intros H'; lia|reflexivity].
Qed.

Lemma confidence_interval_iff_sample_size_30_witness :
  exists s,
    Calculator.calculate_statistical_summary (repeat (995 # 10) 30) default_options
    = Ok s
    /\ ((exists ci, Calculator.confidence_interval_of s = Some ci)
        <-> (30 <= List.length (repeat (995 # 10) 30))%nat)
    /\ ((30 <= List.length (repeat (995 # 10) 30))%nat ->
        Calculator.confidence_interval_of s
        = Some (expected_interval (repeat (995 # 10) 30)))
    /\ ((List.length (repeat (995 # 10) 30) < 30)%nat ->
        Calculator.confidence_interval_of s = None).
Proof.
  apply (confidence_interval_iff_sample_size_30 (repeat (995 # 10) 30)
           default_options).
  - vm_compute. lia.
  - reflexivity.
Defined.

(** C6.  The SLA compliance of a set of observations is computed and not
    reported.  Every function that computes a compliance figure calls a
    method that its class does not define, and raises AttributeError where
    it should return:
    - [calculate_delivery_statistics], which computes the ratio of the
      delivery rates >= 99.0, returns on no input.  With no valid metric it
      raises the ValueError of C3; with a valid metric it is the outcome of
      [_calculate_historical_trends]: what the pandas selection or the
      polyfit raises and, when both return, the AttributeError of
      [_calculate_yoy_change];
    - [calculate_performance_statistics], which computes the ratio of the
      response times < 2.0, raises the AttributeError of
      [_calculate_health_status] on every input, before any figure is
      computed;
    - [_evaluate_sla_compliance], which computes the boolean of the delivery
      report, raises the AttributeError of [_calculate_compliance_trend] on
      every report;
    - no [MetricsAggregator] is constructed, so that
      [aggregate_delivery_metrics] has no instance to be called on. *)
Theorem sla_compliance_is_never_reported
        (historical_values : pyval -> string -> datetime -> result (list Q))
        (polyfit_slope : list Q -> result Q)
        (as_float : R -> pyval)
        (np_array : pyval -> result (list Q))
        (columns : pyval -> result (list string))
        (sort_values : string -> pyval -> result pyval)
        (DataFrame : list string -> pyval)
        (self : Calculator.t) (now : datetime)
        (metrics : list MessageMetric.t) (time_range : datetime)
        (system_metrics : list Calculator.SystemMetric) (include_predictions : bool)
        (report : MessageDeliveryReport.t)
        (aggregation_config performance_thresholds : dict) :
  let delivery :=
    Calculator.calculate_delivery_statistics
      (AsWritten._calculate_historical_trends historical_values polyfit_slope as_float)
      self now metrics time_range in
  let performance :=
    Calculator.calculate_performance_statistics
      AsWritten._calculate_health_status AsWritten._generate_performance_predictions
      self now system_metrics include_predictions in
  let evaluation :=
    MessageDeliveryReport._evaluate_sla_compliance
      AsWritten._calculate_compliance_trend AsWritten._identify_sla_violations
      report in
  (forall statistics, delivery <> Ok statistics)
  /\ delivery
     = match filter MessageMetric.is_valid metrics with
       | [] => Raise (ValueError "No valid metrics provided for analysis")
       | _ :: _ =>
           (historical <- historical_values (Calculator._historical_data self)
                            "delivery_rate" time_range ;;
            _ <- polyfit_slope historical ;;
            Raise (AttributeError
              "'MetricsCalculator' object has no attribute '_calculate_yoy_change'"))%py
       end
  /\ performance
     = Raise (AttributeError
         "'MetricsCalculator' object has no attribute '_calculate_health_status'")
  /\ evaluation
     = Raise (AttributeError
         "'MessageDeliveryReport' object has no attribute '_calculate_compliance_trend'")
  /\ (forall aggregator,
        MetricsAggregator.__init__ np_array columns sort_values DataFrame
          aggregation_config performance_thresholds <> Ok aggregator).
Proof.
  cbv zeta.
  assert (Hd : Calculator.calculate_delivery_statistics
                 (AsWritten._calculate_historical_trends historical_values
                    polyfit_slope as_float)
                 self now metrics time_range
               = match filter MessageMetric.is_valid metrics with
                 | [] => Raise (ValueError "No valid metrics provided for analysis")
                 | _ :: _ =>
                     (historical <- historical_values (Calculator._historical_data self)
                                      "delivery_rate" time_range ;;
                      _ <- polyfit_slope historical ;;
                      Raise (AttributeError
                        "'MetricsCalculator' object has no attribute '_calculate_yoy_change'"))%py
                 end).
  { unfold Calculator.calculate_delivery_statistics. cbv zeta.
    destruct (filter MessageMetric.is_valid metrics) as [|m valid]; [reflexivity|].
    set (rates := map MessageMetric.delivery_rate (m :: valid)).
    assert (Hne : rates <> []) by discriminate.
    destruct (summary_eq rates delivery_options Hne eq_refl)
      as (mn & mx & ps & _ & _ & _ & Hs).
    change (Calculator.mk_options (Some [25; 50; 75; 90; 95; 99]%Z) (Some true))
      with delivery_options.
    rewrite Hs. cbn [bind].
    unfold AsWritten._calculate_historical_trends.
    destruct (historical_values (Calculator._historical_data self) "delivery_rate"
                time_range) as [historical|e|]; cbn [bind]; [|reflexivity|reflexivity].
    destruct (polyfit_slope historical) as [slope|e|]; reflexivity. }
  split; [|split; [exact Hd|split; [reflexivity|split; [reflexivity|]]]].
  - intros statistics. rewrite Hd.
    destruct (filter MessageMetric.is_valid metrics) as [|m valid]; [discriminate|].
    destruct (historical_values (Calculator._historical_data self) "delivery_rate"
                time_range) as [historical|e|]; cbn [bind]; [|discriminate|discriminate].
    destruct (polyfit_slope historical) as [slope|e|]; discriminate.
  - intros aggregator. unfold MetricsAggregator.__init__.
    destruct (MetricsCalculator.__init__ np_array columns sort_values
                performance_thresholds
                (DataFrame ["timestamp"; "metric_type"; "value"]))
      as [c|e|]; cbn [bind]; discriminate.
Qed.

(* ================================================================== *)
(** ** Further facts: numpy reductions and the statistics calculator *)

Lemma fold_min_le_init a x : fold_left Qmin a x <= x.
Proof.
  revert x. induction a as [|y a IH]; intros x; cbn [fold_left].
  - apply Qle_refl.
  - eapply Qle_trans; [apply IH|]. apply Q.le_min_l.
Qed.

Lemma fold_min_le_elem a : forall x y, In y a -> fold_left Qmin a x <= y.
Proof.
  induction a as [|z a IH]; intros x y Hin; [destruct Hin|].
  cbn [fold_left]. destruct Hin as [->|Hin].
  - eapply Qle_trans; [apply fold_min_le_init|]. apply Q.le_min_r.
  - apply IH. exact Hin.
Qed.

Lemma fold_max_ge_init a x : x <= fold_left Qmax a x.
Proof.
  revert x. induction a as [|y a IH]; intros x; cbn [fold_left].
  - apply Qle_refl.
  - eapply Qle_trans; [|apply IH]. apply Q.le_max_l.
Qed.

Lemma fold_max_ge_elem a : forall x y, In y a -> y <= fold_left Qmax a x.
Proof.
  induction a as [|z a IH]; intros x y Hin; [destruct Hin|].
  cbn [fold_left]. destruct Hin as [->|Hin].
  - eapply Qle_trans; [|apply fold_max_ge_init]. apply Q.le_max_r.
  - apply IH. exact Hin.
Qed.

Lemma np_min_lower a mn : Np.min a = Ok mn -> forall y, In y a -> mn <= y.
Proof.
  destruct a as [|x a]; [discriminate|]. cbn [Np.min]. intros H y Hin.
  injection H as <-. destruct Hin as [<-|Hin].
  - apply fold_min_le_init.
  - apply fold_min_le_elem. exact Hin.
Qed.

Lemma np_max_upper a mx : Np.max a = Ok mx -> forall y, In y a -> y <= mx.
Proof.
  destruct a as [|x a]; [discriminate|]. cbn [Np.max]. intros H y Hin.
  injection H as <-. destruct Hin as [<-|Hin].
  - apply fold_max_ge_init.
  - apply fold_max_ge_elem. exact Hin.
Qed.

Lemma insert_length x a : List.length (Np.insert x a) = S (List.length a).
Proof.
  induction a as [|y a IH]; [reflexivity|]. cbn [Np.insert].
  destruct (Qle_bool x y); cbn [List.length]; [reflexivity|]. rewrite IH. reflexivity.
Qed.

Lemma sort_length a : List.length (Np.sort a) = List.length a.
Proof.
  induction a as [|x a IH]; [reflexivity|].
  unfold Np.sort in *. cbn [fold_right]. rewrite insert_length, IH. reflexivity.
Qed.

Lemma insert_In x a y : In y (Np.insert x a) -> y = x \/ In y a.
Proof.
  induction a as [|z a IH]; cbn [Np.insert].
  - intros [<-|[]]. left. reflexivity.
  - destruct (Qle_bool x z).
    + intros [<-|H]; [left; reflexivity|right; exact H].
    + intros [<-|H]; [right; left; reflexivity|].
      destruct (IH H) as [->|H']; [left; reflexivity|right; right; exact H'].
Qed.

Lemma sort_In a y : In y (Np.sort a) -> In y a.
Proof.
  induction a as [|x a IH]; [intros []|].
  unfold Np.sort in *. cbn [fold_right]. intros H.
  destruct (insert_In _ _ _ H) as [->|H']; [left; reflexivity|right; apply IH; exact H'].
Qed.

Lemma sorted_nth_In a k : (k < List.length a)%nat -> In (nth k (Np.sort a) 0) a.
Proof.
  intros H. apply sort_In. apply nth_In. rewrite sort_length. exact H.
Qed.

(** A value between two elements of the sample, at a weight in [0, 1]. *)
Lemma interpolation_bounds lo hi mn mx g :
  mn <= lo -> lo <= mx -> mn <= hi -> hi <= mx -> 0 <= g -> g <= 1 ->
  mn <= lo + (hi - lo) * g /\ lo + (hi - lo) * g <= mx.
Proof.
  intros. split.
  - assert (0 <= (lo - mn) * (1 - g)) by (apply Qmult_le_0_compat; Lqa.lra).
    assert (0 <= (hi - mn) * g) by (apply Qmult_le_0_compat; Lqa.lra).
    Lqa.lra.
  - assert (0 <= (mx - lo) * (1 - g)) by (apply Qmult_le_0_compat; Lqa.lra).
    assert (0 <= (mx - hi) * g) by (apply Qmult_le_0_compat; Lqa.lra).
    Lqa.lra.
Qed.

Lemma size_eq a : Np.size a = inject_Z (Z.of_nat (List.length a)).
Proof. reflexivity. Qed.

(** The virtual index of a percentile in range lies between 0 and n - 1. *)
Lemma virtual_index_bounds a p :
  a <> [] -> (0 <= p <= 100)%Z ->
  0 <= (Np.size a - 1) * (inject_Z p / 100)
  /\ (Np.size a - 1) * (inject_Z p / 100) <= Np.size a - 1.
Proof.
  intros Hne [H0 H1].
  assert (Hs : 0 <= Np.size a - 1).
  { unfold Np.size. destruct a as [|x a]; [congruence|].
    cbn [List.length]. rewrite Nat2Z.inj_succ, <- Z.add_1_l, inject_Z_plus.
    assert (0 <= inject_Z (Z.of_nat (List.length a))).
    { change 0 with (inject_Z 0). rewrite <- Zle_Qle. lia. }
    change (inject_Z 1) with 1. Lqa.lra. }
  assert (Hp0 : 0 <= inject_Z p / 100).
  { unfold Qdiv. change (/ 100) with (1 # 100).
    assert (0 <= inject_Z p) by (change 0 with (inject_Z 0); rewrite <- Zle_Qle; lia).
    Lqa.lra. }
  assert (Hp1 : inject_Z p / 100 <= 1).
  { unfold Qdiv. change (/ 100) with (1 # 100).
    assert (inject_Z p <= 100) by (change 100 with (inject_Z 100); rewrite <- Zle_Qle; lia).
    Lqa.lra. }
  set (q := inject_Z p / 100) in *. set (m := Np.size a - 1) in *.
  split.
  - apply Qmult_le_0_compat; assumption.
  - assert (0 <= m * (1 - q)) by (apply Qmult_le_0_compat; Lqa.lra). Lqa.lra.
Qed.

Lemma percentile_bounds a p mn mx v :
  Np.min a = Ok mn -> Np.max a = Ok mx -> Np.percentile a p = Ok v ->
  mn <= v /\ v <= mx.
Proof.
  intros Hmn Hmx Hv.
  assert (Hne : a <> []) by (intros ->; discriminate Hmn).
  unfold Np.percentile in Hv.
  destruct (Z.ltb_spec p 0) as [|Hp0]; [discriminate Hv|].
  destruct (Z.ltb_spec 100 p) as [|Hp1]; [discriminate Hv|].
  cbn [orb] in Hv. cbv zeta in Hv. apply Ok_inj in Hv. subst v.
  destruct (virtual_index_bounds a p Hne (conj Hp0 Hp1)) as [Hv0 Hv1].
  set (vi := (Np.size a - 1) * (inject_Z p / 100)) in *.
  pose proof (Qfloor_le vi) as Hfl. pose proof (Qlt_floor vi) as Hfu.
  rewrite inject_Z_plus in Hfu. change (inject_Z 1) with 1 in Hfu.
  assert (Hf0 : (0 <= Qfloor vi)%Z).
  { apply Z.lt_succ_r. rewrite Zlt_Qlt. rewrite <- Z.add_1_r, inject_Z_plus.
    change (inject_Z 0) with 0. change (inject_Z 1) with 1. Lqa.lra. }
  assert (Hn : (1 <= List.length a)%nat) by (destruct a; [congruence|cbn; lia]).
  assert (Hf1 : (Qfloor vi < Z.of_nat (List.length a))%Z).
  { rewrite Zlt_Qlt. rewrite <- size_eq. Lqa.lra. }
  assert (Hprev : (Z.to_nat (Qfloor vi) < List.length a)%nat) by lia.
  assert (Hnext : (Nat.min (S (Z.to_nat (Qfloor vi))) (List.length a - 1)
                   < List.length a)%nat) by lia.
  pose proof (sorted_nth_In a _ Hprev) as Hlo.
  pose proof (sorted_nth_In a _ Hnext) as Hhi.
  clearbody vi. apply interpolation_bounds.
  - apply (np_min_lower a mn Hmn _ Hlo).
  - apply (np_max_upper a mx Hmx _ Hlo).
  - apply (np_min_lower a mn Hmn _ Hhi).
  - apply (np_max_upper a mx Hmx _ Hhi).
  - Lqa.lra.
  - Lqa.lra.
Qed.

Lemma median_bounds a mn mx :
  Np.min a = Ok mn -> Np.max a = Ok mx ->
  mn <= Np.median a /\ Np.median a <= mx.
Proof.
  intros Hmn Hmx.
  assert (Hne : a <> []) by (intros ->; discriminate Hmn).
  assert (Hn : (1 <= List.length a)%nat) by (destruct a; [congruence|cbn; lia]).
  unfold Np.median. cbv zeta.
  assert (Hhalf : (List.length a / 2 < List.length a)%nat).
  { apply Nat.div_lt; lia. }
  pose proof (sorted_nth_In a _ Hhalf) as Hhi.
  destruct (Nat.even (List.length a)).
  - assert (Hprev : (List.length a / 2 - 1 < List.length a)%nat) by lia.
    pose proof (sorted_nth_In a _ Hprev) as Hlo.
    pose proof (np_min_lower a mn Hmn _ Hlo). pose proof (np_max_upper a mx Hmx _ Hlo).
    pose proof (np_min_lower a mn Hmn _ Hhi). pose proof (np_max_upper a mx Hmx _ Hhi).
    unfold Qdiv. change (/ 2) with (1 # 2). split; Lqa.lra.
  - split; [apply (np_min_lower a mn Hmn _ Hhi)|apply (np_max_upper a mx Hmx _ Hhi)].
Qed.

Lemma Qfloor_unique x z : inject_Z z <= x -> x < inject_Z z + 1 -> Qfloor x = z.
Proof.
  intros Hlo Hhi.
  pose proof (Qfloor_le x) as Hfl. pose proof (Qlt_floor x) as Hfu.
  rewrite inject_Z_plus in Hfu. change (inject_Z 1) with 1 in Hfu.
  assert (H1 : (Qfloor x < z + 1)%Z).
  { rewrite Zlt_Qlt, inject_Z_plus. change (inject_Z 1) with 1. Lqa.lra. }
  assert (H2 : (z < Qfloor x + 1)%Z).
  { rewrite Zlt_Qlt, inject_Z_plus. change (inject_Z 1) with 1. Lqa.lra. }
  lia.
Qed.

(** In a sample of odd size the virtual index of the percentile 50 is the
    whole number (n - 1) / 2: the percentile is the middle element of the
    sorted sample, as the median is. *)
Lemma percentile_50_of_odd_sample a :
  Nat.odd (List.length a) = true ->
  Np.median a = nth (List.length a / 2) (Np.sort a) 0
  /\ exists v, Np.percentile a 50 = Ok v /\ v == Np.median a.
Proof.
  intros Ho.
  assert (E : Nat.even (List.length a) = false).
  { rewrite <- Nat.negb_odd, Ho. reflexivity. }
  assert (Hm : Np.median a = nth (List.length a / 2) (Np.sort a) 0).
  { unfold Np.median. cbv zeta. rewrite E. reflexivity. }
  split; [exact Hm|]. rewrite Hm.
  unfold Np.percentile. cbn [Z.ltb Z.compare orb Pos.compare Pos.compare_cont].
  cbv zeta. eexists. split; [reflexivity|].
  set (s := Np.sort a). set (n := List.length a) in *.
  assert (Hsize : Np.size a = inject_Z (Z.of_nat n)) by reflexivity.
  rewrite Hsize.
  set (vi := (inject_Z (Z.of_nat n) - 1) * (inject_Z 50 / 100)).
  apply Nat.odd_spec in Ho. destruct Ho as [k Hk].
  assert (Hvi : vi == inject_Z (Z.of_nat k)).
  { unfold vi. rewrite Hk, Nat2Z.inj_add, Nat2Z.inj_mul, inject_Z_plus, inject_Z_mult.
    change (inject_Z (Z.of_nat 2)) with 2. change (inject_Z (Z.of_nat 1)) with 1.
    change (inject_Z 50) with 50. field. }
  assert (Hf : Qfloor vi = Z.of_nat k).
  { apply Qfloor_unique; rewrite Hvi; Lqa.lra. }
  rewrite Hf, Nat2Z.id.
  replace (n / 2)%nat with k.
  2:{ rewrite Hk. symmetry. rewrite Nat.add_comm, Nat.mul_comm.
      rewrite Nat.div_add by lia. reflexivity. }
  rewrite Hvi. ring.
Qed.

Lemma mapM_Forall2 {A B} (f : A -> result B) xs : forall ys,
  mapM f xs = Ok ys -> Forall2 (fun x y => f x = Ok y) xs ys.
Proof.
  induction xs as [|x xs IH]; intros ys H.
  - apply Ok_inj in H. subst ys. constructor.
  - cbn [mapM] in H. destruct (f x) as [y| |] eqn:Ey; try discriminate H.
    cbn [bind] in H. destruct (mapM f xs) as [ys'| |]; try discriminate H.
    cbn [bind] in H. apply Ok_inj in H. subst ys. constructor; [exact Ey|].
    apply IH. reflexivity.
Qed.

Lemma keyed_percentile_inv data p kv :
  keyed_percentile data p = Ok kv ->
  fst kv = Calculator.percentile_key p /\ Np.percentile data p = Ok (snd kv).
Proof.
  unfold keyed_percentile. destruct (Np.percentile data p) as [v| |]; try discriminate.
  cbn [bind]. intros H. apply Ok_inj in H. subst kv. split; reflexivity.
Qed.

(** X1.  For a non-empty sample and requested percentiles within [0, 100],
    [calculate_statistical_summary] returns, and the median it reports lies
    between the minimum and the maximum it reports. *)
Theorem summary_median_within_extremes
        (data : list Q) (o : Calculator.options) :
  (1 <= List.length data)%nat ->
  percentiles_in_range (Calculator.requested_percentiles o) = true ->
  exists s,
    Calculator.calculate_statistical_summary data o = Ok s
    /\ Calculator.stat_min (Calculator.basic_stats_of s)
       <= Calculator.stat_median (Calculator.basic_stats_of s)
    /\ Calculator.stat_median (Calculator.basic_stats_of s)
       <= Calculator.stat_max (Calculator.basic_stats_of s).
Proof.
  intros Hlen Hps.
  pose proof (nonempty_of_length data Hlen) as Hne.
  destruct (summary_eq data o Hne Hps) as (mn & mx & ps & Hmn & Hmx & _ & Hs).
  eexists. split; [exact Hs|].
  cbn [Calculator.basic_stats_of Calculator.stat_min Calculator.stat_max
       Calculator.stat_median].
  exact (median_bounds data mn mx Hmn Hmx).
Qed.

Lemma summary_median_within_extremes_witness :
  exists s,
    Calculator.calculate_statistical_summary [98; 100; 995 # 10; 97] default_options = Ok s
    /\ Calculator.stat_min (Calculator.basic_stats_of s)
       <= Calculator.stat_median (Calculator.basic_stats_of s)
    /\ Calculator.stat_median (Calculator.basic_stats_of s)
       <= Calculator.stat_max (Calculator.basic_stats_of s).
Proof.
  apply (summary_median_within_extremes [98; 100; 995 # 10; 97] default_options).
  - vm_compute. lia.
  - reflexivity.
Defined.

(** X2.  For a non-empty sample and requested percentiles within [0, 100],
    [calculate_statistical_summary] reports one entry per requested
    percentile, under the keys p<percentile> in the order requested, and
    every reported value lies between the minimum and the maximum of the
    sample: the interpolation never leaves the range of the data. *)
Theorem summary_percentiles_within_extremes
        (data : list Q) (o : Calculator.options) :
  (1 <= List.length data)%nat ->
  percentiles_in_range (Calculator.requested_percentiles o) = true ->
  exists s,
    Calculator.calculate_statistical_summary data o = Ok s
    /\ map fst (Calculator.percentiles_of s)
       = map Calculator.percentile_key (Calculator.requested_percentiles o)
    /\ Forall (fun kv =>
                 Calculator.stat_min (Calculator.basic_stats_of s) <= snd kv
                 /\ snd kv <= Calculator.stat_max (Calculator.basic_stats_of s))
         (Calculator.percentiles_of s).
Proof.
  intros Hlen Hps.
  pose proof (nonempty_of_length data Hlen) as Hne.
  destruct (summary_eq data o Hne Hps) as (mn & mx & ps & Hmn & Hmx & Hl & Hs).
  eexists. split; [exact Hs|].
  cbn [Calculator.basic_stats_of Calculator.stat_min Calculator.stat_max
       Calculator.percentiles_of].
  destruct (keyed_percentiles_ok data _ Hps) as (l & Hl' & Hk).
  rewrite Hl in Hl'. apply Ok_inj in Hl'. subst l.
  split; [exact Hk|].
  apply mapM_Forall2 in Hl. clear Hs Hk Hps.
  induction Hl as [|p kv ps' l' Hkv _ IH]; [constructor|].
  constructor; [|exact IH].
  apply keyed_percentile_inv in Hkv. destruct Hkv as [_ Hv].
  exact (percentile_bounds data p mn mx (snd kv) Hmn Hmx Hv).
Qed.

Lemma summary_percentiles_within_extremes_witness :
  exists s,
    Calculator.calculate_statistical_summary [98; 100; 995 # 10; 97] delivery_options = Ok s
    /\ map fst (Calculator.percentiles_of s)
       = map Calculator.percentile_key (Calculator.requested_percentiles delivery_options)
    /\ Forall (fun kv =>
                 Calculator.stat_min (Calculator.basic_stats_of s) <= snd kv
                 /\ snd kv <= Calculator.stat_max (Calculator.basic_stats_of s))
         (Calculator.percentiles_of s).
Proof.
  apply (summary_percentiles_within_extremes [98; 100; 995 # 10; 97] delivery_options).
  - vm_compute. lia.
  - reflexivity.
Defined.

(** X3.  In the summary of a sample of odd size, the reported median is the
    middle element of the sorted sample, and the value reported for a
    requested percentile 50 equals it: the virtual index of that percentile
    is a whole number, so nothing is interpolated. *)
Theorem odd_sample_median_is_fiftieth_percentile
        (data : list Q) (o : Calculator.options) :
  Nat.odd (List.length data) = true ->
  percentiles_in_range (Calculator.requested_percentiles o) = true ->
  exists s,
    Calculator.calculate_statistical_summary data o = Ok s
    /\ Calculator.stat_median (Calculator.basic_stats_of s)
       = nth (List.length data / 2) (Np.sort data) 0
    /\ Forall2 (fun p kv =>
                  fst kv = Calculator.percentile_key p
                  /\ (p = 50%Z ->
                      snd kv == Calculator.stat_median (Calculator.basic_stats_of s)))
         (Calculator.requested_percentiles o) (Calculator.percentiles_of s).
Proof.
  intros Hodd Hps.
  assert (Hne : data <> []).
  { intros ->. discriminate Hodd. }
  destruct (summary_eq data o Hne Hps) as (mn & mx & ps & Hmn & Hmx & Hl & Hs).
  destruct (percentile_50_of_odd_sample data Hodd) as (Hmid & v & Hv' & Hm).
  eexists. split; [exact Hs|].
  cbn [Calculator.basic_stats_of Calculator.stat_median Calculator.percentiles_of].
  split; [exact Hmid|].
  apply mapM_Forall2 in Hl. clear Hs Hps.
  induction Hl as [|p kv ps' l' Hkv _ IH]; [constructor|].
  constructor; [|exact IH].
  apply keyed_percentile_inv in Hkv. destruct Hkv as [Hk Hv].
  split; [exact Hk|]. intros ->.
  rewrite Hv in Hv'. apply Ok_inj in Hv'. rewrite Hv'. exact Hm.
Qed.

Lemma odd_sample_median_is_fiftieth_percentile_witness :
  exists s,
    Calculator.calculate_statistical_summary [98; 100; 995 # 10] default_options = Ok s
    /\ Calculator.stat_median (Calculator.basic_stats_of s)
       = nth (List.length [98; 100; 995 # 10] / 2) (Np.sort [98; 100; 995 # 10]) 0
    /\ Forall2 (fun p kv =>
                  fst kv = Calculator.percentile_key p
                  /\ (p = 50%Z ->
                      snd kv == Calculator.stat_median (Calculator.basic_stats_of s)))
         (Calculator.requested_percentiles default_options) (Calculator.percentiles_of s).
Proof.
  apply (odd_sample_median_is_fiftieth_percentile [98; 100; 995 # 10] default_options);
    reflexivity.
Defined.

(** X4.  For a sample of at least 30 values the summary holds a confidence
    interval that brackets the reported mean: lower <= mean <= upper. *)
Theorem confidence_interval_brackets_the_mean
        (data : list Q) (o : Calculator.options) :
  (30 <= List.length data)%nat ->
  percentiles_in_range (Calculator.requested_percentiles o) = true ->
  exists s ci,
    Calculator.calculate_statistical_summary data o = Ok s
    /\ Calculator.confidence_interval_of s = Some ci
    /\ (Calculator.ci_lower ci
        <= Q2R (Calculator.stat_mean (Calculator.basic_stats_of s)))%R
    /\ (Q2R (Calculator.stat_mean (Calculator.basic_stats_of s))
        <= Calculator.ci_upper ci)%R.
Proof.
  intros Hlen Hps.
  assert (Hne : data <> []) by (apply nonempty_of_length; lia).
  destruct (summary_eq data o Hne Hps) as (mn & mx & ps & _ & _ & _ & Hs).
  destruct (Nat.leb_spec 30 (List.length data)) as [_|H]; [|lia].
  eexists. eexists. split; [exact Hs|]. split; [reflexivity|].
  unfold expected_interval.
  cbn [Calculator.basic_stats_of Calculator.stat_mean Calculator.stat_std
       Calculator.ci_lower Calculator.ci_upper].
  assert (Hse : (0 <= Np.std data / sqrt (INR (List.length data)))%R).
  { unfold Rdiv. apply Rmult_le_pos.
    - unfold Np.std. apply sqrt_pos.
    - apply Rlt_le, Rinv_0_lt_compat, sqrt_lt_R0, lt_0_INR. lia. }
  set (se := (Np.std data / sqrt (INR (List.length data)))%R) in *.
  split; Lra.lra.
Qed.

Lemma confidence_interval_brackets_the_mean_witness :
  exists s ci,
    Calculator.calculate_statistical_summary (repeat (995 # 10) 30) default_options = Ok s
    /\ Calculator.confidence_interval_of s = Some ci
    /\ (Calculator.ci_lower ci
        <= Q2R (Calculator.stat_mean (Calculator.basic_stats_of s)))%R
    /\ (Q2R (Calculator.stat_mean (Calculator.basic_stats_of s))
        <= Calculator.ci_upper ci)%R.
Proof.
  apply (confidence_interval_brackets_the_mean (repeat (995 # 10) 30) default_options).
  - vm_compute. lia.
  - reflexivity.
Defined.

Lemma filter_filter {A} (f : A -> bool) (l : list A) :
  filter f (filter f l) = filter f l.
Proof.
  induction l as [|a l IH]; [reflexivity|]. cbn [filter].
  destruct (f a) eqn:E; [|exact IH]. cbn [filter]. rewrite E, IH. reflexivity.
Qed.

(** X5.  [calculate_delivery_statistics] computes from the valid metrics
    only: its outcome on a list of metrics (result or exception) is its
    outcome on the sublist of the metrics whose is_valid is True, so
    metrics that are not valid change no figure of the result. *)
Theorem delivery_statistics_ignore_invalid_metrics
        (hist : Calculator.t -> string -> list Q -> datetime -> result pyval)
        (self : Calculator.t) (now : datetime)
        (metrics : list MessageMetric.t) (time_range : datetime) :
  Calculator.calculate_delivery_statistics hist self now metrics time_range
  = Calculator.calculate_delivery_statistics hist self now
      (filter MessageMetric.is_valid metrics) time_range.
Proof.
  unfold Calculator.calculate_delivery_statistics.
  rewrite filter_filter. reflexivity.
Qed.

Lemma filter_length_mono {A} (f g : A -> bool) (l : list A) :
  (forall x, In x l -> f x = true -> g x = true) ->
  (List.length (filter f l) <= List.length (filter g l))%nat.
Proof.
  induction l as [|a l IH]; intros H; [cbn; lia|].
  assert (IH' : (List.length (filter f l) <= List.length (filter g l))%nat).
  { apply IH. intros x Hx. apply H. right. exact Hx. }
  cbn [filter]. destruct (f a) eqn:Ef.
  - rewrite (H a (or_introl eq_refl) Ef). cbn [List.length]. lia.
  - destruct (g a); cbn [List.length]; lia.
Qed.

Lemma inject_nat_le (n m : nat) :
  (n <= m)%nat -> inject_Z (Z.of_nat n) <= inject_Z (Z.of_nat m).
Proof. intros H. rewrite <- Zle_Qle. lia. Qed.

Lemma inject_nat_pos (n : nat) : (0 < n)%nat -> 0 < inject_Z (Z.of_nat n).
Proof. intros H. change 0 with (inject_Z 0). rewrite <- Zlt_Qlt. lia. Qed.

Lemma fraction_bounds (pass : Q -> bool) (observations : list Q) :
  observations <> [] ->
  0 <= fraction pass observations /\ fraction pass observations <= 1.
Proof.
  intros Hne. unfold fraction.
  assert (Hn : 0 < inject_Z (Z.of_nat (List.length observations))).
  { apply inject_nat_pos. destruct observations; [congruence|cbn; lia]. }
  split.
  - apply Qle_shift_div_l; [exact Hn|]. rewrite Qmult_0_l.
    change 0 with (inject_Z 0). rewrite <- Zle_Qle. lia.
  - apply Qle_shift_div_r; [exact Hn|]. rewrite Qmult_1_l.
    apply inject_nat_le. apply filter_length_le.
Qed.

Lemma fraction_mono (f g : Q -> bool) (observations : list Q) :
  observations <> [] ->
  (forall x, In x observations -> f x = true -> g x = true) ->
  fraction f observations <= fraction g observations.
Proof.
  intros Hne H. unfold fraction.
  assert (Hn : 0 < inject_Z (Z.of_nat (List.length observations))).
  { apply inject_nat_pos. destruct observations; [congruence|cbn; lia]. }
  apply Qle_shift_div_l; [exact Hn|].
  unfold Qdiv. rewrite <- Qmult_assoc, (Qmult_comm (/ _)), Qmult_inv_r, Qmult_1_r.
  - apply inject_nat_le, filter_length_mono, H.
  - intros E. rewrite E in Hn. apply (Qlt_irrefl 0 Hn).
Qed.

Lemma fraction_pos (pass : Q -> bool) (observations : list Q) :
  0 < fraction pass observations <-> exists x, In x observations /\ pass x = true.
Proof.
  unfold fraction. split.
  - intros H.
    destruct (filter pass observations) as [|x l] eqn:E.
    + exfalso. cbn [List.length Z.of_nat] in H. unfold Qdiv in H.
      change (inject_Z 0) with 0 in H. rewrite Qmult_0_l in H.
      apply (Qlt_irrefl 0 H).
    + exists x. apply filter_In. rewrite E. left. reflexivity.
  - intros (x & Hin & Hp).
    assert (Hx : In x (filter pass observations)) by (apply filter_In; split; assumption).
    assert (Hc : (0 < List.length (filter pass observations))%nat).
    { destruct (filter pass observations); [destruct Hx|cbn; lia]. }
    assert (Hn : (0 < List.length observations)%nat).
    { destruct observations; [destruct Hin|cbn; lia]. }
    apply Qlt_shift_div_l; [apply inject_nat_pos; exact Hn|].
    rewrite Qmult_0_l. apply inject_nat_pos. exact Hc.
Qed.

Lemma fold_min_In a : forall x, fold_left Qmin a x = x \/ In (fold_left Qmin a x) a.
Proof.
  induction a as [|y a IH]; intros x; cbn [fold_left]; [left; reflexivity|].
  destruct (IH (Qmin x y)) as [H|H].
  - rewrite H. unfold Qmin, GenericMinMax.gmin.
    destruct (x ?= y); [left|left|right; left]; reflexivity.
  - right. right. exact H.
Qed.

Lemma np_min_In a mn : Np.min a = Ok mn -> In mn a.
Proof.
  destruct a as [|x a]; [discriminate|]. cbn [Np.min]. intros H.
  apply Ok_inj in H. subst mn.
  destruct (fold_min_In a x) as [->|H]; [left; reflexivity|right; exact H].
Qed.

Lemma below_is_mask th values :
  Calculator.below th values
  = map (fun v => if Qlt_le_dec v th then true else false) values.
Proof. reflexivity. Qed.

Lemma below_true v th : (if Qlt_le_dec v th then true else false) = true <-> v < th.
Proof.
  destruct (Qlt_le_dec v th) as [H|H].
  - split; [intros _; exact H|reflexivity].
  - split; [discriminate|]. intros H'. exfalso. apply (Qlt_not_le _ _ H' H).
Qed.

(** The smallest margin is negative exactly when some value is below the
    threshold. *)
Lemma margin_negative values th m :
  Np.min (map (fun v => v - th) values) = Ok m ->
  m < 0 <-> exists v, In v values /\ v < th.
Proof.
  intros Hm. split.
  - intros Hneg. apply np_min_In in Hm. apply in_map_iff in Hm.
    destruct Hm as (v & Hv & Hin). exists v. split; [exact Hin|].
    rewrite <- Hv in Hneg. Lqa.lra.
  - intros (v & Hin & Hlt).
    assert (Hle : m <= v - th).
    { apply (np_min_lower _ m Hm). apply in_map_iff. exists v. split; [reflexivity|exact Hin]. }
    Lqa.lra.
Qed.

(** X6.  [_analyze_thresholds] on non-empty values and thresholds returns;
    it reports one breach ratio per threshold, each between 0 and 1 and at
    least the critical ratio (the ratio below the lowest threshold), and one
    margin per threshold, where the margin of a threshold is negative
    exactly when its breach ratio is positive. *)
Theorem threshold_analysis_relations (values thresholds : list Q) :
  (1 <= List.length values)%nat ->
  (1 <= List.length thresholds)%nat ->
  exists th,
    Calculator._analyze_thresholds values thresholds = Ok th
    /\ List.length (Calculator.threshold_breaches th) = List.length thresholds
    /\ Forall (fun b => 0 <= b /\ b <= 1 /\ Calculator.critical_breaches th <= b)
         (Calculator.threshold_breaches th)
    /\ Forall2 (fun b m => 0 < b <-> m < 0)
         (Calculator.threshold_breaches th) (Calculator.threshold_margins th).
Proof.
  intros Hv Ht.
  pose proof (nonempty_of_length values Hv) as Hvne.
  pose proof (nonempty_of_length thresholds Ht) as Htne.
  unfold Calculator._analyze_thresholds.
  destruct (np_min_ok thresholds Htne) as [lowest Hlow]. rewrite Hlow. cbn [bind].
  destruct (mapM (fun th : Q => Np.min (map (fun v : Q => v - th) values)) thresholds)
    as [ms| |] eqn:Hms.
  2:{ exfalso. destruct (analyze_thresholds_ok values thresholds Hvne Htne) as [th Hth].
      unfold Calculator._analyze_thresholds in Hth. rewrite Hlow in Hth. cbn [bind] in Hth.
      rewrite Hms in Hth. discriminate Hth. }
  2:{ exfalso. destruct (analyze_thresholds_ok values thresholds Hvne Htne) as [th Hth].
      unfold Calculator._analyze_thresholds in Hth. rewrite Hlow in Hth. cbn [bind] in Hth.
      rewrite Hms in Hth. discriminate Hth. }
  cbn [bind]. eexists. split; [reflexivity|].
  cbn [Calculator.threshold_breaches Calculator.critical_breaches
       Calculator.threshold_margins].
  split; [apply length_map|].
  pose proof (np_min_lower thresholds lowest Hlow) as Hlowest.
  apply mapM_Forall2 in Hms. clear Hlow Ht Htne.
  split.
  - apply Forall_forall. intros b Hb. apply in_map_iff in Hb.
    destruct Hb as (th & <- & Hin).
    rewrite !below_is_mask, !mask_mean_is_fraction.
    destruct (fraction_bounds (fun v => if Qlt_le_dec v th then true else false)
                values Hvne) as [H0 H1].
    split; [exact H0|]. split; [exact H1|].
    apply fraction_mono; [exact Hvne|].
    intros x _ Hx. apply below_true in Hx. apply below_true.
    apply Qlt_le_trans with lowest; [exact Hx|apply Hlowest; exact Hin].
  - clear Hlowest. induction Hms as [|th m ths ms' Hm _ IH]; [constructor|].
    cbn [map]. constructor; [|exact IH].
    rewrite below_is_mask, mask_mean_is_fraction, fraction_pos.
    rewrite (margin_negative values th m Hm).
    split; intros (v & Hin & Hlt); exists v; (split; [exact Hin|]);
      apply below_true; exact Hlt.
Qed.

Lemma threshold_analysis_relations_witness :
  exists th,
    Calculator._analyze_thresholds [100; 98; 96] [99; 97; 95] = Ok th
    /\ List.length (Calculator.threshold_breaches th) = List.length [99; 97; 95]
    /\ Forall (fun b => 0 <= b /\ b <= 1 /\ Calculator.critical_breaches th <= b)
         (Calculator.threshold_breaches th)
    /\ Forall2 (fun b m => 0 < b <-> m < 0)
         (Calculator.threshold_breaches th) (Calculator.threshold_margins th).
Proof.
  apply (threshold_analysis_relations [100; 98; 96] [99; 97; 95]).
  - vm_compute. lia.
  - vm_compute. lia.
Defined.

(** X7.  [calculate_performance_statistics] returns no result for an
    empty list of metrics, whatever the health and prediction helpers do:
    the reduction to a peak has no value on an empty array. *)
Theorem performance_statistics_of_no_metrics_never_returns
        (health preds : Calculator.t -> list Calculator.SystemMetric -> result pyval)
        (self : Calculator.t) (now : datetime) (include_predictions : bool)
        (r : Calculator.performance_statistics) :
  Calculator.calculate_performance_statistics health preds self now []
    include_predictions <> Ok r.
Proof.
  unfold Calculator.calculate_performance_statistics. cbn [map].
  destruct (health self []); cbn [bind Np.max]; discriminate.
Qed.

(* ================================================================== *)
(** ** Further facts: models/metrics.py *)

(** Rounding to hundredths keeps a value between two whole numbers of
    hundredths between them. *)
Lemma py_round2_bounds (a b : Z) (x : Q) :
  inject_Z a <= x * 100 -> x * 100 <= inject_Z b ->
  a # 100 <= py_round2 x /\ py_round2 x <= b # 100.
Proof.
  intros Ha Hb. unfold py_round2.
  set (y := x * 100) in *.
  pose proof (Qfloor_le y) as Hlo.
  pose proof (Qlt_floor y) as Hhi.
  rewrite inject_Z_plus in Hhi. change (inject_Z 1) with 1 in Hhi.
  set (f := Qfloor y) in *. clearbody f. clearbody y.
  assert (Haf : (a <= f)%Z).
  { apply Z.lt_succ_r. rewrite Zlt_Qlt. unfold Z.succ. rewrite inject_Z_plus.
    change (inject_Z 1) with 1. Lqa.lra. }
  assert (Hfb : (f <= b)%Z).
  { rewrite Zle_Qle. Lqa.lra. }
  assert (Hup : 1 # 2 <= y - inject_Z f -> (f + 1 <= b)%Z).
  { intros Hd. apply Z.lt_succ_r. unfold Z.succ. apply Z.add_lt_mono_r.
    rewrite Zlt_Qlt. Lqa.lra. }
  assert (Hn : forall n : Z, (a <= n)%Z -> (n <= b)%Z ->
             a # 100 <= Qred (n # 100) /\ Qred (n # 100) <= b # 100).
  { intros n H1 H2. rewrite Qred_correct. unfold Qle. cbn [Qnum Qden]. lia. }
  destruct (Qlt_le_dec (y - inject_Z f) (1 # 2)) as [H1|H1].
  - apply Hn; lia.
  - destruct (Qlt_le_dec (1 # 2) (y - inject_Z f)) as [H2|H2].
    + apply Hn; [lia|apply Hup; exact H1].
    + destruct (Z.even f); apply Hn; try lia. apply Hup; exact H1.
Qed.

Lemma exact_rate_bounds total delivered :
  (0 < total)%Z -> (0 <= delivered <= total)%Z ->
  inject_Z 0 <= exact_rate total delivered * 100
  /\ exact_rate total delivered * 100 <= inject_Z 10000.
Proof.
  intros Ht [H0 H1]. unfold exact_rate.
  assert (Hq : 0 <= inject_Z delivered / inject_Z total
               /\ inject_Z delivered / inject_Z total <= 1).
  { assert (Hp : 0 < inject_Z total) by (change 0 with (inject_Z 0); rewrite <- Zlt_Qlt; lia).
    split.
    - apply Qle_shift_div_l; [exact Hp|]. rewrite Qmult_0_l.
      change 0 with (inject_Z 0). rewrite <- Zle_Qle. lia.
    - apply Qle_shift_div_r; [exact Hp|]. rewrite Qmult_1_l. rewrite <- Zle_Qle. lia. }
  set (q := inject_Z delivered / inject_Z total) in *. clearbody q.
  change (inject_Z 0) with 0. change (inject_Z 10000) with 10000.
  split; Lqa.lra.
Qed.

Lemma rounded_rate_bounds total delivered :
  (0 <= delivered <= total)%Z ->
  0 <= rounded_rate total delivered /\ rounded_rate total delivered <= 100.
Proof.
  intros H. unfold rounded_rate.
  destruct (Z.eqb_spec total 0) as [|Hne]; [split; Lqa.lra|].
  destruct (exact_rate_bounds total delivered) as [H0 H1]; [lia|exact H|].
  destruct (py_round2_bounds 0 10000 _ H0 H1) as [H2 H3].
  split.
  - eapply Qle_trans; [|exact H2]. unfold Qle. cbn. lia.
  - eapply Qle_trans; [exact H3|]. unfold Qle. cbn. lia.
Qed.

Lemma py_round2_just_below_99 x :
  98995 # 1000 < x -> x < 99 -> py_round2 x = 99.
Proof.
  intros Hlo Hhi. unfold py_round2.
  assert (Hf : Qfloor (x * 100) = 9899%Z).
  { apply Qfloor_unique; change (inject_Z 9899) with 9899; Lqa.lra. }
  rewrite Hf. change (inject_Z 9899) with 9899.
  destruct (Qlt_le_dec (x * 100 - 9899) (1 # 2)) as [H|H]; [exfalso; Lqa.lra|].
  destruct (Qlt_le_dec (1 # 2) (x * 100 - 9899)) as [H'|H']; [reflexivity|].
  exfalso. Lqa.lra.
Qed.

Lemma sla_errors_nil_iff total delivered :
  sla_errors total delivered = []
  <-> total = 0%Z \/ 99 <= exact_rate total delivered.
Proof.
  unfold sla_errors, exact_rate.
  destruct (Z.eqb_spec total 0) as [->|Hne].
  - split; [intros _; left; reflexivity|reflexivity].
  - destruct (Qlt_le_dec (inject_Z delivered / inject_Z total * 100) 99) as [H|H].
    + split; [discriminate|]. intros [E|E]; [congruence|].
      exfalso. apply (Qlt_not_le _ _ H E).
    + split; [intros _; right; exact H|reflexivity].
Qed.

Lemma count_errors_nil_iff total delivered failed :
  count_errors total delivered failed = []
  <-> (0 <= delivered)%Z /\ (0 <= failed)%Z /\ (delivered + failed <= total)%Z.
Proof.
  unfold count_errors.
  destruct (Z.ltb_spec total 0), (Z.ltb_spec delivered 0), (Z.ltb_spec failed 0),
    (Z.ltb_spec total (delivered + failed)); cbn [orb app];
    split; intros; try discriminate; try lia; try reflexivity.
Qed.

Lemma base_errors_nil_iff up now id org ts :
  base_errors up now id org ts = []
  <-> up id = true /\ org_id_match org = true /\ (ts <= now)%Z.
Proof.
  unfold base_errors.
  destruct (up id), (org_id_match org), (Z.ltb_spec now ts) as [Hlt|Hge]; cbn [app];
    split; intros Hx; try discriminate; try reflexivity;
    try (destruct Hx as (? & ? & ?); try discriminate; lia).
  repeat split. lia.
Qed.

(** X8.  A MessageMetric constructed from metadata whose rate history, if
    present, is a list: the construction returns, and the metric has no
    validation error exactly when its metric_id parses as a UUID, its
    organization_id matches the pattern, its timestamp is not in the
    future, delivered and failed are not negative, delivered + failed is at
    most total, and either total is 0 or the unrounded rate is at least
    99. *)
Theorem error_free_metric_characterisation
        (uuid_parses : string -> bool) (utcnow : nat -> datetime)
        (id org : string) (ts : datetime) (md : dict)
        (total delivered failed : Z) (b q ty : dict) :
  history_is_list md = true ->
  exists m,
    MessageMetric.new uuid_parses utcnow id org ts md total delivered failed b q ty
    = Ok m
    /\ (MessageMetric.validation_errors m = []
        <-> uuid_parses id = true /\ org_id_match org = true
            /\ (ts <= utcnow 0%nat)%Z
            /\ (0 <= delivered)%Z /\ (0 <= failed)%Z
            /\ (delivered + failed <= total)%Z
            /\ (total = 0%Z \/ 99 <= exact_rate total delivered)).
Proof.
  intros Hh.
  destruct (new_eq uuid_parses utcnow id org ts md total delivered failed b q ty Hh)
    as [md' ->].
  eexists. split; [reflexivity|].
  unfold MessageMetric.validation_errors.
  cbn [MessageMetric.base BaseMetric.validation_errors].
  split.
  - intros H. apply app_eq_nil in H. destruct H as [Hb H].
    apply app_eq_nil in H. destruct H as [Hs Hc].
    apply base_errors_nil_iff in Hb. apply sla_errors_nil_iff in Hs.
    apply count_errors_nil_iff in Hc. tauto.
  - intros (H1 & H2 & H3 & H4 & H5 & H6 & H7).
    rewrite (proj2 (base_errors_nil_iff uuid_parses (utcnow 0%nat) id org ts)) by tauto.
    rewrite (proj2 (sla_errors_nil_iff total delivered)) by tauto.
    rewrite (proj2 (count_errors_nil_iff total delivered failed)) by tauto.
    reflexivity.
Qed.

Lemma error_free_metric_characterisation_witness :
  exists m,
    MessageMetric.new uuid_canonical sample_clock sample_uuid "org-1" sample_start []
      1000 995 5 [] [] [] = Ok m
    /\ (MessageMetric.validation_errors m = []
        <-> uuid_canonical sample_uuid = true /\ org_id_match "org-1" = true
            /\ (sample_start <= sample_clock 0%nat)%Z
            /\ (0 <= 995)%Z /\ (0 <= 5)%Z
            /\ (995 + 5 <= 1000)%Z
            /\ ((1000 = 0)%Z \/ 99 <= exact_rate 1000 995)).
Proof.
  apply (error_free_metric_characterisation uuid_canonical sample_clock sample_uuid
           "org-1" sample_start [] 1000 995 5 [] [] []).
  reflexivity.
Defined.

(** X9.  With 0 <= delivered_messages <= total_messages,
    [calculate_delivery_rate] returns a rate between 0 and 100: rounding to
    two decimals does not leave the interval. *)
Theorem delivery_rate_between_0_and_100 (now : datetime) (self : MessageMetric.t) :
  history_is_list (BaseMetric.metadata (MessageMetric.base self)) = true ->
  (0 <= MessageMetric.delivered_messages self <= MessageMetric.total_messages self)%Z ->
  exists rate self',
    MessageMetric.calculate_delivery_rate now self = Ok (rate, self')
    /\ 0 <= rate /\ rate <= 100.
Proof.
  destruct self as [[id org ts md v e] total delivered failed b q ty r].
  cbn [MessageMetric.delivered_messages MessageMetric.total_messages
       MessageMetric.base BaseMetric.metadata].
  intros Hh H.
  destruct (calculate_delivery_rate_eq now id org ts md v e total delivered failed
              b q ty r Hh) as (md' & -> & _).
  eexists. eexists. split; [reflexivity|].
  apply rounded_rate_bounds. exact H.
Qed.

Lemma delivery_rate_between_0_and_100_witness :
  exists rate self',
    MessageMetric.calculate_delivery_rate (sample_clock 0%nat)
      (stored_metric true 3 1 0) = Ok (rate, self')
    /\ 0 <= rate /\ rate <= 100.
Proof.
  apply (delivery_rate_between_0_and_100 (sample_clock 0%nat) (stored_metric true 3 1 0)).
  - reflexivity.
  - vm_compute. split; discriminate.
Defined.

(** X10.  The SLA check of [calculate_delivery_rate] reads the unrounded
    rate and the stored rate is rounded: for a rate above 98.995 and below
    99 the metric receives the error "Delivery rate below SLA requirement
    of 99%" and the rate returned is 99, which the calculator's test
    (delivery_rates >= 99.0) counts as compliant. *)
Theorem sla_error_beside_stored_rate_of_99 (now : datetime) (self : MessageMetric.t) :
  let total := MessageMetric.total_messages self in
  let delivered := MessageMetric.delivered_messages self in
  history_is_list (BaseMetric.metadata (MessageMetric.base self)) = true ->
  (0 < total)%Z ->
  98995 # 1000 < exact_rate total delivered ->
  exact_rate total delivered < 99 ->
  exists rate self',
    MessageMetric.calculate_delivery_rate now self = Ok (rate, self')
    /\ rate = 99
    /\ MessageMetric.validation_errors self'
       = MessageMetric.validation_errors self
         ++ ["Delivery rate below SLA requirement of 99%"]
    /\ Calculator.at_least 99 [rate] = [true].
Proof.
  destruct self as [[id org ts md v e] total delivered failed b q ty r].
  cbn [MessageMetric.delivered_messages MessageMetric.total_messages
       MessageMetric.base BaseMetric.metadata]. cbv zeta.
  intros Hh Ht Hlo Hhi.
  destruct (calculate_delivery_rate_eq now id org ts md v e total delivered failed
              b q ty r Hh) as (md' & -> & _).
  unfold rounded_rate, sla_errors.
  destruct (Z.eqb_spec total 0) as [|_]; [lia|].
  rewrite (py_round2_just_below_99 _ Hlo Hhi).
  eexists. eexists. split; [reflexivity|]. split; [reflexivity|].
  unfold MessageMetric.validation_errors.
  cbn [MessageMetric.base BaseMetric.validation_errors].
  fold (exact_rate total delivered).
  destruct (Qlt_le_dec (exact_rate total delivered) 99) as [_|H].
  - split; reflexivity.
  - exfalso. apply (Qlt_not_le _ _ Hhi H).
Qed.

Lemma sla_error_beside_stored_rate_of_99_witness :
  exists rate self',
    MessageMetric.calculate_delivery_rate (sample_clock 0%nat)
      (stored_metric true 100000 98996 0) = Ok (rate, self')
    /\ rate = 99
    /\ MessageMetric.validation_errors self'
       = MessageMetric.validation_errors (stored_metric true 100000 98996 0)
         ++ ["Delivery rate below SLA requirement of 99%"]
    /\ Calculator.at_least 99 [rate] = [true].
Proof.
  apply (sla_error_beside_stored_rate_of_99 (sample_clock 0%nat)
           (stored_metric true 100000 98996 0)).
  - reflexivity.
  - reflexivity.
  - reflexivity.
  - reflexivity.
Defined.

(* ================================================================== *)
(** ** Further facts: models/reports.py and routes/reports.py *)

(** X11.  As written, no report is constructed: for every report object,
    clock and helper behaviour, [BaseReport.__post_init__] and
    [MessageDeliveryReport.__post_init__] raise the same exception, which is
    the ValueError of the first or of the second rule of the time range or
    the AttributeError of [datetime.timedelta]; it is the AttributeError
    exactly when the range has start before end and does not end in the
    future. *)
Theorem report_construction_never_returns
        (trends : MessageDeliveryReport.t -> result dict)
        (h1 h2 h3 h4 h5 h6 h7 h8 h9 : MessageDeliveryReport.t -> result pyval)
        (fuel : nat) (utcnow : nat -> datetime) (self : MessageDeliveryReport.t) :
  let b := MessageDeliveryReport.base self in
  exists e,
    BaseReport.__post_init__ BaseReport.reports_py_timedelta fuel utcnow b = Raise e
    /\ MessageDeliveryReport.__post_init__ BaseReport.reports_py_timedelta
         trends h1 h2 h3 h4 h5 h6 h7 h8 h9 fuel utcnow self = Raise e
    /\ (is_time_range_error e = true \/ e = attribute_error)
    /\ (e = attribute_error
        <-> (BaseReport.start_time b < BaseReport.end_time b)%Z
            /\ (BaseReport.end_time b <= utcnow 0%nat)%Z).
Proof.
  cbv zeta.
  destruct (validate_time_range_as_written_raises (utcnow 0%nat)
              (MessageDeliveryReport.base self)) as (e & He & Hkind).
  exists e. split.
  { unfold BaseReport.__post_init__. rewrite He. reflexivity. }
  split; [apply post_init_stops_at_validation; exact He|].
  split; [exact Hkind|].
  unfold BaseReport._validate_time_range in He.
  destruct (Z.leb_spec (BaseReport.end_time (MessageDeliveryReport.base self))
              (BaseReport.start_time (MessageDeliveryReport.base self))) as [H1|H1].
  - injection He as <-. split; [discriminate|lia].
  - destruct (Z.ltb_spec (utcnow 0%nat)
                (BaseReport.end_time (MessageDeliveryReport.base self))) as [H2|H2].
    + injection He as <-. split; [discriminate|lia].
    + cbn in He. injection He as <-. split; [intros _; lia|reflexivity].
Qed.

Lemma fold_add_acc (l : list Z) : forall a, fold_left Z.add l a = (a + fold_left Z.add l 0)%Z.
Proof.
  induction l as [|x l IH]; intros a; cbn [fold_left]; [lia|].
  rewrite (IH (a + x)%Z), (IH (0 + x)%Z). lia.
Qed.

Lemma sum_Z_cons x l :
  MessageDeliveryReport.sum_Z (x :: l) = (x + MessageDeliveryReport.sum_Z l)%Z.
Proof.
  unfold MessageDeliveryReport.sum_Z. cbn [fold_left]. rewrite fold_add_acc. lia.
Qed.

Lemma pooled_counts_bounds (metrics : list MessageMetric.t) :
  Forall (fun m => (0 <= MessageMetric.delivered_messages m
                    <= MessageMetric.total_messages m)%Z) metrics ->
  (0 <= MessageDeliveryReport.sum_Z (map MessageMetric.delivered_messages metrics)
   <= MessageDeliveryReport.sum_Z (map MessageMetric.total_messages metrics))%Z.
Proof.
  induction 1 as [|m l Hm _ IH]; [cbn; lia|].
  cbn [map]. rewrite !sum_Z_cons. lia.
Qed.

(** X12.  [_calculate_average_delivery_rate] returns on every report (its
    division is guarded).  It reads the pooled counts, delivered and total
    summed over all metrics of the report, valid or not: when the pooled
    total is positive the result is the pooled rate delivered / total * 100
    rounded to two decimals, a whole number of hundredths within 0.005 of
    that rate, and otherwise (a report without metrics included) it is 0.
    Where every metric has 0 <= delivered <= total it lies between 0 and
    100. *)
Theorem average_delivery_rate_is_pooled (self : MessageDeliveryReport.t) :
  let metrics := MessageDeliveryReport.metrics self in
  let total := MessageDeliveryReport.sum_Z (map MessageMetric.total_messages metrics) in
  let delivered :=
    MessageDeliveryReport.sum_Z (map MessageMetric.delivered_messages metrics) in
  exists average,
    MessageDeliveryReport._calculate_average_delivery_rate self = Ok average
    /\ (if (0 <? total)%Z
        then - (1 # 200) <= average - exact_rate total delivered
             /\ average - exact_rate total delivered <= 1 # 200
             /\ exists n : Z, average == n # 100
        else average = 0)
    /\ (Forall (fun m => (0 <= MessageMetric.delivered_messages m
                          <= MessageMetric.total_messages m)%Z) metrics ->
        0 <= average /\ average <= 100).
Proof.
  cbv zeta. unfold MessageDeliveryReport._calculate_average_delivery_rate.
  destruct (MessageDeliveryReport.metrics self) as [|m ms] eqn:E.
  - exists 0. repeat split; try reflexivity; Lqa.lra.
  - set (total := MessageDeliveryReport.sum_Z
                    (map MessageMetric.total_messages (m :: ms))).
    set (delivered := MessageDeliveryReport.sum_Z
                        (map MessageMetric.delivered_messages (m :: ms))).
    destruct (Z.ltb_spec 0 total) as [Hpos|Hle].
    + unfold py_truediv. destruct (Z.eqb_spec total 0) as [|_]; [lia|].
      cbn [bind]. eexists. split; [reflexivity|].
      fold (exact_rate total delivered). split.
      * pose proof (py_round2_close (exact_rate total delivered)) as [Hlo Hhi].
        split; [exact Hlo|]. split; [exact Hhi|]. apply py_round2_hundredths.
      * intros Hall. pose proof (pooled_counts_bounds _ Hall) as Hb.
        fold total delivered in Hb.
        pose proof (rounded_rate_bounds total delivered Hb) as Hr.
        unfold rounded_rate in Hr.
        destruct (Z.eqb_spec total 0) as [|_]; [lia|]. exact Hr.
    + exists 0. repeat split; try reflexivity; Lqa.lra.
Qed.





Lemma append_assoc (a b c : string) :
  ((a ++ b) ++ c)%string = (a ++ (b ++ c))%string.
Proof.
  induction a as [|x a IH]; [reflexivity|]. cbn [String.append]. rewrite IH. reflexivity.
Qed.

Lemma append_length (a b : string) :
  String.length (a ++ b) = (String.length a + String.length b)%nat.
Proof.
  induction a as [|x a IH]; [reflexivity|]. cbn [String.append String.length].
  rewrite IH. reflexivity.
Qed.

Lemma append_longer (a b : string) : b <> EmptyString -> (a ++ b)%string <> a.
Proof.
  intros Hb E. apply (f_equal String.length) in E. rewrite append_length in E.
  destruct b; [congruence|]. cbn [String.length] in E. lia.
Qed.

(** X14.  The cache key of a report request does not separate its fields:
    a request of organisation a:b for the report type c has the key of the
    request of organisation a for the report type b:c over the same time
    range, whatever the other fields are, although the organisations
    differ.  [ReportRequest] puts no constraint on either string. *)
Theorem report_cache_key_collides
        (isoformat : datetime -> string) (a b c : string)
        (r1 r2 : ReportRequest.t) :
  ReportRequest.organization_id r1 = (a ++ ":" ++ b)%string ->
  ReportRequest.report_type r1 = c ->
  ReportRequest.organization_id r2 = a ->
  ReportRequest.report_type r2 = (b ++ ":" ++ c)%string ->
  ReportRequest.start_time r1 = ReportRequest.start_time r2 ->
  ReportRequest.end_time r1 = ReportRequest.end_time r2 ->
  ReportRoutes.get_cache_key isoformat r1 = ReportRoutes.get_cache_key isoformat r2
  /\ ReportRequest.organization_id r1 <> ReportRequest.organization_id r2.
Proof.
  intros H1 H2 H3 H4 H5 H6. unfold ReportRoutes.get_cache_key.
  rewrite H1, H2, H3, H4, H5, H6. split.
  - f_equal. rewrite !append_assoc. reflexivity.
  - apply append_longer. discriminate.
Qed.

Lemma report_cache_key_collides_witness :
  let r1 := ReportRequest.mk "acme:emea" "delivery" sample_start
              (sample_start + td_days 1)%Z [] "daily" true [] in
  let r2 := ReportRequest.mk "acme" "emea:delivery" sample_start
              (sample_start + td_days 1)%Z [] "hourly" false [] in
  ReportRoutes.get_cache_key (fun _ => "t") r1
  = ReportRoutes.get_cache_key (fun _ => "t") r2
  /\ ReportRequest.organization_id r1 <> ReportRequest.organization_id r2.
Proof.
  apply (report_cache_key_collides (fun _ => "t") "acme" "emea" "delivery"
           (ReportRequest.mk "acme:emea" "delivery" sample_start
              (sample_start + td_days 1)%Z [] "daily" true [])
           (ReportRequest.mk "acme" "emea:delivery" sample_start
              (sample_start + td_days 1)%Z [] "hourly" false []));
    reflexivity.
Defined.

(* ================================================================== *)
(** ** Further facts: construction of the calculator and the aggregator *)

Lemma threshold_value_ok_iff value :
  MetricsCalculator.threshold_value_ok value = true <-> acceptable_threshold value.
Proof.
  unfold MetricsCalculator.threshold_value_ok, acceptable_threshold.
  destruct (as_number value) as [x|] eqn:E.
  - destruct (Qlt_le_dec x 0) as [H0|H0], (Qlt_le_dec 100 x) as [H1|H1]; cbn [orb negb];
      split; try discriminate; try (intros [A B]); try (intros _; split; assumption);
      try reflexivity; exfalso;
      try (apply (Qlt_not_le _ _ H0 A)); try (apply (Qlt_not_le _ _ H1 B)).
  - destruct value; try discriminate E; split; try discriminate; try reflexivity;
      try (intros [[l Hl]|[d Hd]]; discriminate);
      intros _; [left|right]; eexists; reflexivity.
Qed.

Lemma validate_thresholds_strict thresholds :
  MetricsCalculator.validate_thresholds thresholds true = true
  <-> exists d,
        thresholds = PDict d
        /\ (forall key, In key ["delivery"; "engagement"; "performance"] ->
            dict_mem key d = true)
        /\ Forall (fun kv => acceptable_threshold (snd kv)) d.
Proof.
  unfold MetricsCalculator.validate_thresholds. split.
  - destruct thresholds; try discriminate. cbn [andb].
    destruct (forallb (fun key => dict_mem key d) MetricsCalculator.required_keys) eqn:K;
      cbn [negb]; [|discriminate].
    intros H. exists d. split; [reflexivity|]. split.
    + intros key Hin. rewrite forallb_forall in K. apply K. exact Hin.
    + apply Forall_forall. intros kv Hkv. rewrite forallb_forall in H.
      apply threshold_value_ok_iff. apply H. exact Hkv.
  - intros (d & -> & Hk & Hv). cbn [andb].
    assert (K : forallb (fun key => dict_mem key d) MetricsCalculator.required_keys = true).
    { apply forallb_forall. exact Hk. }
    rewrite K. cbn [negb]. apply forallb_forall. intros kv Hkv.
    apply threshold_value_ok_iff. rewrite Forall_forall in Hv. apply Hv. exact Hkv.
Qed.

(** X15.  [MetricsCalculator.__init__] either is given a config whose
    entry 'thresholds' is a dict that holds the keys delivery, engagement
    and performance and whose values are numbers within [0, 100], lists or
    dicts, or raises ValueError("Invalid threshold configuration"),
    whatever the historical data and the other entries are.  A config
    without the entry is among the rejected ones. *)
Theorem calculator_needs_threshold_sections
        (np_array : pyval -> result (list Q))
        (columns : pyval -> result (list string))
        (sort_values : string -> pyval -> result pyval)
        (config : dict) (historical_data : pyval) :
  (exists d,
      dict_get "thresholds" config = Some (PDict d)
      /\ (forall key, In key ["delivery"; "engagement"; "performance"] ->
          dict_mem key d = true)
      /\ Forall (fun kv => acceptable_threshold (snd kv)) d)
  \/ MetricsCalculator.__init__ np_array columns sort_values config historical_data
     = Raise (ValueError "Invalid threshold configuration").
Proof.
  unfold MetricsCalculator.__init__.
  destruct (MetricsCalculator.validate_thresholds
              (dict_get_default "thresholds" (PDict []) config) true) eqn:E.
  - left. apply validate_thresholds_strict in E.
    destruct E as (d & Hd & Hk & Hv). exists d. split; [|split; assumption].
    unfold dict_get_default in Hd.
    destruct (dict_get "thresholds" config) as [v|] eqn:G.
    + rewrite Hd. reflexivity.
    + exfalso. injection Hd as <-.
      specialize (Hk "delivery" (or_introl eq_refl)). discriminate Hk.
  - right. reflexivity.
Qed.

Lemma calculator_init_rejects np_array columns sort_values config historical_data :
  MetricsCalculator.validate_thresholds
    (dict_get_default "thresholds" (PDict []) config) true = false ->
  MetricsCalculator.__init__ np_array columns sort_values config historical_data
  = Raise (ValueError "Invalid threshold configuration").
Proof.
  intros H. unfold MetricsCalculator.__init__. rewrite H. reflexivity.
Qed.

(** X16.  The factory [create_metrics_calculator] and the configuration
    that [get_delivery_report] passes both give the calculator thresholds
    without the keys delivery, engagement and performance: the
    construction raises ValueError("Invalid threshold configuration") for
    every historical data.  The thresholds of the factory also hold
    concurrent_users = 1000, above the 100 that the non-strict validation
    allows. *)
Theorem configured_calculators_are_rejected
        (np_array : pyval -> result (list Q))
        (columns : pyval -> result (list string))
        (sort_values : string -> pyval -> result pyval)
        (DataFrame : list string -> pyval) (historical_data : pyval) :
  Services.create_metrics_calculator np_array columns sort_values DataFrame
    historical_data
  = Raise (ValueError "Invalid threshold configuration")
  /\ MetricsCalculator.__init__ np_array columns sort_values
       ReportRoutes.calculator_config historical_data
     = Raise (ValueError "Invalid threshold configuration")
  /\ MetricsCalculator.validate_thresholds (PDict Services.PERFORMANCE_THRESHOLDS) false
     = false
  /\ MetricsCalculator.validate_thresholds (PDict ReportRoutes.SLA_THRESHOLDS) false
     = false.
Proof.
  split.
  { unfold Services.create_metrics_calculator.
    apply calculator_init_rejects. reflexivity. }
  split; [apply calculator_init_rejects; reflexivity|].
  split; vm_compute; reflexivity.
Qed.

(** X17.  [MetricsAggregator.__init__] returns on no arguments.  When the
    construction of its calculator raises, it raises the same exception;
    when the calculator is constructed, [_validate_config] reads
    [self._performance_thresholds] before [__init__] has assigned it and
    raises AttributeError, so [validate_aggregation_config] is not reached
    and no aggregator exists. *)
Theorem aggregator_construction_never_returns
        (np_array : pyval -> result (list Q))
        (columns : pyval -> result (list string))
        (sort_values : string -> pyval -> result pyval)
        (DataFrame : list string -> pyval)
        (aggregation_config performance_thresholds : dict) :
  let calculator :=
    MetricsCalculator.__init__ np_array columns sort_values performance_thresholds
      (DataFrame ["timestamp"; "metric_type"; "value"]) in
  let construction :=
    MetricsAggregator.__init__ np_array columns sort_values DataFrame
      aggregation_config performance_thresholds in
  (forall aggregator, construction <> Ok aggregator)
  /\ (forall e, calculator = Raise e -> construction = Raise e)
  /\ (forall c, calculator = Ok c ->
      construction
      = Raise (AttributeError
          "'MetricsAggregator' object has no attribute '_performance_thresholds'")).
Proof.
  cbv zeta. unfold MetricsAggregator.__init__.
  destruct (MetricsCalculator.__init__ np_array columns sort_values
              performance_thresholds (DataFrame ["timestamp"; "metric_type"; "value"]))
    as [c|e|]; cbn [bind].
  - split; [intros aggregator H; discriminate H|].
    split; [intros e H; discriminate H|]. intros c' _. reflexivity.
  - split; [intros aggregator H; discriminate H|].
    split; [intros e' H; injection H as ->; reflexivity|]. intros c H. discriminate H.
  - split; [intros aggregator H; discriminate H|].
    split; [intros e H; discriminate H|]. intros c H. discriminate H.
Qed.

(** X18.  The factory [create_metrics_aggregator] raises
    ValueError("Invalid threshold configuration") for every custom
    configuration: it passes PERFORMANCE_THRESHOLDS, which has no entry
    'thresholds', as the config of the calculator. *)
Theorem aggregator_factory_always_raises
        (np_array : pyval -> result (list Q))
        (columns : pyval -> result (list string))
        (sort_values : string -> pyval -> result pyval)
        (DataFrame : list string -> pyval) (custom_config : option dict) :
  Services.create_metrics_aggregator np_array columns sort_values DataFrame
    custom_config
  = Raise (ValueError "Invalid threshold configuration").
Proof.
  unfold Services.create_metrics_aggregator, MetricsAggregator.__init__.
  rewrite (calculator_init_rejects np_array columns sort_values
             Services.PERFORMANCE_THRESHOLDS
             (DataFrame ["timestamp"; "metric_type"; "value"]) eq_refl).
  reflexivity.
Qed.

(** X19.  The default configuration does not pass its own validation:
    for every custom configuration that leaves the entries time_periods
    and sla_thresholds of DEFAULT_CONFIG in place,
    [validate_aggregation_config] returns False on the merged
    configuration, since the default sla_thresholds hold concurrent_users
    = 1000 and every SLA threshold must lie within [0, 100]. *)
Theorem default_aggregation_config_is_invalid
        (custom_config performance_requirements : dict) :
  dict_get "time_periods" custom_config = None ->
  dict_get "sla_thresholds" custom_config = None ->
  MetricsAggregator.validate_aggregation_config
    (Services.merged_config (Some custom_config)) performance_requirements
  = Ok false.
Proof.
  intros Hp Hs.
  assert (Hm : Services.merged_config (Some custom_config)
               = dict_update Services.DEFAULT_CONFIG custom_config).
  { destruct custom_config; reflexivity. }
  rewrite Hm. unfold MetricsAggregator.validate_aggregation_config.
  assert (Hk : forallb (fun key => dict_mem key
                          (dict_update Services.DEFAULT_CONFIG custom_config))
                 MetricsAggregator.required_keys = true).
  { apply forallb_forall. intros key Hin. apply dict_mem_update.
    destruct Hin as [<-|[<-|[<-|[]]]]; reflexivity. }
  rewrite Hk. cbn [negb].
  unfold dict_get_default.
  rewrite (dict_get_update_other "time_periods" custom_config _ Hp).
  rewrite (dict_get_update_other "sla_thresholds" custom_config _ Hs).
  reflexivity.
Qed.

Lemma default_aggregation_config_is_invalid_witness :
  MetricsAggregator.validate_aggregation_config
    (Services.merged_config
       (Some [("optimization_settings", PDict [("memory_efficient", PBool false)])]))
    Services.PERFORMANCE_THRESHOLDS
  = Ok false.
Proof.
  apply (default_aggregation_config_is_invalid
           [("optimization_settings", PDict [("memory_efficient", PBool false)])]
           Services.PERFORMANCE_THRESHOLDS); reflexivity.
Defined.

(** X20.  The aggregation configuration that [get_delivery_report] builds
    does not pass [validate_aggregation_config] for any request: its
    sla_thresholds are SLA_THRESHOLDS, which hold concurrent_users = 1000. *)
Theorem route_aggregation_config_is_invalid
        (request : ReportRequest.t) (performance_requirements : dict) :
  MetricsAggregator.validate_aggregation_config
    (ReportRoutes.aggregation_config request) performance_requirements
  = Ok false.
Proof.
  unfold MetricsAggregator.validate_aggregation_config, ReportRoutes.aggregation_config.
  cbn [forallb MetricsAggregator.required_keys dict_mem dict_get String.eqb
       Ascii.eqb Bool.eqb andb negb dict_get_default].
  cbn [MetricsAggregator.time_periods_valid py_all MetricsAggregator.in_valid_periods bind].
  destruct (existsb (String.eqb (ReportRequest.time_period request))
              MetricsAggregator.valid_periods); reflexivity.
Qed.

(* ================================================================== *)
(** ** Further facts: the health check of routes/metrics.py *)

Lemma checks_set_healthy k checks :
  Forall (fun check => snd check = "healthy") checks ->
  Forall (fun check => snd check = "healthy")
    (RouteSystemMetric.checks_set k "healthy" checks).
Proof.
  induction checks as [|[k' v'] checks IH]; intros H; cbn [RouteSystemMetric.checks_set].
  - constructor; [reflexivity|constructor].
  - inversion H as [|? ? H1 H2]; subst.
    destruct (String.eqb k k').
    + constructor; [reflexivity|exact H2].
    + constructor; [exact H1|exact (IH H2)].
Qed.

(** Resources within their limit leave the score as it is and are all
    recorded as healthy. *)
Lemma resources_within_limits usage :
  Forall (fun entry => snd entry <= 80) usage ->
  forall state,
    fst (fold_left RouteSystemMetric.check_resource usage state) = fst state
    /\ (Forall (fun check => snd check = "healthy") (snd state) ->
        Forall (fun check => snd check = "healthy")
          (snd (fold_left RouteSystemMetric.check_resource usage state))).
Proof.
  induction 1 as [|entry usage Hentry _ IH]; intros state; cbn [fold_left].
  - split; [reflexivity|auto].
  - destruct (IH (RouteSystemMetric.check_resource state entry)) as [Hs Hc].
    assert (E : RouteSystemMetric.check_resource state entry
                = (fst state,
                   RouteSystemMetric.checks_set ("resource_" ++ fst entry) "healthy"
                     (snd state))).
    { unfold RouteSystemMetric.check_resource. cbv zeta.
      destruct (Qlt_le_dec 80 (snd entry)) as [H|_]; [|reflexivity].
      exfalso. apply (Qlt_not_le _ _ H Hentry). }
    rewrite E in Hs, Hc. rewrite E. cbn [fst snd] in Hs, Hc.
    split; [exact Hs|].
    intros H. apply Hc. apply checks_set_healthy. exact H.
Qed.

(** With nothing over its limit the score stays at the 100 it starts from
    and every check is recorded as healthy. *)
Lemma scored_within_limits self :
  RouteSystemMetric.response_time self <= 2 ->
  (RouteSystemMetric.concurrent_users self <= 1000)%Z ->
  Forall (fun entry => snd entry <= 80) (RouteSystemMetric.resource_usage self) ->
  fst (RouteSystemMetric.scored self) = 100
  /\ Forall (fun check => snd check = "healthy") (snd (RouteSystemMetric.scored self)).
Proof.
  intros Hr Hu Hall. unfold RouteSystemMetric.scored. cbv zeta.
  destruct (Qlt_le_dec 2 (RouteSystemMetric.response_time self)) as [H|_];
    [exfalso; apply (Qlt_not_le _ _ H Hr)|].
  destruct (Z.ltb_spec 1000 (RouteSystemMetric.concurrent_users self)) as [H|_];
    [lia|].
  cbn [fst snd].
  match goal with
  | |- context [fold_left _ _ ?st] =>
      destruct (resources_within_limits _ Hall st) as [Hs Hc]
  end.
  split; [exact Hs|]. apply Hc. cbn [snd].
  constructor; [reflexivity|]. constructor; [reflexivity|constructor].
Qed.

Lemma clamp_spec x :
  0 <= Qmax 0 (Qmin 100 x) /\ Qmax 0 (Qmin 100 x) <= 100
  /\ (80 <= x <-> 80 <= Qmax 0 (Qmin 100 x)).
Proof.
  destruct (Q.min_spec 100 x) as [[H1 E1]|[H1 E1]];
    destruct (Q.max_spec 0 (Qmin 100 x)) as [[H2 E2]|[H2 E2]];
    rewrite E2; rewrite ?E1 in *;
    repeat split; intros; try Lqa.lra.
Qed.

(** X21.  [check_health] reports a health score between 0 and 100, and
    its overall status, computed from the score before the clamp, agrees
    with the reported score: it is 'healthy' exactly when the reported
    score is at least 80, and 'warning' otherwise. *)
Theorem health_status_agrees_with_reported_score
        (now : datetime) (self : RouteSystemMetric.t) :
  let report := RouteSystemMetric.check_health now self in
  0 <= RouteSystemMetric.health_score report
  /\ RouteSystemMetric.health_score report <= 100
  /\ (RouteSystemMetric.overall_status report = "healthy"
      <-> 80 <= RouteSystemMetric.health_score report)
  /\ (RouteSystemMetric.overall_status report = "warning"
      <-> RouteSystemMetric.health_score report < 80).
Proof.
  cbv zeta. unfold RouteSystemMetric.check_health. cbv zeta.
  cbn [RouteSystemMetric.health_score RouteSystemMetric.overall_status].
  set (x := fst (RouteSystemMetric.scored self)).
  destruct (clamp_spec x) as (H0 & H1 & H80).
  split; [exact H0|]. split; [exact H1|].
  destruct (Qle_bool 80 x) eqn:E.
  - apply Qle_bool_iff in E. apply H80 in E. split.
    + split; [intros _; exact E|reflexivity].
    + split; [discriminate|]. intros H. exfalso. apply (Qlt_not_le _ _ H E).
  - assert (Hlt : ~ 80 <= Qmax 0 (Qmin 100 x)).
    { intros H. apply H80 in H. apply Qle_bool_iff in H. congruence. }
    split.
    + split; [discriminate|]. intros H. contradiction.
    + split; [intros _; apply Qnot_le_lt; exact Hlt|reflexivity].
Qed.

(** X22.  Where nothing is over its limit (the response time is at most 2
    seconds, there are at most 1000 concurrent users, and every resource
    usage is at most 80), [check_health] subtracts nothing: it reports the
    full score of 100, the overall status 'healthy', and 'healthy' for
    every check. *)
Theorem health_score_is_full_within_limits
        (now : datetime) (self : RouteSystemMetric.t) :
  RouteSystemMetric.response_time self <= 2 ->
  (RouteSystemMetric.concurrent_users self <= 1000)%Z ->
  Forall (fun entry => snd entry <= 80) (RouteSystemMetric.resource_usage self) ->
  let report := RouteSystemMetric.check_health now self in
  RouteSystemMetric.health_score report == 100
  /\ RouteSystemMetric.overall_status report = "healthy"
  /\ Forall (fun check => snd check = "healthy") (RouteSystemMetric.checks report).
Proof.
  intros Hr Hu Hall. cbv zeta. unfold RouteSystemMetric.check_health. cbv zeta.
  cbn [RouteSystemMetric.health_score RouteSystemMetric.overall_status
       RouteSystemMetric.checks].
  destruct (scored_within_limits self Hr Hu Hall) as [Hs Hc].
  rewrite Hs. split; [reflexivity|]. split; [reflexivity|exact Hc].
Qed.

Lemma health_score_is_full_within_limits_witness :
  let report := RouteSystemMetric.check_health 0%Z sample_route_metric in
  RouteSystemMetric.health_score report == 100
  /\ RouteSystemMetric.overall_status report = "healthy"
  /\ Forall (fun check => snd check = "healthy") (RouteSystemMetric.checks report).
Proof.
  apply (health_score_is_full_within_limits 0%Z sample_route_metric).
  - vm_compute. discriminate.
  - vm_compute. discriminate.
  - repeat constructor; vm_compute; discriminate.
Defined.

(* ================================================================== *)
(** ** Further facts: routes/dashboard.py *)

Lemma dashboard_get_cases v key :
  (exists o, Dashboard.get v key = Ok o) \/ (exists e, Dashboard.get v key = Raise e).
Proof.
  unfold Dashboard.get, no_attribute.
  destruct v; try (right; eexists; reflexivity). left. eexists. reflexivity.
Qed.

Lemma dashboard_at_most_cases v bound :
  (exists b, Dashboard.at_most v bound = Ok b)
  \/ (exists e, Dashboard.at_most v bound = Raise e).
Proof.
  unfold Dashboard.at_most.
  destruct (as_number v); [left|right]; eexists; reflexivity.
Qed.

(** X23.  [validate_sla_compliance] reads the delivery rate at the top
    level of delivery_metrics, with the default 0: for a response whose
    delivery_metrics have no top-level key average_delivery_rate the first
    check fails, and the method returns False or raises, whatever the rate
    stored deeper in the dict (the calculator stores it under
    current_statistics) and whatever the system metrics are. *)
Theorem dashboard_sla_needs_top_level_rate (self : Dashboard.DashboardMetricsResponse) :
  dict_get "average_delivery_rate" (Dashboard.delivery_metrics self) = None ->
  Dashboard.validate_sla_compliance self = Ok false
  \/ exists e, Dashboard.validate_sla_compliance self = Raise e.
Proof.
  intros Hkey. unfold Dashboard.validate_sla_compliance.
  assert (Hrate : Dashboard.at_least
                    (dict_get_default "average_delivery_rate" (PInt 0)
                       (Dashboard.delivery_metrics self)) 99 = Ok false).
  { unfold dict_get_default. rewrite Hkey. reflexivity. }
  rewrite Hrate. cbn [bind].
  destruct (dashboard_get_cases
              (dict_get_default "response_time_analysis" (PDict [])
                 (Dashboard.system_metrics self)) "p95") as [[p95 ->]|[e ->]];
    cbn [bind]; [|right; eexists; reflexivity].
  assert (Hr : (exists b, match p95 with
                          | Some v => Dashboard.at_most v 2
                          | None => Ok false
                          end = Ok b)
               \/ (exists e, match p95 with
                             | Some v => Dashboard.at_most v 2
                             | None => Ok false
                             end = Raise e)).
  { destruct p95 as [v|]; [apply dashboard_at_most_cases|left; eexists; reflexivity]. }
  destruct Hr as [[response_ok ->]|[e ->]]; cbn [bind]; [|right; eexists; reflexivity].
  destruct (dashboard_get_cases
              (dict_get_default "resource_utilization" (PDict [])
                 (Dashboard.system_metrics self)) "cpu") as [[cpu ->]|[e ->]];
    cbn [bind]; [|right; eexists; reflexivity].
  destruct (dashboard_get_cases (match cpu with Some v => v | None => PDict [] end)
              "peak") as [[peak ->]|[e ->]];
    cbn [bind]; [|right; eexists; reflexivity].
  destruct (dashboard_at_most_cases (match peak with Some v => v | None => PInt 100 end)
              80) as [[cpu_ok ->]|[e ->]];
    cbn [bind]; [|right; eexists; reflexivity].
  left. reflexivity.
Qed.

Lemma dashboard_sla_needs_top_level_rate_witness :
  Dashboard.validate_sla_compliance sample_dashboard_response = Ok false
  \/ exists e, Dashboard.validate_sla_compliance sample_dashboard_response = Raise e.
Proof.
  apply (dashboard_sla_needs_top_level_rate sample_dashboard_response).
  reflexivity.
Defined.

Lemma org_id_char_not_colon c : org_id_char c = true -> c <> ":"%char.
Proof. intros H E. subst c. discriminate H. Qed.

Lemma org_id_match_no_colon s : forall count,
  org_id_match_from count s = true -> contains_char ":" s = false.
Proof.
  induction s as [|c s IH]; intros count H; [reflexivity|].
  cbn [org_id_match_from] in H. cbn [contains_char].
  destruct (org_id_char c) eqn:E.
  - destruct (Ascii.eqb_spec ":"%char c) as [<-|_]; [discriminate E|].
    apply (IH _ H).
  - apply andb_true_iff in H. destruct H as [H _].
    apply andb_true_iff in H. destruct H as [Hn He].
    destruct s; [|discriminate He].
    destruct (Ascii.eqb_spec ":"%char c) as [<-|_]; [discriminate Hn|reflexivity].
Qed.

Lemma split_at_colon a : forall b p q,
  contains_char ":" a = false -> contains_char ":" b = false ->
  (a ++ ":" ++ p)%string = (b ++ ":" ++ q)%string -> a = b /\ p = q.
Proof.
  induction a as [|x a IH]; intros b p q Ha Hb E.
  - destruct b as [|y b].
    + cbn in E. injection E as ->. split; reflexivity.
    + cbn in E. injection E as <- _. cbn in Hb. discriminate Hb.
  - destruct b as [|y b].
    + cbn in E. injection E as -> _. cbn in Ha. discriminate Ha.
    + cbn [String.append] in E. injection E as -> E.
      cbn [contains_char] in Ha, Hb.
      destruct (Ascii.eqb ":" y); [discriminate Ha|].
      destruct (IH b p q Ha Hb E) as [-> ->]. split; reflexivity.
Qed.

(** X24.  The cache keys of the dashboard separate organisations: for
    organisation ids that match the pattern the endpoint demands
    (^[a-zA-Z0-9-]{4,}$), two keys are equal only when the organisation
    ids are equal and the time periods are equal. *)
Theorem dashboard_cache_key_injective (org1 org2 period1 period2 : string) :
  org_id_match org1 = true -> org_id_match org2 = true ->
  Dashboard.get_cache_key org1 period1 = Dashboard.get_cache_key org2 period2 ->
  org1 = org2 /\ period1 = period2.
Proof.
  intros H1 H2 E. unfold Dashboard.get_cache_key in E.
  cbn [String.append] in E.
  repeat match type of E with
         | String _ _ = String _ _ => injection E as E
         end.
  apply (split_at_colon org1 org2 period1 period2);
    [apply (org_id_match_no_colon _ 0%nat H1)
    |apply (org_id_match_no_colon _ 0%nat H2)
    |exact E].
Qed.

Lemma dashboard_cache_key_injective_witness :
  "org-1" = "org-1" /\ "day" = "day".
Proof.
  apply (dashboard_cache_key_injective "org-1" "org-1" "day" "day"); reflexivity.
Defined.

(* ================================================================== *)
(** ** Further facts: SystemMetric of models/metrics.py *)

Lemma greater_cases x threshold over :
  SystemMetric.greater x threshold = Ok over ->
  exists y, as_number threshold = Some y /\ (over = true <-> y < x).
Proof.
  unfold SystemMetric.greater. destruct (as_number threshold) as [y|]; [|discriminate].
  intros H. apply Ok_inj in H. subst over. exists y. split; [reflexivity|].
  destruct (Qlt_le_dec y x) as [L|L]; split; intros H; try discriminate;
    try reflexivity; try exact L. exfalso. apply (Qlt_not_le _ _ H L).
Qed.

Lemma less_cases left x threshold under :
  SystemMetric.less left x threshold = Ok under ->
  exists y, as_number threshold = Some y /\ (under = true <-> x < y).
Proof.
  unfold SystemMetric.less. destruct (as_number threshold) as [y|]; [|discriminate].
  intros H. apply Ok_inj in H. subst under. exists y. split; [reflexivity|].
  destruct (Qlt_le_dec x y) as [L|L]; split; intros H; try discriminate;
    try reflexivity; try exact L. exfalso. apply (Qlt_not_le _ _ H L).
Qed.

(** [validate_thresholds] appends, in order, the errors of the limits
    that are exceeded, and changes nothing else. *)
Lemma validate_thresholds_eq self self' :
  SystemMetric.validate_thresholds self = Ok self' ->
  exists over_response over_cpu over_memory,
    SystemMetric.greater (Calculator.response_time self)
      (dict_get_default "max_response_time" (PFloat 2)
         (Calculator.resource_thresholds self)) = Ok over_response
    /\ SystemMetric.greater (Calculator.cpu_usage self)
         (dict_get_default "max_cpu_usage" (PFloat 80)
            (Calculator.resource_thresholds self)) = Ok over_cpu
    /\ SystemMetric.greater (Calculator.memory_usage self)
         (dict_get_default "max_memory_usage" (PFloat 80)
            (Calculator.resource_thresholds self)) = Ok over_memory
    /\ SystemMetric.validation_errors self'
       = SystemMetric.validation_errors self
         ++ (if over_response then ["Response time exceeds threshold"] else [])
         ++ (if over_cpu then ["CPU usage exceeds threshold"] else [])
         ++ (if over_memory then ["Memory usage exceeds threshold"] else [])
    /\ SystemMetric.is_valid self' = SystemMetric.is_valid self.
Proof.
  destruct self as [[id org ts md v e] rt cpu mem users errs thr hist].
  unfold SystemMetric.validate_thresholds.
  cbn [Calculator.response_time Calculator.cpu_usage Calculator.memory_usage
       Calculator.resource_thresholds].
  destruct (SystemMetric.greater rt _) as [o1| |]; cbn [bind]; try discriminate.
  assert (Hthr : forall b : bool,
             Calculator.resource_thresholds
               (if b then SystemMetric.append_error "Response time exceeds threshold"
                            (Calculator.mk_SystemMetric (BaseMetric.mk id org ts md v e)
                               rt cpu mem users errs thr hist)
                else Calculator.mk_SystemMetric (BaseMetric.mk id org ts md v e)
                       rt cpu mem users errs thr hist) = thr)
    by (intros []; reflexivity).
  destruct o1; cbn [SystemMetric.append_error SystemMetric.set_base
                    Calculator.sm_base Calculator.response_time Calculator.cpu_usage
                    Calculator.memory_usage Calculator.concurrent_users
                    Calculator.error_counts Calculator.resource_thresholds
                    Calculator.performance_history];
    (destruct (SystemMetric.greater cpu _) as [o2| |]; cbn [bind]; try discriminate);
    (destruct o2; cbn [SystemMetric.append_error SystemMetric.set_base
                    Calculator.sm_base Calculator.response_time Calculator.cpu_usage
                    Calculator.memory_usage Calculator.concurrent_users
                    Calculator.error_counts Calculator.resource_thresholds
                    Calculator.performance_history];
     (destruct (SystemMetric.greater mem _) as [o3| |]; cbn [bind]; try discriminate);
     intros H; apply Ok_inj in H; subst self';
     eexists; eexists; eexists;
     (split; [reflexivity|]); (split; [reflexivity|]); (split; [reflexivity|]);
     destruct o3; split; try reflexivity;
     unfold SystemMetric.validation_errors, SystemMetric.append_error,
       SystemMetric.set_base, BaseMetric.append_error,
       BaseMetric.set_validation_errors;
     cbn [Calculator.sm_base BaseMetric.validation_errors BaseMetric.metric_id
          BaseMetric.organization_id BaseMetric.timestamp BaseMetric.metadata
          BaseMetric.is_valid app];
     rewrite <- ?app_assoc, ?app_nil_r; reflexivity).
Qed.

(** X25.  A healthy SystemMetric receives no CPU and no memory error:
    when [is_healthy] returns True and [validate_thresholds] returns, the
    errors that [validate_thresholds] appends are at most "Response time
    exceeds threshold", and none at all when resource_thresholds has no
    entry max_response_time.  ([is_healthy] compares the response time with
    the fixed limit 2.0 and not with the configured one.) *)
Theorem healthy_metric_has_no_resource_error (self self' : SystemMetric.t) :
  SystemMetric.is_healthy self = Ok true ->
  SystemMetric.validate_thresholds self = Ok self' ->
  exists response_errors,
    SystemMetric.validation_errors self'
    = SystemMetric.validation_errors self ++ response_errors
    /\ (response_errors = []
        \/ response_errors = ["Response time exceeds threshold"])
    /\ (dict_get "max_response_time" (Calculator.resource_thresholds self) = None ->
        response_errors = []).
Proof.
  intros Hh Hv.
  destruct (validate_thresholds_eq self self' Hv)
    as (o1 & o2 & o3 & H1 & H2 & H3 & Herr & _).
  unfold SystemMetric.is_healthy in Hh. cbv zeta in Hh.
  destruct (SystemMetric.less "float" (Calculator.cpu_usage self) _)
    as [cpu_ok| |] eqn:Ec; cbn [bind] in Hh; try discriminate Hh.
  destruct (SystemMetric.less "float" (Calculator.memory_usage self) _)
    as [memory_ok| |] eqn:Em; cbn [bind] in Hh; try discriminate Hh.
  destruct (SystemMetric.py_sum _ _) as [errors| |]; cbn [bind] in Hh;
    try discriminate Hh.
  destruct (match as_number errors with Some _ => _ | None => _ end)
    as [errors_ok| |]; cbn [bind] in Hh; try discriminate Hh.
  apply Ok_inj in Hh.
  apply andb_true_iff in Hh. destruct Hh as [Hh _].
  apply andb_true_iff in Hh. destruct Hh as [Hh Hmem].
  apply andb_true_iff in Hh. destruct Hh as [Hh Hcpu].
  apply andb_true_iff in Hh. destruct Hh as [Hrt _].
  subst cpu_ok memory_ok.
  destruct (less_cases _ _ _ _ Ec) as (yc & Nc & Lc).
  destruct (less_cases _ _ _ _ Em) as (ym & Nm & Lm).
  destruct (greater_cases _ _ _ H2) as (yc' & Nc' & Gc).
  destruct (greater_cases _ _ _ H3) as (ym' & Nm' & Gm).
  rewrite Nc in Nc'. injection Nc' as <-. rewrite Nm in Nm'. injection Nm' as <-.
  assert (O2 : o2 = false).
  { destruct o2; [|reflexivity]. exfalso.
    pose proof (proj1 Lc eq_refl). pose proof (proj1 Gc eq_refl). Lqa.lra. }
  assert (O3 : o3 = false).
  { destruct o3; [|reflexivity]. exfalso.
    pose proof (proj1 Lm eq_refl). pose proof (proj1 Gm eq_refl). Lqa.lra. }
  subst o2 o3. rewrite !app_nil_r in Herr.
  exists (if o1 then ["Response time exceeds threshold"] else []).
  split; [exact Herr|]. split; [destruct o1; [right|left]; reflexivity|].
  intros Hnone. unfold dict_get_default in H1. rewrite Hnone in H1.
  destruct (greater_cases _ _ _ H1) as (y & Ny & Gy). injection Ny as <-.
  destruct o1; [|reflexivity]. exfalso.
  pose proof (proj1 Gy eq_refl) as Hgt.
  destruct (Qlt_le_dec (Calculator.response_time self) 2) as [L|L]; [|discriminate Hrt].
  Lqa.lra.
Qed.

Lemma healthy_metric_has_no_resource_error_witness :
  exists response_errors,
    SystemMetric.validation_errors (sample_system_metric (15 # 10))
    = SystemMetric.validation_errors (sample_system_metric (15 # 10))
      ++ response_errors
    /\ (response_errors = []
        \/ response_errors = ["Response time exceeds threshold"])
    /\ (dict_get "max_response_time"
          (Calculator.resource_thresholds (sample_system_metric (15 # 10))) = None ->
        response_errors = []).
Proof.
  apply (healthy_metric_has_no_resource_error (sample_system_metric (15 # 10))
           (sample_system_metric (15 # 10))); reflexivity.
Defined.

(** X26.  A SystemMetric over its limits is still valid: when
    [SystemMetric.__post_init__] returns, is_valid is the conjunction of the
    three base-field checks alone, and validation_errors are the base
    errors followed by the threshold errors of the limits that are
    exceeded. *)
Theorem system_metric_limits_do_not_touch_is_valid
        (uuid_parses : string -> bool) (utcnow : nat -> datetime)
        (self self' : SystemMetric.t) :
  SystemMetric.__post_init__ uuid_parses utcnow self = Ok self' ->
  let b := Calculator.sm_base self in
  let thresholds := Calculator.resource_thresholds self in
  exists over_response over_cpu over_memory,
    SystemMetric.greater (Calculator.response_time self)
      (dict_get_default "max_response_time" (PFloat 2) thresholds) = Ok over_response
    /\ SystemMetric.greater (Calculator.cpu_usage self)
         (dict_get_default "max_cpu_usage" (PFloat 80) thresholds) = Ok over_cpu
    /\ SystemMetric.greater (Calculator.memory_usage self)
         (dict_get_default "max_memory_usage" (PFloat 80) thresholds) = Ok over_memory
    /\ SystemMetric.is_valid self'
       = uuid_parses (BaseMetric.metric_id b)
         && org_id_match (BaseMetric.organization_id b)
         && negb (utcnow 0%nat <? BaseMetric.timestamp b)%Z
    /\ SystemMetric.validation_errors self'
       = base_errors uuid_parses (utcnow 0%nat) (BaseMetric.metric_id b)
           (BaseMetric.organization_id b) (BaseMetric.timestamp b)
         ++ (if over_response then ["Response time exceeds threshold"] else [])
         ++ (if over_cpu then ["CPU usage exceeds threshold"] else [])
         ++ (if over_memory then ["Memory usage exceeds threshold"] else []).
Proof.
  destruct self as [[id org ts md v e] rt cpu mem users errs thr hist].
  unfold SystemMetric.__post_init__. cbv zeta.
  cbn [Calculator.sm_base Calculator.resource_thresholds Calculator.response_time
       Calculator.cpu_usage Calculator.memory_usage BaseMetric.metric_id
       BaseMetric.organization_id BaseMetric.timestamp].
  rewrite base_post_init_eq. unfold SystemMetric.set_base at 1.
  cbn [Calculator.response_time Calculator.cpu_usage Calculator.memory_usage
       Calculator.concurrent_users Calculator.error_counts
       Calculator.resource_thresholds Calculator.performance_history].
  destruct (SystemMetric.validate_thresholds _) as [s1| |] eqn:Ev; cbn [bind];
    try discriminate.
  intros Hu.
  destruct (validate_thresholds_eq _ _ Ev) as (o1 & o2 & o3 & H1 & H2 & H3 & Herr & Hval).
  cbn [Calculator.response_time Calculator.cpu_usage Calculator.memory_usage
       Calculator.resource_thresholds] in H1, H2, H3.
  exists o1, o2, o3. split; [exact H1|]. split; [exact H2|]. split; [exact H3|].
  unfold SystemMetric.update_performance_history in Hu.
  destruct (SystemMetric.history_append "response_times" _ _) as [a1| |];
    cbn [bind] in Hu; try discriminate Hu.
  destruct (SystemMetric.history_append "cpu_usage" _ _) as [a2| |];
    cbn [bind] in Hu; try discriminate Hu.
  destruct (SystemMetric.history_append "memory_usage" _ _) as [a3| |];
    cbn [bind] in Hu; try discriminate Hu.
  destruct (SystemMetric.history_append "timestamps" _ _) as [a4| |];
    cbn [bind] in Hu; try discriminate Hu.
  apply Ok_inj in Hu. subst self'.
  unfold SystemMetric.is_valid, SystemMetric.validation_errors,
    SystemMetric.set_performance_history in *.
  cbn [Calculator.sm_base] in *. cbn [BaseMetric.is_valid BaseMetric.validation_errors] in *.
  split; [rewrite Hval; reflexivity|exact Herr].
Qed.

Lemma system_metric_limits_do_not_touch_is_valid_witness :
  let self := sample_system_metric (25 # 10) in
  let self' := sample_built_system_metric in
  let b := Calculator.sm_base self in
  let thresholds := Calculator.resource_thresholds self in
  exists over_response over_cpu over_memory,
    SystemMetric.greater (Calculator.response_time self)
      (dict_get_default "max_response_time" (PFloat 2) thresholds) = Ok over_response
    /\ SystemMetric.greater (Calculator.cpu_usage self)
         (dict_get_default "max_cpu_usage" (PFloat 80) thresholds) = Ok over_cpu
    /\ SystemMetric.greater (Calculator.memory_usage self)
         (dict_get_default "max_memory_usage" (PFloat 80) thresholds) = Ok over_memory
    /\ SystemMetric.is_valid self'
       = uuid_canonical (BaseMetric.metric_id b)
         && org_id_match (BaseMetric.organization_id b)
         && negb (sample_clock 0%nat <? BaseMetric.timestamp b)%Z
    /\ SystemMetric.validation_errors self'
       = base_errors uuid_canonical (sample_clock 0%nat) (BaseMetric.metric_id b)
           (BaseMetric.organization_id b) (BaseMetric.timestamp b)
         ++ (if over_response then ["Response time exceeds threshold"] else [])
         ++ (if over_cpu then ["CPU usage exceeds threshold"] else [])
         ++ (if over_memory then ["Memory usage exceeds threshold"] else []).
Proof.
  apply (system_metric_limits_do_not_touch_is_valid uuid_canonical sample_clock
           (sample_system_metric (25 # 10)) sample_built_system_metric).
  vm_compute. reflexivity.
Defined.

(* ================================================================== *)
(** ** Further facts: compositions *)


(** X28.  [calculate_delivery_rate] is not idempotent on the error list:
    called again on the metric it returned, it returns the same rate and
    appends the SLA error a second time.  (The constructor calls it once;
    every later call on a metric below 99% adds one more copy.) *)
Theorem repeated_rate_calculation_repeats_the_error
        (now1 now2 : datetime) (self : MessageMetric.t) :
  let total := MessageMetric.total_messages self in
  let delivered := MessageMetric.delivered_messages self in
  history_is_list (BaseMetric.metadata (MessageMetric.base self)) = true ->
  total <> 0%Z ->
  exact_rate total delivered < 99 ->
  exists rate once twice,
    MessageMetric.calculate_delivery_rate now1 self = Ok (rate, once)
    /\ MessageMetric.calculate_delivery_rate now2 once = Ok (rate, twice)
    /\ MessageMetric.validation_errors twice
       = MessageMetric.validation_errors self
         ++ ["Delivery rate below SLA requirement of 99%";
             "Delivery rate below SLA requirement of 99%"].
Proof.
  destruct self as [[id org ts md v e] total delivered failed b q ty r].
  cbn [MessageMetric.delivered_messages MessageMetric.total_messages
       MessageMetric.base BaseMetric.metadata]. cbv zeta.
  intros Hh Ht Hlow.
  destruct (calculate_delivery_rate_eq now1 id org ts md v e total delivered failed
              b q ty r Hh) as (md1 & H1 & Hh1).
  rewrite H1.
  match goal with
  | |- context [BaseMetric.mk id org ts md1 v ?e1] =>
      destruct (calculate_delivery_rate_eq now2 id org ts md1 v e1 total delivered
                  failed b q ty r Hh1) as (md2 & H2 & _)
  end.
  eexists. eexists. eexists. split; [reflexivity|]. split; [exact H2|].
  unfold MessageMetric.validation_errors.
  cbn [MessageMetric.base BaseMetric.validation_errors].
  unfold sla_errors. destruct (Z.eqb_spec total 0) as [|_]; [contradiction|].
  fold (exact_rate total delivered).
  destruct (Qlt_le_dec (exact_rate total delivered) 99) as [_|H].
  - rewrite <- app_assoc. reflexivity.
  - exfalso. apply (Qlt_not_le _ _ Hlow H).
Qed.

Lemma repeated_rate_calculation_repeats_the_error_witness :
  exists rate once twice,
    MessageMetric.calculate_delivery_rate (sample_clock 0%nat)
      (stored_metric true 100 90 0) = Ok (rate, once)
    /\ MessageMetric.calculate_delivery_rate (sample_clock 1%nat) once
       = Ok (rate, twice)
    /\ MessageMetric.validation_errors twice
       = MessageMetric.validation_errors (stored_metric true 100 90 0)
         ++ ["Delivery rate below SLA requirement of 99%";
             "Delivery rate below SLA requirement of 99%"].
Proof.
  apply (repeated_rate_calculation_repeats_the_error (sample_clock 0%nat)
           (sample_clock 1%nat) (stored_metric true 100 90 0)).
  - reflexivity.
  - discriminate.
  - reflexivity.
Defined.

(* ================================================================== *)
(** ** Further facts: the checks of the health report *)

Lemma checks_get_set_eq k v d :
  RouteSystemMetric.checks_get k (RouteSystemMetric.checks_set k v d) = Some v.
Proof.
  induction d as [|[k' v'] d IH];
    cbn [RouteSystemMetric.checks_set RouteSystemMetric.checks_get].
  - rewrite String.eqb_refl. reflexivity.
  - destruct (String.eqb k k') eqn:E; cbn [RouteSystemMetric.checks_get].
    + rewrite String.eqb_refl. reflexivity.
    + rewrite E. exact IH.
Qed.

Lemma checks_get_set_neq k k' v d :
  String.eqb k k' = false ->
  RouteSystemMetric.checks_get k (RouteSystemMetric.checks_set k' v d)
  = RouteSystemMetric.checks_get k d.
Proof.
  intros Hk. induction d as [|[k0 v0] d IH];
    cbn [RouteSystemMetric.checks_set RouteSystemMetric.checks_get].
  - rewrite Hk. reflexivity.
  - destruct (String.eqb k' k0) eqn:E; cbn [RouteSystemMetric.checks_get].
    + apply String.eqb_eq in E. subst k0. rewrite Hk. reflexivity.
    + rewrite IH. reflexivity.
Qed.

Lemma check_resource_sets state entry :
  snd (RouteSystemMetric.check_resource state entry)
  = RouteSystemMetric.checks_set ("resource_" ++ fst entry)
      (if Qlt_le_dec 80 (snd entry) then "warning" else "healthy") (snd state).
Proof.
  unfold RouteSystemMetric.check_resource.
  destruct (Qlt_le_dec 80 (snd entry)); reflexivity.
Qed.

(** The loop over the resources leaves a key alone that is the key of none
    of them. *)
Lemma resources_keep_other_keys k usage : forall state,
  (forall entry, In entry usage ->
                 String.eqb k ("resource_" ++ fst entry) = false) ->
  RouteSystemMetric.checks_get k
    (snd (fold_left RouteSystemMetric.check_resource usage state))
  = RouteSystemMetric.checks_get k (snd state).
Proof.
  induction usage as [|entry usage IH]; intros state H; [reflexivity|].
  cbn [fold_left]. rewrite IH by (intros e He; apply H; right; exact He).
  rewrite check_resource_sets. apply checks_get_set_neq. apply H. left. reflexivity.
Qed.

Lemma resource_key_injective r r' :
  String.eqb ("resource_" ++ r) ("resource_" ++ r') = String.eqb r r'.
Proof. reflexivity. Qed.

Lemma resources_statuses usage : forall state resource value,
  NoDup (map fst usage) -> In (resource, value) usage ->
  RouteSystemMetric.checks_get ("resource_" ++ resource)
    (snd (fold_left RouteSystemMetric.check_resource usage state))
  = Some (if Qlt_le_dec 80 value then "warning" else "healthy").
Proof.
  induction usage as [|entry usage IH]; intros state resource value Hnd Hin;
    [destruct Hin|].
  cbn [map] in Hnd. inversion Hnd as [|? ? Hnot Hnd']; subst.
  cbn [fold_left]. destruct Hin as [->|Hin].
  - rewrite resources_keep_other_keys.
    + rewrite check_resource_sets. cbn [fst snd]. apply checks_get_set_eq.
    + intros e He. rewrite resource_key_injective. cbn [fst] in *.
      destruct (String.eqb_spec resource (fst e)) as [->|]; [|reflexivity].
      exfalso. apply Hnot. apply in_map. exact He.
  - apply IH; assumption.
Qed.

(** X30.  The checks of the health report are not overwritten by the
    loop over the resources: 'response_time' is 'warning' exactly when the
    response time is above 2.0, 'concurrent_users' exactly when there are
    more than 1000 users, whatever the resources are called, and each
    resource has, under resource_<name>, the status of its own usage
    ('warning' above 80). *)
Theorem health_checks_report_each_limit (now : datetime) (self : RouteSystemMetric.t) :
  let report := RouteSystemMetric.check_health now self in
  RouteSystemMetric.checks_get "response_time" (RouteSystemMetric.checks report)
  = Some (if Qlt_le_dec 2 (RouteSystemMetric.response_time self)
          then "warning" else "healthy")
  /\ RouteSystemMetric.checks_get "concurrent_users" (RouteSystemMetric.checks report)
     = Some (if (1000 <? RouteSystemMetric.concurrent_users self)%Z
             then "warning" else "healthy")
  /\ (NoDup (map fst (RouteSystemMetric.resource_usage self)) ->
      forall resource value,
        In (resource, value) (RouteSystemMetric.resource_usage self) ->
        RouteSystemMetric.checks_get ("resource_" ++ resource)
          (RouteSystemMetric.checks report)
        = Some (if Qlt_le_dec 80 value then "warning" else "healthy")).
Proof.
  cbv zeta. unfold RouteSystemMetric.check_health. cbv zeta.
  cbn [RouteSystemMetric.checks]. unfold RouteSystemMetric.scored. cbv zeta.
  split; [|split].
  - rewrite resources_keep_other_keys by (intros; reflexivity).
    destruct (Qlt_le_dec 2 (RouteSystemMetric.response_time self));
      destruct (1000 <? RouteSystemMetric.concurrent_users self)%Z; reflexivity.
  - rewrite resources_keep_other_keys by (intros; reflexivity).
    destruct (Qlt_le_dec 2 (RouteSystemMetric.response_time self));
      destruct (1000 <? RouteSystemMetric.concurrent_users self)%Z; reflexivity.
  - intros Hnd resource value Hin. apply resources_statuses; assumption.
Qed.

(* ================================================================== *)
(** ** Concrete runs *)

Example uuid_canonical_accepts : uuid_canonical sample_uuid = true.
Proof. reflexivity. Qed.

Example uuid_canonical_rejects : uuid_canonical "not-a-uuid" = false.
Proof. reflexivity. Qed.

Example org_id_needs_four_characters :
  org_id_match "org-1" = true /\ org_id_match "abc" = false
  /\ org_id_match "org_1" = false.
Proof. repeat split. Qed.

Example round_half_to_even :
  py_round2 (3125 # 1000) == 312 # 100 /\ py_round2 (2375 # 1000) == 238 # 100.
Proof. split; reflexivity. Qed.

Example rate_of_zero_total :
  MessageMetric.calculate_delivery_rate (sample_clock 0%nat) (stored_metric true 0 0 0)
  = Ok (0, stored_metric true 0 0 0).
Proof. reflexivity. Qed.

Example summary_of_empty_sample_raises :
  Calculator.calculate_statistical_summary [] default_options
  = Raise (ValueError
      "zero-size array to reduction operation minimum which has no identity").
Proof. reflexivity. Qed.

Example average_delivery_rate_is_weighted :
  MessageDeliveryReport._calculate_average_delivery_rate
    (MessageDeliveryReport.mk (report_over sample_start (sample_start + td_hours 24)%Z)
       [stored_metric true 1000 1000 100; stored_metric true 10 9 90]
       [] [] [] [] 0)
  = Ok (999 # 10).
Proof. reflexivity. Qed.

Example percentile_interpolates : Np.percentile [1; 2; 3; 4] 50 = Ok (250 # 100).
Proof. reflexivity. Qed.

Example percentile_out_of_range :
  Np.percentile [1; 2; 3; 4] 101
  = Raise (ValueError "Percentiles must be in the range [0, 100]").
Proof. reflexivity. Qed.

Example delivery_statistics_of_sample_metrics :
  Calculator.calculate_delivery_statistics
    (AsWritten._calculate_historical_trends sample_history sample_slope
       (fun _ => PNone))
    sample_calculator (sample_clock 0%nat) sample_metrics sample_start
  = Raise (AttributeError
      "'MetricsCalculator' object has no attribute '_calculate_yoy_change'").
Proof. reflexivity. Qed.

Example performance_statistics_of_sample_metrics :
  Calculator.calculate_performance_statistics
    AsWritten._calculate_health_status AsWritten._generate_performance_predictions
    sample_calculator (sample_clock 0%nat) sample_system_metrics false
  = Raise (AttributeError
      "'MetricsCalculator' object has no attribute '_calculate_health_status'").
Proof. reflexivity. Qed.

Example sla_evaluation_of_sample_report :
  MessageDeliveryReport._evaluate_sla_compliance
    AsWritten._calculate_compliance_trend AsWritten._identify_sla_violations
    (sample_delivery_report (995 # 10))
  = Raise (AttributeError
      "'MessageDeliveryReport' object has no attribute '_calculate_compliance_trend'").
Proof. reflexivity. Qed.

Example mixed_sample_ratio :
  Np.mean_bool (Calculator.at_least 99 [100; 985 # 10; 99; 90]) == 1 # 2.
Proof. reflexivity. Qed.

Example weekly_boundaries :
  BaseReport._calculate_partition_boundaries BaseReport.stdlib_timedelta 10
    (report_over 0%Z (td_days 15)) "weekly"
  = Ok [0%Z; td_days 7; td_days 14].
Proof. reflexivity. Qed.

Example request_of_90_days_accepted :
  ReportRequest.validate sample_clock
    (ReportRequest.mk "org-1" "delivery" sample_start
       (sample_start + td_days 90)%Z [] "daily" true [])
  = Ok (ReportRequest.mk "org-1" "delivery" sample_start
          (sample_start + td_days 90)%Z [] "daily" true []).
Proof. reflexivity. Qed.

Example request_of_91_days_rejected :
  ReportRequest.validate sample_clock
    (ReportRequest.mk "org-1" "delivery" sample_start
       (sample_start + td_days 91)%Z [] "daily" true [])
  = Raise (ValidationError [("end_time", "Time range cannot exceed 90 days")]).
Proof. reflexivity. Qed.
